(** * Concert aggregation service: grouping, cache, listing and detail lookup

    A shallow embedding of [backend/aggregation_service/main.py] together
    with the parts of the Python runtime it leans on ([str.split],
    [str.lower], [datetime.strftime]/[strptime]/[isoformat], [timedelta]
    subtraction, [json.dumps], insertion-ordered [dict], the stable
    [list.sort]).

    Conventions.
    - A Python [str] is a [string]; a character is a code point below 256.
    - [Optional[T]] is [option T]; truthiness ([if x], [x or y]) is written
      out ([truthy]).
    - A [dict] is an association list in insertion order with unique keys.
    - [datetime.utcnow()] is the [n]-th reading of an abstract clock; the
      number of readings made so far is part of the state.
    - A POSIX timestamp (a float number of seconds in Python) is an exact
      integer number of microseconds.
    - The upstream browse service is an oracle from the request parameters to
      the outcome of the HTTP call. *)

From Stdlib Require Import List String Ascii ZArith Bool Lia Permutation Sorted.
From Stdlib Require Import DecimalString.
From Stdlib Require DecimalZ DecimalPos.
Import ListNotations.

Local Open Scope string_scope.
Local Open Scope Z_scope.

(* ------------------------------------------------------------------ *)
(** ** Python strings *)

Module PyStr.

Definition chr (n : nat) : string := String (ascii_of_nat n) EmptyString.

Definition code (c : ascii) : Z := Z.of_nat (nat_of_ascii c).

(** [sep.join(parts)] *)
Fixpoint join (sep : string) (parts : list string) : string :=
  match parts with
  | [] => EmptyString
  | [p] => p
  | p :: rest => p ++ sep ++ join sep rest
  end.

(** [s.split(sep)] for a one-character separator: the pieces between
    occurrences of [sep]; never an empty list. *)
Fixpoint split_acc (sep : ascii) (cur : string) (s : string) : list string :=
  match s with
  | EmptyString => [cur]
  | String c s' =>
      if Ascii.eqb c sep
      then cur :: split_acc sep EmptyString s'
      else split_acc sep (cur ++ String c EmptyString) s'
  end.

Definition split (sep : ascii) (s : string) : list string :=
  split_acc sep EmptyString s.

(** [c.lower()] on code points below 256: A-Z, and the Latin-1 capitals
    0xC0-0xDE except the multiplication sign 0xD7. *)
Definition lower_char (c : ascii) : ascii :=
  let n := code c in
  if ((65 <=? n) && (n <=? 90))
     || ((192 <=? n) && (n <=? 222) && negb (n =? 215))
  then ascii_of_nat (Z.to_nat (n + 32))
  else c.

Fixpoint lower (s : string) : string :=
  match s with
  | EmptyString => EmptyString
  | String c s' => String (lower_char c) (lower s')
  end.

(** [a < b] on strings: lexicographic on code points. *)
Definition ltb (a b : string) : bool := String.ltb a b.

(** [str(n)] for an [int]. *)
Definition of_int (n : Z) : string := NilZero.string_of_int (Z.to_int n).

(** ["%0<w>d" % n] for [0 <= n]: decimal digits, zero-filled on the left
    up to width [w], never truncated. *)
Fixpoint zeros (k : nat) : string :=
  match k with
  | O => EmptyString
  | S k' => String "0" (zeros k')
  end.

Definition zfill (w : nat) (n : Z) : string :=
  let d := of_int n in
  zeros (w - String.length d) ++ d.

(** Truthiness of an optional string: [None] and the empty string are
    falsy. *)
Definition truthy (o : option string) : bool :=
  match o with
  | Some s => negb (String.eqb s EmptyString)
  | None => false
  end.

(** [o or default] where the result is used as a string. *)
Definition or_default (o : option string) (default : string) : string :=
  match o with
  | Some s => if String.eqb s EmptyString then default else s
  | None => default
  end.

(** [o or None]. *)
Definition or_none (o : option string) : option string :=
  if truthy o then o else None.

End PyStr.

(* ------------------------------------------------------------------ *)
(** ** [datetime] *)

Record datetime : Type := mk_datetime {
  dt_year : Z;
  dt_month : Z;
  dt_day : Z;
  dt_hour : Z;
  dt_minute : Z;
  dt_second : Z;
  dt_microsecond : Z
}.

Module PyDate.

Definition is_leap (year : Z) : bool :=
  (year mod 4 =? 0) && (negb (year mod 100 =? 0) || (year mod 400 =? 0)).

Definition days_in_month_table : list Z :=
  [-1; 31; 28; 31; 30; 31; 30; 31; 31; 30; 31; 30; 31].

Definition days_before_month_table : list Z :=
  [-1; 0; 31; 59; 90; 120; 151; 181; 212; 243; 273; 304; 334].

Definition days_in_month (year month : Z) : Z :=
  if (month =? 2) && is_leap year then 29
  else nth (Z.to_nat month) days_in_month_table 0.

Definition days_before_year (year : Z) : Z :=
  let y := year - 1 in
  y * 365 + y / 4 - y / 100 + y / 400.

Definition days_before_month (year month : Z) : Z :=
  nth (Z.to_nat month) days_before_month_table 0
  + (if (2 <? month) && is_leap year then 1 else 0).

Definition ymd2ord (year month day : Z) : Z :=
  days_before_year year + days_before_month year month + day.

Definition MAXORDINAL : Z := 3652059.

(** [_ord2ymd]: the inverse of [ymd2ord], by the 400/100/4/1-year cycles. *)
Definition ord2ymd (ordinal : Z) : Z * Z * Z :=
  let n := ordinal - 1 in
  let n400 := n / 146097 in
  let n := n mod 146097 in
  let year := n400 * 400 + 1 in
  let n100 := n / 36524 in
  let n := n mod 36524 in
  let n4 := n / 1461 in
  let n := n mod 1461 in
  let n1 := n / 365 in
  let n := n mod 365 in
  let year := year + n100 * 100 + n4 * 4 + n1 in
  if (n1 =? 4) || (n100 =? 4) then (year - 1, 12, 31)
  else
    let leapyear := (n1 =? 3) && (negb (n4 =? 24) || (n100 =? 3)) in
    let month := Z.shiftr (n + 50) 5 in
    let preceding :=
      nth (Z.to_nat month) days_before_month_table 0
      + (if (2 <? month) && leapyear then 1 else 0) in
    if n <? preceding then
      let month := month - 1 in
      let preceding :=
        preceding
        - (nth (Z.to_nat month) days_in_month_table 0
           + (if (month =? 2) && leapyear then 1 else 0)) in
      (year, month, n - preceding + 1)
    else (year, month, n - preceding + 1).

Definition toordinal (d : datetime) : Z :=
  ymd2ord (dt_year d) (dt_month d) (dt_day d).

(** [d - timedelta(days=n)]: [None] stands for [OverflowError]. *)
Definition sub_days (d : datetime) (n : Z) : option datetime :=
  let o := toordinal d - n in
  if (0 <? o) && (o <=? MAXORDINAL) then
    let '(y, m, dd) := ord2ymd o in
    Some (mk_datetime y m dd (dt_hour d) (dt_minute d) (dt_second d)
            (dt_microsecond d))
  else None.

(** Comparison of naive datetimes is comparison of the field tuples. *)
Definition fields (d : datetime) : list Z :=
  [dt_year d; dt_month d; dt_day d; dt_hour d; dt_minute d; dt_second d;
   dt_microsecond d].

Fixpoint lex_ltb (a b : list Z) : bool :=
  match a, b with
  | [], [] => false
  | [], _ :: _ => true
  | _ :: _, [] => false
  | x :: a', y :: b' =>
      if x <? y then true else if y <? x then false else lex_ltb a' b'
  end.

Definition ltb (a b : datetime) : bool := lex_ltb (fields a) (fields b).

(** [a <= b] *)
Definition leb (a b : datetime) : bool := negb (ltb b a).

(** [d.date()] and equality of dates. *)
Definition date (d : datetime) : Z * Z * Z :=
  (dt_year d, dt_month d, dt_day d).

Definition date_eqb (a b : Z * Z * Z) : bool :=
  let '(y1, m1, d1) := a in
  let '(y2, m2, d2) := b in
  (y1 =? y2) && (m1 =? m2) && (d1 =? d2).

(** [d.timestamp()] in microseconds, local zone offset taken as zero. *)
Definition timestamp (d : datetime) : Z :=
  ((toordinal d - 719163) * 86400
   + dt_hour d * 3600 + dt_minute d * 60 + dt_second d) * 1000000
  + dt_microsecond d.

(** [d.strftime("%Y-%m-%d")].  The C library renders [%Y]: glibc prints a
    year below 1000 without leading zeros, other platforms (and CPython
    from 3.13 on) fill to four digits. *)
Definition strftime_ymd (year_padded : bool) (d : datetime) : string :=
  (if year_padded then PyStr.zfill 4 (dt_year d)
   else PyStr.of_int (dt_year d))
  ++ "-" ++ PyStr.zfill 2 (dt_month d)
  ++ "-" ++ PyStr.zfill 2 (dt_day d).

(** [d.isoformat()] *)
Definition isoformat (d : datetime) : string :=
  PyStr.zfill 4 (dt_year d) ++ "-" ++ PyStr.zfill 2 (dt_month d)
  ++ "-" ++ PyStr.zfill 2 (dt_day d) ++ "T"
  ++ PyStr.zfill 2 (dt_hour d) ++ ":" ++ PyStr.zfill 2 (dt_minute d)
  ++ ":" ++ PyStr.zfill 2 (dt_second d)
  ++ (if dt_microsecond d =? 0 then EmptyString
      else "." ++ PyStr.zfill 6 (dt_microsecond d)).

(** *** [datetime.strptime(s, "%Y-%m-%d")]

    [_strptime] compiles the format to the regular expression
    [(\d\d\d\d)-(1[0-2]|0[1-9]|[1-9])-(3[0-1]|[1-2]\d|0[1-9]|[1-9]| [1-9])],
    matches it at the start of the string, rejects trailing input and
    then builds the date, rejecting year 0 and days past the month's end.
    [None] stands for [ValueError]. *)

Definition is_digit (c : ascii) : bool :=
  let n := PyStr.code c in (48 <=? n) && (n <=? 57).

Definition digit (c : ascii) : Z := PyStr.code c - 48.

Definition in_range (lo hi : Z) (c : ascii) : bool :=
  is_digit c && (lo <=? digit c) && (digit c <=? hi).

(** The day group: first alternative that matches a prefix. *)
Definition match_day (s : string) : option (Z * string) :=
  match s with
  | String a (String b r) =>
      if Ascii.eqb a "3" && in_range 0 1 b then Some (30 + digit b, r)
      else if in_range 1 2 a && is_digit b
           then Some (10 * digit a + digit b, r)
      else if Ascii.eqb a "0" && in_range 1 9 b then Some (digit b, r)
      else if in_range 1 9 a then Some (digit a, String b r)
      else if Ascii.eqb a " " && in_range 1 9 b then Some (digit b, r)
      else None
  | String a r => if in_range 1 9 a then Some (digit a, r) else None
  | EmptyString => None
  end.

(** What follows the month group: ["-"], the day group, end of input. *)
Definition match_after_month (s : string) : option Z :=
  match s with
  | String c r =>
      if Ascii.eqb c "-" then
        match match_day r with
        | Some (d, EmptyString) => Some d
        | _ => None
        end
      else None
  | EmptyString => None
  end.

(** The month group with backtracking over its alternatives. *)
Definition match_month (s : string) : option (Z * Z) :=
  let alt2 :=
    match s with
    | String a (String b r) =>
        if (Ascii.eqb a "1" && in_range 0 2 b)
           || (Ascii.eqb a "0" && in_range 1 9 b)
        then option_map (fun d => (10 * digit a + digit b, d))
               (match_after_month r)
        else None
    | _ => None
    end in
  match alt2 with
  | Some md => Some md
  | None =>
      match s with
      | String a r =>
          if in_range 1 9 a
          then option_map (fun d => (digit a, d)) (match_after_month r)
          else None
      | EmptyString => None
      end
  end.

Definition strptime_ymd (s : string) : option datetime :=
  match s with
  | String y1 (String y2 (String y3 (String y4 (String dash r)))) =>
      if is_digit y1 && is_digit y2 && is_digit y3 && is_digit y4
         && Ascii.eqb dash "-"
      then
        match match_month r with
        | Some (month, day) =>
            let year :=
              1000 * digit y1 + 100 * digit y2 + 10 * digit y3 + digit y4 in
            if (1 <=? year) && (day <=? days_in_month year month)
            then Some (mk_datetime year month day 0 0 0 0)
            else None
        | None => None
        end
      else None
  | _ => None
  end.

End PyDate.

(* ------------------------------------------------------------------ *)
(** ** Insertion-ordered dictionaries with string keys *)

Module PyDict.

Section Dict.
Context {V : Type}.

Definition t : Type := list (string * V).

(** [d.get(k)] *)
Fixpoint get (k : string) (d : t) : option V :=
  match d with
  | [] => None
  | (k', v) :: d' => if String.eqb k' k then Some v else get k d'
  end.

(** [d[k] = v]: an existing key keeps its position, a new one goes last. *)
Fixpoint set (k : string) (v : V) (d : t) : t :=
  match d with
  | [] => [(k, v)]
  | (k', v') :: d' =>
      if String.eqb k' k then (k', v) :: d' else (k', v') :: set k v d'
  end.

(** [del d[k]] *)
Fixpoint del (k : string) (d : t) : t :=
  match d with
  | [] => []
  | (k', v') :: d' =>
      if String.eqb k' k then d' else (k', v') :: del k d'
  end.

Definition keys (d : t) : list string := map fst d.
Definition values (d : t) : list V := map snd d.
End Dict.

Arguments t : clear implicits.

End PyDict.

(* ------------------------------------------------------------------ *)
(** ** Data model ([shared/models.py] and the concert dictionaries) *)

Record ArchiveTrack : Type := mk_track {
  track_number : option Z;
  track_title : string;
  filename : string;
  file_format : option string;
  file_size : option Z;
  duration : option Z;
  download_url : option string
}.

(** [ArchiveItem]: pydantic validates [date] as [Optional[datetime]], so a
    present date is always a [datetime] object. *)
Record ArchiveItem : Type := mk_item {
  identifier : string;
  title : string;
  artist : option string;
  date : option datetime;
  venue : option string;
  location : option string;
  description : option string;
  source : option string;
  taper : option string;
  lineage : option string;
  total_tracks : Z;
  total_size : Z;
  tracks : option (list ArchiveTrack);
  downloads : Z
}.

(** One element of a concert's ["recordings"] list. *)
Record ConcertRecording : Type := mk_recording {
  r_id : string;
  r_archive_identifier : string;
  r_title : string;
  r_description : option string;
  r_source : option string;
  r_taper : option string;
  r_lineage : option string;
  r_total_tracks : Z;
  r_total_size : Z;
  r_tracks : option (list ArchiveTrack);
  r_downloads : Z;
  r_created_at : string
}.

(** The concert dictionary built by [group_recordings_by_concert]. *)
Record Concert : Type := mk_concert {
  c_id : string;
  c_concert_key : string;
  c_artist : string;
  c_date : datetime;
  c_venue : option string;
  c_location : option string;
  c_title : string;
  c_description : string;
  c_source : string;
  c_taper : option string;
  c_lineage : option string;
  c_total_recordings : Z;
  c_total_tracks : Z;
  c_total_size : Z;
  c_total_downloads : Z;
  c_indexed_at : string;
  c_last_updated : string;
  c_recordings : list ConcertRecording
}.

(** [sum(f(r) for r in rs)] *)
Definition py_sum {A : Type} (f : A -> Z) (rs : list A) : Z :=
  fold_left (fun acc r => acc + f r) rs 0.

(** [max(xs, key=key)] on a non-empty sequence [best :: xs]: the running
    maximum is replaced only by a strictly larger element. *)
Fixpoint py_max_by {A : Type} (key : A -> Z) (best : A) (xs : list A) : A :=
  match xs with
  | [] => best
  | x :: xs' => py_max_by key (if key best <? key x then x else best) xs'
  end.

(* ------------------------------------------------------------------ *)
(** ** The grouper *)

Section Grouper.

(** Platform rendering of [%Y] (see [PyDate.strftime_ymd]). *)
Variable year_padded : bool.

(** The [n]-th reading of [datetime.utcnow()]. *)
Variable clock : nat -> datetime.

(** A present [date] is a [datetime], so the [strftime] branch is the one
    taken; the [str(item.date)[:10]] branch is never reached. *)
Definition extract_concert_key (item : ArchiveItem) : string :=
  let artist := PyStr.or_default (artist item) "Unknown Artist" in
  let date_str :=
    match date item with
    | Some d => PyDate.strftime_ymd year_padded d
    | None => "unknown"
    end in
  artist ++ "|" ++ date_str.

(** The first loop: [concert_groups[key].append(item)] on a
    [defaultdict(list)]. *)
Definition add_to_group (concert_groups : PyDict.t (list ArchiveItem))
    (item : ArchiveItem) : PyDict.t (list ArchiveItem) :=
  let key := extract_concert_key item in
  let bucket :=
    match PyDict.get key concert_groups with
    | Some b => b
    | None => []
    end in
  PyDict.set key (bucket ++ [item])%list concert_groups.

Definition concert_groups (items : list ArchiveItem)
  : PyDict.t (list ArchiveItem) :=
  fold_left add_to_group items [].

(** [recording.venue and recording.venue != "Unknown Venue"] *)
Definition usable_venue (r : ArchiveItem) : bool :=
  PyStr.truthy (venue r)
  && negb (match venue r with
           | Some v => String.eqb v "Unknown Venue"
           | None => false
           end).

Definition count_venue (venue_counts : PyDict.t Z) (r : ArchiveItem)
  : PyDict.t Z :=
  match venue r with
  | Some v =>
      if usable_venue r then
        let n := match PyDict.get v venue_counts with
                 | Some n => n
                 | None => 0
                 end in
        PyDict.set v (n + 1) venue_counts
      else venue_counts
  | None => venue_counts
  end.

Definition venue_counts (recordings : list ArchiveItem) : PyDict.t Z :=
  fold_left count_venue recordings [].

Definition counts_get (counts : PyDict.t Z) (v : string) : Z :=
  match PyDict.get v counts with
  | Some n => n
  | None => 0
  end.

Definition resolve_venue (recordings : list ArchiveItem) : option string :=
  let counts := venue_counts recordings in
  match PyDict.keys counts with
  | v :: vs => Some (py_max_by (counts_get counts) v vs)
  | [] =>
      match find usable_venue recordings with
      | Some r => venue r
      | None => None
      end
  end.

Definition recording_view (t : nat) (r : ArchiveItem) : ConcertRecording :=
  {| r_id := identifier r;
     r_archive_identifier := identifier r;
     r_title := title r;
     r_description := description r;
     r_source := source r;
     r_taper := taper r;
     r_lineage := lineage r;
     r_total_tracks := total_tracks r;
     r_total_size := total_size r;
     r_tracks := tracks r;
     r_downloads := downloads r;
     r_created_at := PyDate.isoformat (clock t) |}.

(** The list comprehension: one clock reading per recording. *)
Fixpoint recording_views (t : nat) (rs : list ArchiveItem)
  : list ConcertRecording :=
  match rs with
  | [] => []
  | r :: rs' => recording_view t r :: recording_views (S t) rs'
  end.

(** One pass of the second loop's body; [None] is [continue].  The clock
    is read at [t] and [t + 1] for the two stamps and once per recording
    after that. *)
Definition make_concert (t : nat) (key : string)
    (recordings : list ArchiveItem) : option Concert :=
  match recordings with
  | [] => None
  | base_recording :: _ =>
      match PyStr.split "|" key with
      | [artist; date_str] =>
          match PyDate.strptime_ymd date_str with
          | None => None
          | Some concert_date =>
              let venue := resolve_venue recordings in
              let title_parts :=
                ([artist]
                 ++ (if PyStr.truthy venue
                     then [PyStr.or_default venue EmptyString] else [])
                 ++ (if PyStr.truthy (location base_recording)
                     then [PyStr.or_default (location base_recording)
                             EmptyString]
                     else []))%list in
              Some
                {| c_id := key;
                   c_concert_key := key;
                   c_artist := artist;
                   c_date := concert_date;
                   c_venue := venue;
                   c_location := location base_recording;
                   c_title := PyStr.join "-" title_parts;
                   c_description :=
                     PyStr.or_default (description base_recording)
                       ("Live performance by " ++ artist);
                   c_source :=
                     PyStr.or_default (source base_recording)
                       "Multiple sources available";
                   c_taper := PyStr.or_none (taper base_recording);
                   c_lineage := PyStr.or_none (lineage base_recording);
                   c_total_recordings := Z.of_nat (List.length recordings);
                   c_total_tracks := py_sum total_tracks recordings;
                   c_total_size := py_sum total_size recordings;
                   c_total_downloads := py_sum downloads recordings;
                   c_indexed_at := PyDate.isoformat (clock t);
                   c_last_updated := PyDate.isoformat (clock (S t));
                   c_recordings := recording_views (S (S t)) recordings |}
          end
      | _ => None
      end
  end.

(** The second loop over [concert_groups.items()], threading the number
    of clock readings. *)
Fixpoint make_concerts (t : nat)
    (groups : list (string * list ArchiveItem)) : list Concert * nat :=
  match groups with
  | [] => ([], t)
  | (key, recordings) :: rest =>
      match make_concert t key recordings with
      | None => make_concerts t rest
      | Some concert =>
          let '(concerts, t') :=
            make_concerts (t + 2 + List.length recordings)%nat rest in
          (concert :: concerts, t')
      end
  end.

Definition group_recordings_by_concert (t : nat) (items : list ArchiveItem)
  : list Concert * nat :=
  make_concerts t (concert_groups items).

End Grouper.

(* ------------------------------------------------------------------ *)
(** ** Sorting: [sorted] and [list.sort] *)

Section PySort.
Context {A : Type}.

(** [lt a b] is Python's [a < b], the only comparison the sort uses. *)
Variable lt : A -> A -> bool.

(** Put [x] in front of an already sorted run that followed it: [x] stays
    ahead of everything that is not strictly smaller. *)
Fixpoint insert_sorted (x : A) (l : list A) : list A :=
  match l with
  | [] => [x]
  | y :: l' => if lt y x then y :: insert_sorted x l' else x :: y :: l'
  end.

(** A stable sort; the result of CPython's stable merge sort is the same
    list whenever [lt] is a strict weak order. *)
Definition py_sorted (l : list A) : list A :=
  fold_right insert_sorted [] l.

(** [l.sort(reverse=r)]: with [reverse] the list is reversed, sorted and
    reversed again, which keeps equal elements in their original order. *)
Definition py_sort (reverse : bool) (l : list A) : list A :=
  if reverse then rev (py_sorted (rev l)) else py_sorted l.
End PySort.

(** [l[a:b]] for integers [a], [b]. *)
Definition py_slice {A : Type} (l : list A) (a b : Z) : list A :=
  let len := Z.of_nat (List.length l) in
  let clamp i := if i <? 0 then Z.max (i + len) 0 else Z.min i len in
  skipn (Z.to_nat (clamp a)) (firstn (Z.to_nat (clamp b)) l).

(* ------------------------------------------------------------------ *)
(** ** Request parameters and the cache key *)

Inductive pvalue : Type :=
| PStr (s : string)
| PInt (n : Z).

Definition Params : Type := PyDict.t pvalue.

Module PyJson.

Definition quote : string := PyStr.chr 34.
Definition backslash : string := PyStr.chr 92.

Definition hex_char (n : Z) : ascii :=
  if n <? 10 then ascii_of_nat (Z.to_nat (48 + n))
  else ascii_of_nat (Z.to_nat (87 + n)).

(** One character of a string under [ensure_ascii=True]. *)
Definition escape_char (c : ascii) : string :=
  let n := PyStr.code c in
  if n =? 34 then backslash ++ quote
  else if n =? 92 then backslash ++ backslash
  else if n =? 10 then backslash ++ "n"
  else if n =? 13 then backslash ++ "r"
  else if n =? 9 then backslash ++ "t"
  else if n =? 8 then backslash ++ "b"
  else if n =? 12 then backslash ++ "f"
  else if (32 <=? n) && (n <=? 126) then String c EmptyString
  else backslash ++ "u00"
       ++ String (hex_char (n / 16)) (String (hex_char (n mod 16)) EmptyString).

Fixpoint escape (s : string) : string :=
  match s with
  | EmptyString => EmptyString
  | String c s' => escape_char c ++ escape s'
  end.

Definition dumps_str (s : string) : string := quote ++ escape s ++ quote.

Definition dumps_value (v : pvalue) : string :=
  match v with
  | PStr s => dumps_str s
  | PInt n => PyStr.of_int n
  end.

(** [json.dumps] of a list of [(name, value)] tuples. *)
Definition dumps (items : list (string * pvalue)) : string :=
  "["
  ++ PyStr.join ", "
       (map (fun kv => "[" ++ dumps_str (fst kv) ++ ", "
                       ++ dumps_value (snd kv) ++ "]") items)
  ++ "]".

End PyJson.

(** [<] on the [(name, value)] tuples of [params.items()].  The names of a
    dictionary are distinct, so the values are never compared by [sorted];
    Python would raise on a [str]/[int] pair. *)
Definition pvalue_ltb (a b : pvalue) : bool :=
  match a, b with
  | PStr x, PStr y => PyStr.ltb x y
  | PInt x, PInt y => x <? y
  | _, _ => false
  end.

Definition item_ltb (a b : string * pvalue) : bool :=
  if PyStr.ltb (fst a) (fst b) then true
  else if PyStr.ltb (fst b) (fst a) then false
  else pvalue_ltb (snd a) (snd b).

Definition get_cache_key (params : Params) : string :=
  let sorted_params := py_sorted item_ltb params in
  PyJson.dumps sorted_params.

(** The query parameters of [GET /concerts]. *)
Record ListingRequest : Type := mk_request {
  q_query : option string;
  q_date_range : option string;
  q_artist : option string;
  q_venue : option string;
  q_page : Z;
  q_per_page : Z;
  q_sort_by : option string;
  q_sort_order : option string;
  q_filter_by_concert_date : bool
}.

(** The dictionary sent to the browse service; [None] values are dropped. *)
Definition build_params (rq : ListingRequest) : Params :=
  let params :=
    [("query", option_map PStr (q_query rq));
     ("date_range", option_map PStr (q_date_range rq));
     ("artist", option_map PStr (q_artist rq));
     ("venue", option_map PStr (q_venue rq));
     ("page", Some (PInt (q_page rq)));
     ("per_page", Some (PInt (q_per_page rq * 3)));
     ("sort_by", option_map PStr (q_sort_by rq));
     ("sort_order", option_map PStr (q_sort_order rq))] in
  flat_map (fun kv => match snd kv with
                      | Some v => [(fst kv, v)]
                      | None => []
                      end) params.

(** The listing response. *)
Record Listing : Type := mk_listing {
  l_total : Z;
  l_page : Z;
  l_per_page : Z;
  l_total_pages : Z;
  l_results : list Concert
}.

(* ------------------------------------------------------------------ *)
(** ** World state, exceptions and the request monad *)

Record CacheEntry : Type := mk_entry {
  data : list Concert;
  timestamp : Z;
  raw_items : list ArchiveItem
}.

Record World : Type := mk_world {
  browse_cache : PyDict.t CacheEntry;
  ticks : nat;
  fetch_log : list Params
}.

(** How one call to the browse service ends. *)
Inductive FetchOutcome : Type :=
| FetchOk (results : list ArchiveItem)
| FetchBadBody
| FetchStatusError (status : Z)
| FetchTimeout
| FetchTransportError.

(** The exceptions that travel through the two endpoints. *)
Inductive exn : Type :=
| HTTPStatusError (status : Z)
| TimeoutException
| TransportError
| BodyError
| OverflowError
| ValueError
| HTTPException (status_code : Z) (detail : string).

Inductive result (A : Type) : Type :=
| Return (a : A)
| Raise (e : exn).
Arguments Return {A} a.
Arguments Raise {A} e.

(** What the framework sends back. *)
Inductive Reply (A : Type) : Type :=
| Ok (body : A)
| Fail (status_code : Z) (detail : string).
Arguments Ok {A} body.
Arguments Fail {A} status_code detail.

Definition M (A : Type) : Type := World -> result A * World.

Definition ret {A : Type} (a : A) : M A := fun w => (Return a, w).

Definition raise {A : Type} (e : exn) : M A := fun w => (Raise e, w).

Definition bind {A B : Type} (m : M A) (k : A -> M B) : M B :=
  fun w =>
    match m w with
    | (Return a, w') => k a w'
    | (Raise e, w') => (Raise e, w')
    end.

(** [try: m except ValueError: h] *)
Definition except_ValueError {A : Type} (m : M A) (h : M A) : M A :=
  fun w =>
    match m w with
    | (Raise ValueError, w') => h w'
    | r => r
    end.

Declare Scope py_scope.
Delimit Scope py_scope with py.
Notation "x <- m ;; k" := (bind m (fun x => k))
  (at level 61, m at next level, right associativity) : py_scope.
Notation "m ;;; k" := (bind m (fun _ => k))
  (at level 61, right associativity) : py_scope.

Definition CACHE_DURATION : Z := 300 * 1000000.

(* ------------------------------------------------------------------ *)
(** ** The engine: cache, listing and detail lookup *)

Section Engine.

Variable year_padded : bool.
Variable clock : nat -> datetime.

(** [upstream n params]: the outcome of the call with [params] when [n]
    calls were issued before it. *)
Variable upstream : nat -> Params -> FetchOutcome.

Local Open Scope py_scope.

(** [datetime.utcnow()] *)
Definition utcnow : M datetime :=
  fun w =>
    (Return (clock (ticks w)),
     mk_world (browse_cache w) (S (ticks w)) (fetch_log w)).

Definition get_browse_cache : M (PyDict.t CacheEntry) :=
  fun w => (Return (browse_cache w), w).

Definition put_browse_cache (c : PyDict.t CacheEntry) : M unit :=
  fun w => (Return tt, mk_world c (ticks w) (fetch_log w)).

(** [client.get(.../browse, params=params)], [raise_for_status()],
    [response.json()] and the construction of the [ArchiveItem]s. *)
Definition fetch_recordings (params : Params) : M (list ArchiveItem) :=
  fun w =>
    let w' := mk_world (browse_cache w) (ticks w)
                (fetch_log w ++ [params])%list in
    match upstream (List.length (fetch_log w)) params with
    | FetchOk results => (Return results, w')
    | FetchBadBody => (Raise BodyError, w')
    | FetchStatusError status => (Raise (HTTPStatusError status), w')
    | FetchTimeout => (Raise TimeoutException, w')
    | FetchTransportError => (Raise TransportError, w')
    end.

Definition run_grouper (items : list ArchiveItem) : M (list Concert) :=
  fun w =>
    let '(concerts, t') :=
      group_recordings_by_concert year_padded clock (ticks w) items in
    (Return concerts, mk_world (browse_cache w) t' (fetch_log w)).

Definition is_cache_valid (cache_entry : option CacheEntry) : M bool :=
  match cache_entry with
  | None => ret false
  | Some e =>
      now <- utcnow ;;
      ret (PyDate.timestamp now - timestamp e <? CACHE_DURATION)
  end.

Definition cleanup_cache : M unit :=
  now <- utcnow ;;
  cache <- get_browse_cache ;;
  let current_time := PyDate.timestamp now in
  let expired_keys :=
    map fst
      (filter (fun kv => CACHE_DURATION <=? current_time - timestamp (snd kv))
         cache) in
  put_browse_cache (fold_left (fun c k => PyDict.del k c) expired_keys cache).

(** [browse_cache[cache_key] = {...}] *)
Definition store_entry (cache_key : string) (concerts : list Concert)
    (items : list ArchiveItem) : M unit :=
  now <- utcnow ;;
  cache <- get_browse_cache ;;
  put_browse_cache
    (PyDict.set cache_key
       (mk_entry concerts (PyDate.timestamp now) items) cache).

Definition range_days (date_range : string) : Z :=
  if String.eqb date_range "7d" then 7
  else if String.eqb date_range "30d" then 30
  else if String.eqb date_range "90d" then 90
  else if String.eqb date_range "1y" then 365
  else 30.

(** The concert-date filter of the miss path.  A concert's ["date"] is
    the [datetime] that [strptime] returned, so it is compared as it is. *)
Definition filter_by_date (date_range : string) (concerts : list Concert)
  : M (list Concert) :=
  end_date <- utcnow ;;
  match PyDate.sub_days end_date (range_days date_range) with
  | None => raise OverflowError
  | Some start_date =>
      ret (filter (fun concert =>
                     PyDate.leb start_date (c_date concert)
                     && PyDate.leb (c_date concert) end_date) concerts)
  end.

(** The [else] branch of the cache check. *)
Definition fetch_fresh (rq : ListingRequest) (params : Params)
    (cache_key : string) : M (list Concert) :=
  items <- fetch_recordings params ;;
  concerts <- run_grouper items ;;
  concerts <-
    match q_date_range rq with
    | Some date_range =>
        if PyStr.truthy (q_date_range rq) && q_filter_by_concert_date rq
        then filter_by_date date_range concerts
        else ret concerts
    | None => ret concerts
    end ;;
  store_entry cache_key concerts items ;;;
  cleanup_cache ;;;
  ret concerts.

Definition opt_is (o : option string) (s : string) : bool :=
  match o with
  | Some x => String.eqb x s
  | None => false
  end.

Definition date_lt (a b : Concert) : bool :=
  PyDate.ltb (c_date a) (c_date b).

Definition artist_lt (a b : Concert) : bool :=
  PyStr.ltb (PyStr.lower (c_artist a)) (PyStr.lower (c_artist b)).

Definition venue_key (c : Concert) : string :=
  PyStr.lower (PyStr.or_default (c_venue c) EmptyString).

Definition venue_lt (a b : Concert) : bool :=
  PyStr.ltb (venue_key a) (venue_key b).

Definition sort_concerts (sort_by sort_order : option string)
    (concerts : list Concert) : list Concert :=
  let reverse := opt_is sort_order "desc" in
  if opt_is sort_by "date" then py_sort date_lt reverse concerts
  else if opt_is sort_by "artist" then py_sort artist_lt reverse concerts
  else if opt_is sort_by "venue" then py_sort venue_lt reverse concerts
  else py_sort date_lt reverse concerts.

(** [concerts.sort(...)] works in place on the list object that the cache
    entry under [cache_key] holds (when the entry is still there), so the
    entry sees the new order. *)
Definition sort_in_place (cache_key : string) (sorted : list Concert)
  : M unit :=
  cache <- get_browse_cache ;;
  match PyDict.get cache_key cache with
  | Some e =>
      put_browse_cache
        (PyDict.set cache_key
           (mk_entry sorted (timestamp e) (raw_items e)) cache)
  | None => ret tt
  end.

Definition paginate (page per_page : Z) (concerts : list Concert) : Listing :=
  let start_idx := (page - 1) * per_page in
  let end_idx := start_idx + per_page in
  {| l_total := Z.of_nat (List.length concerts);
     l_page := page;
     l_per_page := per_page;
     l_total_pages := (Z.of_nat (List.length concerts) + per_page - 1) / per_page;
     l_results := py_slice concerts start_idx end_idx |}.

(** [browse_cache.get(cache_key)] followed by [is_cache_valid]: the entry
    when it is there and young enough. *)
Definition cache_lookup (cache_key : string) : M (option CacheEntry) :=
  cache <- get_browse_cache ;;
  let cache_entry := PyDict.get cache_key cache in
  valid <- is_cache_valid cache_entry ;;
  ret (if valid then cache_entry else None).

(** The list the listing works on: the cached one or a fresh one. *)
Definition load_concerts (rq : ListingRequest) : M (list Concert) :=
  let params := build_params rq in
  let cache_key := get_cache_key params in
  hit <- cache_lookup cache_key ;;
  match hit with
  | Some cache_entry => ret (data cache_entry)
  | None => fetch_fresh rq params cache_key
  end.

Definition browse_concerts_body (rq : ListingRequest) : M Listing :=
  concerts <- load_concerts rq ;;
  let sorted := sort_concerts (q_sort_by rq) (q_sort_order rq) concerts in
  sort_in_place (get_cache_key (build_params rq)) sorted ;;;
  ret (paginate (q_page rq) (q_per_page rq) sorted).

Definition browse_concerts (rq : ListingRequest) (w : World)
  : Reply Listing * World :=
  match browse_concerts_body rq w with
  | (Return r, w') => (Ok r, w')
  | (Raise (HTTPStatusError _), w') =>
      (Fail 502 "Browse service unavailable", w')
  | (Raise _, w') => (Fail 500 "Failed to aggregate concerts", w')
  end.

(** The scan of [browse_cache.values()]. *)
Fixpoint scan_cache (concert_key : string) (entries : list CacheEntry)
  : M (option Concert) :=
  match entries with
  | [] => ret None
  | e :: rest =>
      valid <- is_cache_valid (Some e) ;;
      if valid then
        match find (fun c => String.eqb (c_concert_key c) concert_key)
                (data e) with
        | Some c => ret (Some c)
        | None => scan_cache concert_key rest
        end
      else scan_cache concert_key rest
  end.

(** The inner [try] block of the detail path once the records are in. *)
Definition match_fetched (concert_key date_str : string)
    (items : list ArchiveItem) : M Concert :=
  match PyDate.strptime_ymd date_str with
  | None => raise ValueError
  | Some target =>
      let target_date := PyDate.date target in
      let matching_items :=
        filter (fun item =>
                  match date item with
                  | Some d => PyDate.date_eqb (PyDate.date d) target_date
                  | None => false
                  end) items in
      match matching_items with
      | [] => raise (HTTPException 404 "Concert not found")
      | _ :: _ =>
          concerts <- run_grouper matching_items ;;
          match find (fun c => String.eqb (c_concert_key c) concert_key)
                  concerts with
          | Some c => ret c
          | None => raise (HTTPException 404 "Concert not found")
          end
      end
  end.

(** The [if not concert] branch. *)
Definition search_concert (concert_key : string) : M Concert :=
  match PyStr.split "|" concert_key with
  | [artist; date_str] =>
      let params := [("artist", PStr artist); ("per_page", PInt 100)] in
      items <- fetch_recordings params ;;
      except_ValueError
        (match_fetched concert_key date_str items)
        (raise (HTTPException 400 "Invalid date format"))
  | _ => raise (HTTPException 400 "Invalid concert key format")
  end.

Definition get_concert_details_body (concert_key : string) : M Concert :=
  cache <- get_browse_cache ;;
  found <- scan_cache concert_key (PyDict.values cache) ;;
  match found with
  | Some concert => ret concert
  | None => search_concert concert_key
  end.

Definition get_concert_details (concert_key : string) (w : World)
  : Reply Concert * World :=
  match get_concert_details_body concert_key w with
  | (Return c, w') => (Ok c, w')
  | (Raise (HTTPException status_code detail), w') =>
      (Fail status_code detail, w')
  | (Raise _, w') => (Fail 500 "Failed to get concert details", w')
  end.

(** [DELETE /cache] *)
Definition clear_cache (w : World) : World :=
  mk_world [] (ticks w) (fetch_log w).

End Engine.



(* ------------------------------------------------------------------ *)
(** ** Notions used to state the properties *)

(** The distinct elements of a list, each at its first appearance. *)
Fixpoint first_occurrences (l : list string) : list string :=
  match l with
  | [] => []
  | x :: l' =>
      x :: filter (fun y => negb (String.eqb y x)) (first_occurrences l')
  end.

(** The venues that take part in the vote, in recording order. *)
Definition usable_venues (recordings : list ArchiveItem) : list string :=
  flat_map (fun r => match venue r with
                     | Some v => if usable_venue r then [v] else []
                     | None => []
                     end) recordings.

(** Number of recordings of the bucket that carry the usable venue [v]. *)
Definition venue_votes (recordings : list ArchiveItem) (v : string) : nat :=
  count_occ string_dec (usable_venues recordings) v.

(** A concert key that the second loop turns into a concert: two parts
    around one ["|"], the second a [%Y-%m-%d] date. *)
Definition key_emits (key : string) : bool :=
  match PyStr.split "|" key with
  | [_; date_str] =>
      match PyDate.strptime_ymd date_str with
      | Some _ => true
      | None => false
      end
  | _ => false
  end.

(** [v] is the entry a group's ["recordings"] list holds for the input
    recording [r] (the stamp [created_at] aside). *)
Definition same_recording (r : ArchiveItem) (v : ConcertRecording) : Prop :=
  r_id v = identifier r /\ r_archive_identifier v = identifier r
  /\ r_title v = title r /\ r_description v = description r
  /\ r_source v = source r /\ r_taper v = taper r
  /\ r_lineage v = lineage r /\ r_total_tracks v = total_tracks r
  /\ r_total_size v = total_size r /\ r_tracks v = tracks r
  /\ r_downloads v = downloads r.

(** The counting step of the venue vote on a venue string. *)
Definition tally (d : PyDict.t Z) (v : string) : PyDict.t Z :=
  PyDict.set v (match PyDict.get v d with Some n => n | None => 0 end + 1) d.

(** [l] is ordered by [key] under the strict comparison [klt]: ascending,
    or descending when [descending] is set (equal keys may neighbour). *)
Definition sorted_by {K : Type} (klt : K -> K -> bool) (key : Concert -> K)
    (descending : bool) (l : list Concert) : Prop :=
  StronglySorted
    (fun a b => if descending then klt (key a) (key b) = false
                else klt (key b) (key a) = false) l.

(** The same request with the concert-date flag set to [b]. *)
Definition with_filter_flag (b : bool) (rq : ListingRequest) : ListingRequest :=
  mk_request (q_query rq) (q_date_range rq) (q_artist rq) (q_venue rq)
    (q_page rq) (q_per_page rq) (q_sort_by rq) (q_sort_order rq) b.

(* ------------------------------------------------------------------ *)
(** ** Sample data *)

(** A concert that only carries an artist. *)
Definition billed (a : string) : Concert :=
  mk_concert "id" "key" a (mk_datetime 2000 1 1 0 0 0 0) None None "title"
    "description" "source" None None 1 0 0 0 "stamp" "stamp" [].

(** A recording that only carries a venue. *)
Definition venued (v : option string) : ArchiveItem :=
  mk_item "id" "title" None None v None None None None None 0 0 None 0.

(** One reading per second from 2026-01-01 00:00:00, within that day. *)
Definition sample_clock (n : nat) : datetime :=
  let s := Z.of_nat n in
  mk_datetime 2026 1 1 ((s / 3600) mod 24) ((s / 60) mod 60) (s mod 60) 0.

Definition empty_world : World := mk_world [] 0 [].

(** A Phish recording of 1995-08-16. *)
Definition sample_recording : ArchiveItem :=
  mk_item "phish1995-08-16.sbd" "Phish Live at Shoreline" (Some "Phish")
    (Some (mk_datetime 1995 8 16 0 0 0 0)) (Some "Shoreline Amphitheatre")
    (Some "Mountain View, CA") None None None None 22 1500 None 40.

(** The same recording with no date. *)
Definition sample_undated : ArchiveItem :=
  mk_item "phish-undated" "Phish Live" (Some "Phish") None None None
    None None None None 10 700 None 3.

(** Upstream services: one that serves the 1995 recording, one that times
    out, one that answers 503, one whose body does not parse. *)
Definition upstream_serving (n : nat) (p : Params) : FetchOutcome :=
  FetchOk [sample_recording].

Definition upstream_timing_out (n : nat) (p : Params) : FetchOutcome :=
  FetchTimeout.

Definition upstream_rejecting (n : nat) (p : Params) : FetchOutcome :=
  FetchStatusError 503.

Definition upstream_garbled (n : nat) (p : Params) : FetchOutcome :=
  FetchBadBody.

(** [GET /concerts?date_range=30d] with the defaults. *)
Definition sample_request : ListingRequest :=
  mk_request None (Some "30d") None None 1 20 (Some "date") (Some "desc") false.

(** The world after [sample_request] was served from [upstream_serving]. *)
Definition world_after_listing : World :=
  snd (browse_concerts true sample_clock upstream_serving sample_request
         empty_world).

(** The reply to that request and the cache entry it left. *)
Definition sample_listing : Listing :=
  match fst (browse_concerts true sample_clock upstream_serving sample_request
               empty_world) with
  | Ok body => body
  | Fail _ _ => mk_listing 0 0 0 0 []
  end.

Definition sample_entry : CacheEntry :=
  match PyDict.get (get_cache_key (build_params sample_request))
          (browse_cache world_after_listing) with
  | Some e => e
  | None => mk_entry [] 0 []
  end.

Definition reply_keys (r : Reply Listing) : option (list string) :=
  match r with
  | Ok body => Some (map c_concert_key (l_results body))
  | Fail _ _ => None
  end.


(* ------------------------------------------------------------------ *)
(** ** Cache administration ([GET /cache], [DELETE /cache], [GET /stats]) *)

(** The dictionary returned by [get_cache_info]. *)
Record CacheInfo : Type := mk_cache_info {
  total_entries : Z;
  valid_entries : Z;
  expired_entries : Z;
  cache_duration_seconds : Z
}.

(** The [StatsResponse] of the aggregation service: four counters that are
    always zero and the [cache_stats] dictionary. *)
Record Stats : Type := mk_stats {
  s_total_users : Z;
  s_total_downloads : Z;
  s_total_concerts : Z;
  s_total_recordings : Z;
  s_cache_size : Z;
  s_valid_entries : Z;
  s_cache_duration_seconds : Z
}.

Section Admin.

Variable clock : nat -> datetime.

Local Open Scope py_scope.

(** [sum(1 for entry in entries if is_cache_valid(entry))], one clock
    reading per entry. *)
Fixpoint count_valid (acc : Z) (entries : list CacheEntry) : M Z :=
  match entries with
  | [] => ret acc
  | e :: rest =>
      valid <- is_cache_valid clock (Some e) ;;
      count_valid (if valid then acc + 1 else acc) rest
  end.

(** [GET /cache]; [current_time] is read and not used.  The duration is
    reported in seconds. *)
Definition get_cache_info : M CacheInfo :=
  current_time <- utcnow clock ;;
  cache <- get_browse_cache ;;
  valid_entries <- count_valid 0 (PyDict.values cache) ;;
  let expired_entries := Z.of_nat (List.length cache) - valid_entries in
  ret (mk_cache_info (Z.of_nat (List.length cache)) valid_entries
         expired_entries (CACHE_DURATION / 1000000)).

(** [GET /stats]; nothing in the [try] block raises, and the injected
    database session is not used. *)
Definition get_stats (w : World) : Reply Stats * World :=
  match (cache <- get_browse_cache ;;
         cache_entries <- count_valid 0 (PyDict.values cache) ;;
         ret (mk_stats 0 0 0 0 (Z.of_nat (List.length cache)) cache_entries
                (CACHE_DURATION / 1000000))) w with
  | (Return r, w') => (Ok r, w')
  | (Raise _, w') => (Fail 500 "Failed to get stats", w')
  end.

End Admin.

(** [DELETE /cache]: the message and the emptied cache. *)
Definition clear_cache_reply (w : World) : string * World :=
  let cache_size := Z.of_nat (List.length (browse_cache w)) in
  ("Cleared " ++ PyStr.of_int cache_size ++ " cache entries", clear_cache w).

(* ------------------------------------------------------------------ *)
(** ** The caller: [GET /concerts] of the main API service *)

(** How the HTTP call from the main API to the aggregation service goes:
    it is delivered and answered, or the service cannot be reached. *)
Inductive LinkOutcome : Type :=
| LinkDelivered
| LinkUnreachable.

Section MainApi.

Variable year_padded : bool.
Variable clock : nat -> datetime.
Variable upstream : nat -> Params -> FetchOutcome.

(** The query string the main API sends: parameters that are [None] are
    left out, and the aggregation service then uses its defaults. *)
Definition forwarded (rq : ListingRequest) : ListingRequest :=
  mk_request (q_query rq) (q_date_range rq) (q_artist rq) (q_venue rq)
    (q_page rq) (q_per_page rq)
    (match q_sort_by rq with Some s => Some s | None => Some "date" end)
    (match q_sort_order rq with Some s => Some s | None => Some "desc" end)
    (q_filter_by_concert_date rq).

(** [browse_concerts] of [main_api_service]: the aggregation service's
    reply body is passed on; [raise_for_status] turns every non-2xx reply
    into [HTTPStatusError]. *)
Definition api_browse_concerts (link : LinkOutcome) (rq : ListingRequest)
    (w : World) : Reply Listing * World :=
  match link with
  | LinkDelivered =>
      match browse_concerts year_padded clock upstream (forwarded rq) w with
      | (Ok body, w') => (Ok body, w')
      | (Fail _ _, w') => (Fail 502 "Aggregation service unavailable", w')
      end
  | LinkUnreachable => (Fail 500 "Failed to browse concerts", w)
  end.

End MainApi.

(* ------------------------------------------------------------------ *)
(** ** Further notions used to state properties *)

(** A calendar date as [datetime] accepts it. *)
Definition valid_date (d : datetime) : Prop :=
  1 <= dt_year d <= 9999 /\ 1 <= dt_month d <= 12
  /\ 1 <= dt_day d <= PyDate.days_in_month (dt_year d) (dt_month d).

(** The day of [d] at 00:00:00. *)
Definition midnight (d : datetime) : datetime :=
  mk_datetime (dt_year d) (dt_month d) (dt_day d) 0 0 0 0.

(** No occurrence of the character [c]. *)
Fixpoint lacks (c : ascii) (s : string) : bool :=
  match s with
  | EmptyString => true
  | String x s' => negb (Ascii.eqb x c) && lacks c s'
  end.

(** Checks used to go through the finitely many years, months and days:
    the four-digit year text reads back as the year (and is what the
    unpadded rendering gives from year 1000 on), the month and day texts
    read back as month and day, and the unpadded text of a year below
    1000 has at most three characters. *)
Definition year_text_ok (y : Z) : bool :=
  match PyStr.zfill 4 y with
  | String a (String b (String c (String d EmptyString))) =>
      PyDate.is_digit a && PyDate.is_digit b && PyDate.is_digit c
      && PyDate.is_digit d
      && (1000 * PyDate.digit a + 100 * PyDate.digit b + 10 * PyDate.digit c
          + PyDate.digit d =? y)
      && ((y <? 1000) || String.eqb (PyStr.of_int y) (PyStr.zfill 4 y))
  | _ => false
  end.

Definition month_day_text_ok (m d : Z) : bool :=
  match PyDate.match_month (PyStr.zfill 2 m ++ "-" ++ PyStr.zfill 2 d) with
  | Some (m', d') => (m' =? m) && (d' =? d)
  | None => false
  end.

Definition short_year_text_ok (y : Z) : bool :=
  Nat.leb (String.length (PyStr.of_int y)) 3.

(** The integers [a], [a + 1], ..., [n] of them. *)
Fixpoint zrange (n : nat) (a : Z) : list Z :=
  match n with
  | O => []
  | S k => a :: zrange k (a + 1)
  end.

(** Reading one escaped character back from the front of a JSON string
    body; [None] at a closing quote or a broken escape. *)
Definition hex_value (c : ascii) : Z :=
  let n := PyStr.code c in
  if (48 <=? n) && (n <=? 57) then n - 48 else n - 87.

Definition unescape_char (s : string) : option (ascii * string) :=
  match s with
  | EmptyString => None
  | String c rest =>
      if PyStr.code c =? 34 then None
      else if PyStr.code c =? 92 then
        match rest with
        | String e rest' =>
            let n := PyStr.code e in
            if n =? 34 then Some (ascii_of_nat 34, rest')
            else if n =? 92 then Some (ascii_of_nat 92, rest')
            else if n =? 110 then Some (ascii_of_nat 10, rest')
            else if n =? 114 then Some (ascii_of_nat 13, rest')
            else if n =? 116 then Some (ascii_of_nat 9, rest')
            else if n =? 98 then Some (ascii_of_nat 8, rest')
            else if n =? 102 then Some (ascii_of_nat 12, rest')
            else if n =? 117 then
              match rest' with
              | String _ (String _ (String h1 (String h2 rest''))) =>
                  Some (ascii_of_nat
                          (Z.to_nat (16 * hex_value h1 + hex_value h2)),
                        rest'')
              | _ => None
              end
            else None
        | EmptyString => None
        end
      else Some (c, rest)
  end.

(* ------------------------------------------------------------------ *)
(** ** More sample data *)

(** A recording dated in the year 999. *)
Definition sample_early : ArchiveItem :=
  mk_item "chant0999" "Chant" (Some "Anonymous")
    (Some (mk_datetime 999 6 1 0 0 0 0)) None None None None None None
    1 10 None 0.

(** The concert that the detail lookup of the Phish key returns from the
    cache left by the sample listing. *)
Definition sample_detail : Concert :=
  match fst (get_concert_details true sample_clock upstream_serving
               "Phish|1995-08-16" world_after_listing) with
  | Ok c => c
  | Fail _ _ => billed "nobody"
  end.

Definition sample_cache_key : string :=
  get_cache_key (build_params sample_request).

(** [GET /concerts?date_range=7d], which the sample listing did not cache. *)
Definition sample_other_request : ListingRequest :=
  mk_request None (Some "7d") None None 1 20 (Some "date") (Some "desc") false.

(* ------------------------------------------------------------------ *)
(** * Properties *)

(** ** Lists and dictionaries *)

Section ListFacts.
Context {A : Type}.

Lemma filter_filter (f g : A -> bool) (l : list A) :
  filter f (filter g l) = filter (fun x => g x && f x) l.
Proof.
  induction l as [|x l IH]; simpl; [reflexivity|].
  destruct (g x); simpl; [destruct (f x)|]; now rewrite IH.
Qed.

Lemma filter_split_at (f : A -> bool) (l p q : list A) (v : A) :
  filter f l = (p ++ v :: q)%list ->
  exists p' q', l = (p' ++ v :: q')%list /\ filter f p' = p /\ filter f q' = q.
Proof.
  revert p; induction l as [|x l IH]; intros p H; simpl in H.
  - now destruct p.
  - destruct (f x) eqn:Hx.
    + destruct p as [|y p]; simpl in H; inversion H; subst.
      * exists [], l. simpl. auto.
      * destruct (IH _ H2) as (p' & q' & -> & Hp & Hq).
        exists (y :: p'), q'. simpl. rewrite Hx, Hp. auto.
    + destruct (IH _ H) as (p' & q' & -> & Hp & Hq).
      exists (x :: p'), q'. simpl. rewrite Hx. auto.
Qed.

Lemma filter_disjoint_perm (f g : A -> bool) (l : list A) :
  (forall x, In x l -> f x = true -> g x = false) ->
  Permutation (filter (fun x => f x || g x) l) (filter f l ++ filter g l).
Proof.
  induction l as [|x l IH]; intros H; simpl; [constructor|].
  assert (IH' := IH (fun y Hy => H y (or_intror Hy))).
  destruct (f x) eqn:Hf; simpl.
  - rewrite (H x (or_introl eq_refl) Hf). now constructor.
  - destruct (g x); [|exact IH'].
    now apply Permutation_cons_app.
Qed.
End ListFacts.

Lemma eqb_in (x : string) (l : list string) :
  existsb (String.eqb x) l = true <-> In x l.
Proof.
  rewrite existsb_exists. split.
  - intros (y & Hy & E). apply String.eqb_eq in E. now subst.
  - intros H. exists x. split; [assumption | apply String.eqb_refl].
Qed.

Lemma first_occurrences_in (l : list string) (x : string) :
  In x (first_occurrences l) <-> In x l.
Proof.
  induction l as [|y l IH]; simpl; [tauto|].
  rewrite filter_In, IH. destruct (String.eqb_spec x y) as [->|N]; simpl.
  - tauto.
  - split; [tauto|]. intros [E|H]; [now subst; contradiction N | tauto].
Qed.

Lemma first_occurrences_nodup (l : list string) : NoDup (first_occurrences l).
Proof.
  induction l as [|y l IH]; simpl; constructor.
  - rewrite filter_In. rewrite String.eqb_refl. simpl. intros [_ H]. discriminate.
  - now apply NoDup_filter.
Qed.

(** Everything seen before the first appearance of [v] is listed before
    [v] among the first occurrences. *)
Lemma first_occurrences_before (l pre post : list string) (v : string) :
  first_occurrences l = (pre ++ v :: post)%list ->
  exists l1 l2, l = (l1 ++ v :: l2)%list /\ forall x, In x l1 -> In x pre.
Proof.
  revert pre post; induction l as [|a l IH]; intros pre post H; simpl in H.
  - now destruct pre.
  - destruct pre as [|b pre]; simpl in H; inversion H; subst.
    + exists [], l. simpl. split; [reflexivity | tauto].
    + destruct (filter_split_at _ _ _ _ _ H2) as (p' & q' & E & Hp & Hq).
      destruct (IH _ _ E) as (l1 & l2 & -> & Hin).
      exists (b :: l1), l2. split; [reflexivity|].
      intros x [->|Hx]; [now left|].
      destruct (String.eqb_spec x b) as [->|N]; [now left|right].
      rewrite <- Hp. apply filter_In. split; [now apply Hin|].
      apply negb_true_iff. now apply String.eqb_neq.
Qed.

Section DictFacts.
Context {V : Type}.
Implicit Types (d : PyDict.t V) (k : string).

Lemma get_set k k' (v : V) d :
  PyDict.get k' (PyDict.set k v d)
  = if String.eqb k k' then Some v else PyDict.get k' d.
Proof.
  induction d as [|[k0 v0] d IH]; simpl.
  - reflexivity.
  - destruct (String.eqb_spec k0 k) as [->|N]; simpl.
    + now destruct (String.eqb k k').
    + rewrite IH. destruct (String.eqb_spec k0 k') as [->|N']; [|reflexivity].
      destruct (String.eqb_spec k k') as [->|]; [contradiction|reflexivity].
Qed.

Lemma keys_set k (v : V) d :
  PyDict.keys (PyDict.set k v d)
  = if existsb (String.eqb k) (PyDict.keys d) then PyDict.keys d
    else (PyDict.keys d ++ [k])%list.
Proof.
  unfold PyDict.keys.
  induction d as [|[k0 v0] d IH]; simpl; [reflexivity|].
  rewrite (String.eqb_sym k k0).
  destruct (String.eqb k0 k); simpl; [reflexivity|].
  rewrite IH. now destruct (existsb _ _).
Qed.

Lemma get_none_keys k d : PyDict.get k d = None <-> ~ In k (PyDict.keys d).
Proof.
  induction d as [|[k0 v0] d IH]; simpl; [tauto|].
  destruct (String.eqb_spec k0 k) as [->|N].
  - split; [discriminate | intros H; exfalso; apply H; now left].
  - rewrite IH. split; [intros H [E|I]; [contradiction|now apply H] | tauto].
Qed.

(** A dictionary is its keys with the values [get] finds for them. *)
Lemma dict_by_keys (dflt : V) d :
  NoDup (PyDict.keys d) ->
  d = map (fun k => (k, match PyDict.get k d with Some v => v | None => dflt end))
        (PyDict.keys d).
Proof.
  induction d as [|[k0 v0] d IH]; simpl; [reflexivity|].
  intros ND. inversion ND as [|? ? Hnin ND']; subst.
  rewrite String.eqb_refl. f_equal.
  rewrite (IH ND') at 1. apply map_ext_in.
  intros k Hk. destruct (String.eqb_spec k0 k) as [->|]; [contradiction|reflexivity].
Qed.

(** Keys after a run of updates [d[key x] = f x (d.get(key x))]. *)
Lemma keys_fold_update {X : Type} (key : X -> string)
    (f : X -> option V -> V) (l : list X) d :
  PyDict.keys
    (fold_left (fun d x => PyDict.set (key x) (f x (PyDict.get (key x) d)) d) l d)
  = (PyDict.keys d
     ++ filter (fun k => negb (existsb (String.eqb k) (PyDict.keys d)))
          (first_occurrences (map key l)))%list.
Proof.
  revert d; induction l as [|x l IH]; intros d; simpl.
  - now rewrite app_nil_r.
  - rewrite IH, keys_set.
    destruct (existsb (String.eqb (key x)) (PyDict.keys d)) eqn:E; simpl.
    + f_equal. rewrite filter_filter. apply filter_ext_in. intros k _.
      destruct (String.eqb_spec k (key x)) as [->|]; simpl; [now rewrite E|reflexivity].
    + rewrite <- app_assoc. simpl. do 2 f_equal.
      rewrite filter_filter. apply filter_ext. intros k.
      rewrite existsb_app. simpl. rewrite orb_false_r, negb_orb.
      apply andb_comm.
Qed.
End DictFacts.

(** ** Venue resolution *)

Lemma venue_counts_fold (recordings : list ArchiveItem) (d : PyDict.t Z) :
  fold_left count_venue recordings d
  = fold_left tally (usable_venues recordings) d.
Proof.
  revert d; induction recordings as [|r rs IH]; intros d; simpl; [reflexivity|].
  unfold usable_venues in *. rewrite fold_left_app, IH. f_equal.
  unfold count_venue. destruct (venue r); [|reflexivity].
  now destruct (usable_venue r).
Qed.

Lemma tally_counts (l : list string) (d : PyDict.t Z) (v : string) :
  counts_get (fold_left tally l d) v
  = counts_get d v + Z.of_nat (count_occ string_dec l v).
Proof.
  revert d; induction l as [|x l IH]; intros d; simpl; [lia|].
  rewrite IH. unfold counts_get, tally. rewrite get_set.
  destruct (string_dec x v) as [->|N].
  - rewrite String.eqb_refl. lia.
  - apply String.eqb_neq in N. rewrite N. lia.
Qed.

Lemma tally_keys (l : list string) :
  PyDict.keys (fold_left tally l []) = first_occurrences l.
Proof.
  unfold tally.
  rewrite (keys_fold_update (fun v => v)
             (fun _ o => match o with Some n => n | None => 0 end + 1) l []).
  simpl. rewrite map_id. clear. induction (first_occurrences l); simpl; congruence.
Qed.

(** [max] returns the first of the largest elements. *)
Lemma py_max_by_first {A : Type} (key : A -> Z) (best : A) (xs : list A) :
  let m := py_max_by key best xs in
  (m = best /\ forall x, In x xs -> key x <= key best)
  \/ (exists pre post,
        xs = (pre ++ m :: post)%list /\ key best < key m
        /\ (forall x, In x pre -> key x < key m)
        /\ (forall x, In x post -> key x <= key m)).
Proof.
  revert best; induction xs as [|x xs IH]; intros best; simpl.
  - left. split; [reflexivity | contradiction].
  - destruct (Z.ltb_spec (key best) (key x)) as [L|G].
    + right. destruct (IH x) as [[E Hle] | (pre & post & E & Hlt & Hpre & Hpost)].
      * exists [], xs. rewrite E. simpl. repeat split; auto; contradiction.
      * exists (x :: pre), post. simpl. rewrite E at 1.
        repeat split; auto; [lia|]. intros y [<-|Hy]; [lia | auto].
    + destruct (IH best) as [[E Hle] | (pre & post & E & Hlt & Hpre & Hpost)].
      * left. split; [assumption|]. intros y [<-|Hy]; [lia | auto].
      * right. exists (x :: pre), post. simpl. rewrite E at 1.
        repeat split; auto. intros y [<-|Hy]; [lia | auto].
Qed.

(** C4. The venue of a bucket is the usable venue (present, non-empty, not
    "Unknown Venue") carried by most recordings; among venues with the
    same largest count the one seen first wins; without any usable venue
    it is null.  Venues A, B, A give A, and A, B give A. *)
Theorem resolved_venue_is_first_most_common :
  (forall recordings v,
      In v (usable_venues recordings) <->
      exists r, In r recordings /\ venue r = Some v
                /\ v <> EmptyString /\ v <> "Unknown Venue")
  /\ (forall recordings,
         match resolve_venue recordings with
         | None => usable_venues recordings = []
         | Some v =>
             exists before after,
               usable_venues recordings = (before ++ v :: after)%list
               /\ (forall x, In x before ->
                     (venue_votes recordings x < venue_votes recordings v)%nat)
               /\ (forall x, In x (usable_venues recordings) ->
                     (venue_votes recordings x <= venue_votes recordings v)%nat)
         end)
  /\ resolve_venue [venued (Some "A"); venued (Some "B"); venued (Some "A")]
     = Some "A"
  /\ resolve_venue [venued (Some "A"); venued (Some "B")] = Some "A".
Proof.
  split; [|split; [|split; reflexivity]].
  - intros recordings v. unfold usable_venues. rewrite in_flat_map.
    split.
    + intros (r & Hr & Hv). exists r. split; [assumption|].
      destruct (venue r) as [u|] eqn:Eu; [|contradiction].
      destruct (usable_venue r) eqn:Us; [|contradiction].
      destruct Hv as [->|[]]. unfold usable_venue in Us. rewrite Eu in Us.
      simpl in Us. apply andb_true_iff in Us as [U1 U2].
      apply negb_true_iff in U1, U2.
      apply String.eqb_neq in U1, U2. auto.
    + intros (r & Hr & Hv & N1 & N2). exists r. split; [assumption|].
      rewrite Hv. unfold usable_venue. rewrite Hv. simpl.
      apply String.eqb_neq in N1, N2. rewrite N1, N2. simpl. now left.
  - intros recordings. unfold resolve_venue, venue_counts.
    rewrite venue_counts_fold.
    set (uv := usable_venues recordings).
    assert (K := tally_keys uv).
    assert (C : forall v, counts_get (fold_left tally uv []) v
                          = Z.of_nat (venue_votes recordings v)).
    { intros v. rewrite tally_counts. reflexivity. }
    destruct (PyDict.keys (fold_left tally uv [])) as [|k ks] eqn:Ek.
    + assert (E : uv = []).
      { destruct uv as [|x uv']; [reflexivity|]. simpl in K. discriminate. }
      fold uv. rewrite E.
      destruct (find usable_venue recordings) as [r|] eqn:F; [|reflexivity].
      exfalso. apply find_some in F as [Hr Us].
      assert (In_uv : exists v, In v uv).
      { unfold uv, usable_venues. unfold usable_venue in Us.
        destruct (venue r) as [u|] eqn:Eu; [|discriminate].
        exists u. apply in_flat_map. exists r. split; [assumption|].
        rewrite Eu. unfold usable_venue. rewrite Eu. rewrite Us. now left. }
      destruct In_uv as [v Hv]. rewrite E in Hv. contradiction.
    + set (m := py_max_by (counts_get (fold_left tally uv [])) k ks).
      assert (M := py_max_by_first (counts_get (fold_left tally uv [])) k ks).
      fold m in M. cbv zeta in M.
      assert (Hall : forall x, In x uv ->
                (venue_votes recordings x <= venue_votes recordings m)%nat).
      { intros x Hx. apply first_occurrences_in in Hx. rewrite <- K in Hx.
        apply Nat2Z.inj_le. rewrite <- !C.
        destruct M as [[E Hle] | (pre & post & E & Hlt & Hpre & Hpost)].
        - rewrite E. destruct Hx as [<-|Hx]; [lia | auto].
        - destruct Hx as [<-|Hx]; [lia|]. rewrite E in Hx.
          apply in_app_or in Hx as [Hx|[<-|Hx]]; [|lia|auto].
          specialize (Hpre _ Hx). lia. }
      assert (Hsplit : exists pre post,
                 first_occurrences uv = (pre ++ m :: post)%list
                 /\ forall x, In x pre ->
                      (venue_votes recordings x < venue_votes recordings m)%nat).
      { destruct M as [[E Hle] | (pre & post & E & Hlt & Hpre & Hpost)].
        - exists [], ks. rewrite <- K, E. split; [reflexivity | contradiction].
        - exists (k :: pre), post. rewrite <- K, E. split; [reflexivity|].
          intros x Hx. apply Nat2Z.inj_lt. rewrite <- !C.
          destruct Hx as [<-|Hx]; [lia | auto]. }
      destruct Hsplit as (pre & post & Efo & Hpre).
      destruct (first_occurrences_before _ _ _ _ Efo) as (l1 & l2 & El & Hin).
      exists l1, l2. fold uv. repeat split; auto.
Qed.

(** ** Grouping *)

Section GrouperFacts.
Variable year_padded : bool.
Variable clock : nat -> datetime.

Local Notation "'key_of'" := (extract_concert_key year_padded).
Local Notation "'with_key' k" := (fun r => String.eqb (key_of r) k)
  (at level 10, k at level 9).

Lemma concert_groups_get (items : list ArchiveItem)
    (d : PyDict.t (list ArchiveItem)) (k : string) :
  PyDict.get k (fold_left (add_to_group year_padded) items d)
  = match PyDict.get k d, filter (with_key k) items with
    | Some b, its => Some (b ++ its)%list
    | None, [] => None
    | None, its => Some its
    end.
Proof.
  revert d; induction items as [|x items IH]; intros d; simpl.
  - destruct (PyDict.get k d); [now rewrite app_nil_r | reflexivity].
  - rewrite IH. unfold add_to_group. rewrite get_set.
    destruct (String.eqb (key_of x) k) eqn:E.
    + apply String.eqb_eq in E. rewrite E.
      destruct (PyDict.get k d); [now rewrite <- app_assoc | reflexivity].
    + destruct (PyDict.get k d); reflexivity.
Qed.

Lemma concert_groups_keys (items : list ArchiveItem) :
  PyDict.keys (concert_groups year_padded items)
  = first_occurrences (map key_of items).
Proof.
  unfold concert_groups, add_to_group.
  rewrite (keys_fold_update key_of
             (fun x o => (match o with Some b => b | None => [] end ++ [x])%list)
             items []).
  simpl. induction (first_occurrences _); simpl; congruence.
Qed.

(** The buckets: one per distinct key, in order of first appearance, each
    holding the recordings of that key in input order. *)
Lemma concert_groups_buckets (items : list ArchiveItem) :
  concert_groups year_padded items
  = map (fun k => (k, filter (with_key k) items))
      (first_occurrences (map key_of items)).
Proof.
  rewrite <- concert_groups_keys.
  rewrite (dict_by_keys [] (concert_groups year_padded items)) at 1.
  - apply map_ext. intros k. f_equal. unfold concert_groups.
    rewrite concert_groups_get. simpl. now destruct (filter _ items).
  - rewrite concert_groups_keys. apply first_occurrences_nodup.
Qed.

Lemma recording_views_same (t : nat) (rs : list ArchiveItem) :
  Forall2 same_recording rs (recording_views clock t rs).
Proof.
  revert t; induction rs as [|r rs IH]; intros t; simpl; constructor; auto.
  unfold same_recording. simpl. repeat split.
Qed.

Lemma make_concert_some t k rs c :
  make_concert clock t k rs = Some c ->
  key_emits k = true /\ c_concert_key c = k
  /\ c_recordings c = recording_views clock (S (S t)) rs.
Proof.
  unfold make_concert, key_emits. destruct rs as [|r rs]; [discriminate|].
  destruct (PyStr.split "|" k) as [|a [|dstr [|? ?]]]; try discriminate.
  destruct (PyDate.strptime_ymd dstr); [|discriminate].
  intros H. inversion H. simpl. auto.
Qed.

Lemma make_concert_none t k rs :
  make_concert clock t k rs = None -> rs = [] \/ key_emits k = false.
Proof.
  unfold make_concert, key_emits. destruct rs as [|r rs]; [now left|].
  destruct (PyStr.split "|" k) as [|a [|dstr [|? ?]]]; auto.
  destruct (PyDate.strptime_ymd dstr); [discriminate | auto].
Qed.

Lemma make_concerts_emitted (groups : list (string * list ArchiveItem)) :
  (forall kv, In kv groups -> snd kv <> []) ->
  forall t,
    Forall2 (fun c kv => c_concert_key c = fst kv
                         /\ Forall2 same_recording (snd kv) (c_recordings c))
      (fst (make_concerts clock t groups))
      (filter (fun kv => key_emits (fst kv)) groups).
Proof.
  induction groups as [|[k rs] groups IH]; intros NE t; simpl; [constructor|].
  assert (NE' : forall kv, In kv groups -> snd kv <> [])
    by (intros kv H; apply NE; now right).
  destruct (make_concert clock t k rs) as [c|] eqn:E.
  - destruct (make_concert_some _ _ _ _ E) as (Hk & Hc & Hr). rewrite Hk.
    specialize (IH NE' (t + 2 + List.length rs)%nat).
    destruct (make_concerts clock _ groups) as [cs t']. simpl in *.
    constructor; [|assumption]. simpl. split; [assumption|].
    rewrite Hr. apply recording_views_same.
  - destruct (make_concert_none _ _ _ E) as [Hnil|Hk].
    + exfalso. apply (NE (k, rs)); [now left | assumption].
    + rewrite Hk. now apply IH.
Qed.

Lemma concat_filter_perm (items : list ArchiveItem) (ks : list string) :
  NoDup ks ->
  Permutation (List.concat (map (fun k => filter (with_key k) items) ks))
    (filter (fun r => existsb (String.eqb (key_of r)) ks) items).
Proof.
  induction 1 as [|k ks Hnin ND IH]; simpl.
  - induction items; simpl; auto.
  - rewrite (filter_disjoint_perm (with_key k)
               (fun r => existsb (String.eqb (key_of r)) ks)).
    + now apply Permutation_app_head.
    + intros r _ E. apply String.eqb_eq in E. rewrite E.
      destruct (existsb (String.eqb k) ks) eqn:X; [|reflexivity].
      apply eqb_in in X. contradiction.
Qed.

Lemma split_acc_app (sep : ascii) (a t cur : string) :
  PyStr.split_acc sep cur (a ++ String sep t)
  = (PyStr.split_acc sep cur a ++ PyStr.split sep t)%list.
Proof.
  revert cur; induction a as [|c a IH]; intros cur; simpl.
  - now rewrite Ascii.eqb_refl.
  - destruct (Ascii.eqb c sep); simpl; now rewrite IH.
Qed.

Lemma split_acc_nonempty (sep : ascii) (s cur : string) :
  PyStr.split_acc sep cur s <> [].
Proof.
  revert cur; induction s as [|c s IH]; intros cur; simpl; [discriminate|].
  destruct (Ascii.eqb c sep); [discriminate | apply IH].
Qed.

Lemma undated_key_dropped (r : ArchiveItem) :
  date r = None -> key_emits (key_of r) = false.
Proof.
  intros H. unfold key_emits, extract_concert_key. rewrite H.
  change ("|" ++ "unknown") with (String "|" "unknown").
  unfold PyStr.split. rewrite split_acc_app.
  change (PyStr.split "|" "unknown") with ["unknown"].
  generalize (split_acc_nonempty "|"
                (PyStr.or_default (artist r) "Unknown Artist") EmptyString).
  destruct (PyStr.split_acc _ _ _) as [|a [|b l]]; intros NE;
    [contradiction | reflexivity | simpl; now destruct l].
Qed.

Lemma Forall2_keyed {C K : Type} (f : C -> K) (Q : K -> C -> Prop)
    (cs : list C) (ks : list K) :
  Forall2 (fun c k => f c = k /\ Q k c) cs ks ->
  map f cs = ks /\ Forall (fun c => Q (f c) c) cs.
Proof.
  induction 1 as [|c k cs ks [E HQ] _ [IH1 IH2]]; simpl; [auto|].
  subst. split; [now f_equal | constructor; auto].
Qed.

Lemma Forall2_concat {X Y : Type} (R : X -> Y -> Prop)
    (xs : list (list X)) (ys : list (list Y)) :
  Forall2 (Forall2 R) xs ys -> Forall2 R (List.concat xs) (List.concat ys).
Proof.
  induction 1; simpl; [constructor | now apply Forall2_app].
Qed.

(** C1. Grouping places every recording in exactly one group: the groups
    carry distinct keys, they come in the order in which their keys first
    appear in the input, each holds exactly the recordings of its key in
    input order, and taken together they hold, each once, exactly the
    recordings whose key survives emission.  A key does not survive only
    when it does not split into two parts around the bar or its date part
    is not a year-month-day date; every recording without a date is keyed
    "unknown" and so is dropped. *)
Theorem grouping_partitions_recordings (t : nat) (items : list ArchiveItem) :
  let groups := fst (group_recordings_by_concert year_padded clock t items) in
  map c_concert_key groups
  = filter key_emits (first_occurrences (map key_of items))
  /\ NoDup (map c_concert_key groups)
  /\ Forall (fun c =>
               Forall2 same_recording
                 (filter (with_key (c_concert_key c)) items) (c_recordings c))
       groups
  /\ (exists placed,
         Permutation placed
           (filter (fun r => key_emits (key_of r)) items)
         /\ Forall2 same_recording placed (List.concat (map c_recordings groups)))
  /\ (forall r, In r items -> date r = None ->
                key_emits (key_of r) = false
                /\ exists a, key_of r = a ++ "|" ++ "unknown")
  /\ (forall k, key_emits k = false <->
                (List.length (PyStr.split "|" k) <> 2%nat
                 \/ exists a d, PyStr.split "|" k = [a; d]
                                /\ PyDate.strptime_ymd d = None)).
Proof.
  intros groups.
  set (ks := first_occurrences (map key_of items)).
  assert (E2 : Forall2 (fun c k => c_concert_key c = k
                  /\ Forall2 same_recording (filter (with_key k) items)
                       (c_recordings c))
                 groups (filter key_emits ks)).
  { unfold groups, group_recordings_by_concert.
    rewrite concert_groups_buckets. fold ks.
    assert (NE : forall kv,
               In kv (map (fun k => (k, filter (with_key k) items)) ks) ->
               snd kv <> []).
    { intros kv Hkv. apply in_map_iff in Hkv as (k & <- & Hk). simpl.
      apply first_occurrences_in, in_map_iff in Hk as (r & Hr & Hin).
      intros Hnil.
      assert (X : In r (filter (with_key k) items)).
      { apply filter_In. split; [assumption|]. now apply String.eqb_eq. }
      rewrite Hnil in X. contradiction. }
    generalize (make_concerts_emitted _ NE t).
    generalize (fst (make_concerts clock t
                       (map (fun k => (k, filter (with_key k) items)) ks))).
    clearbody ks. clear. intros cs. revert cs.
    induction ks as [|k ks IH]; intros cs; simpl.
    { intros H. inversion H. constructor. }
    destruct (key_emits k); simpl; auto.
    intros H. inversion H; subst. constructor; auto. }
  destruct (Forall2_keyed _ _ _ _ E2) as [Ekeys Each].
  assert (ND : NoDup (filter key_emits ks))
    by (apply NoDup_filter, first_occurrences_nodup).
  split; [exact Ekeys|]. split; [now rewrite Ekeys|].
  split; [exact Each|]. split; [|split].
  - exists (List.concat (map (fun k => filter (with_key k) items)
                      (filter key_emits ks))).
    split.
    + rewrite (concat_filter_perm items _ ND).
      erewrite filter_ext_in; [reflexivity|].
      intros r Hr. simpl.
      destruct (key_emits (key_of r)) eqn:Em.
      * apply eqb_in, filter_In. split; [|assumption].
        apply first_occurrences_in, in_map. assumption.
      * destruct (existsb _ _) eqn:X; [|reflexivity].
        apply eqb_in, filter_In in X as [_ X]. congruence.
    + apply Forall2_concat. clear -E2.
      induction E2 as [|c k0 cs l [_ H] _ IH]; simpl; constructor; auto.
  - intros r _ Hd. split; [now apply undated_key_dropped|].
    unfold extract_concert_key. rewrite Hd. eauto.
  - intros k. unfold key_emits.
    destruct (PyStr.split "|" k) as [|a [|d [|x l]]]; simpl;
      try (split; [intros _; left; discriminate | reflexivity]).
    destruct (PyDate.strptime_ymd d) eqn:P.
    + split; [discriminate|]. intros [N|(a' & d' & E & P')]; [now contradiction N|].
      inversion E; subst. congruence.
    + split; [|reflexivity]. intros _. right. eauto.
Qed.

End GrouperFacts.

(** ** Sorting *)

Section SortFacts.
Context {A : Type}.
Variable lt : A -> A -> bool.
Hypothesis lt_asym : forall a b, lt a b = true -> lt b a = false.
Hypothesis le_trans :
  forall a b c, lt b a = false -> lt c b = false -> lt c a = false.

(** [a <= b] as the sort sees it: [b] is not strictly below [a]. *)
Local Notation "'le'" := (fun a b => lt b a = false).

Lemma insert_sorted_perm (x : A) (l : list A) :
  Permutation (x :: l) (insert_sorted lt x l).
Proof.
  induction l as [|y l IH]; simpl; [reflexivity|].
  destruct (lt y x); [|reflexivity].
  rewrite perm_swap. now constructor.
Qed.

Lemma py_sorted_perm (l : list A) : Permutation l (py_sorted lt l).
Proof.
  induction l as [|x l IH]; simpl; [constructor|].
  rewrite <- insert_sorted_perm. now constructor.
Qed.

Lemma py_sort_perm (reverse : bool) (l : list A) :
  Permutation l (py_sort lt reverse l).
Proof.
  unfold py_sort. destruct reverse; [|apply py_sorted_perm].
  rewrite <- Permutation_rev, <- py_sorted_perm. apply Permutation_rev.
Qed.

Lemma insert_sorted_strongly (x : A) (l : list A) :
  StronglySorted le l -> StronglySorted le (insert_sorted lt x l).
Proof.
  induction 1 as [|y l SS IH F]; simpl.
  - repeat constructor.
  - destruct (lt y x) eqn:E.
    + constructor; [assumption|].
      rewrite <- insert_sorted_perm. constructor; [now apply lt_asym | assumption].
    + constructor; [now constructor|].
      constructor; [assumption|].
      rewrite Forall_forall in *. intros z Hz. apply (le_trans x y z); auto.
Qed.

Lemma py_sorted_strongly (l : list A) : StronglySorted le (py_sorted lt l).
Proof.
  induction l as [|x l IH]; simpl; [constructor | now apply insert_sorted_strongly].
Qed.

Lemma py_sorted_fixed (l : list A) : StronglySorted le l -> py_sorted lt l = l.
Proof.
  induction 1 as [|x l SS IH F]; simpl; [reflexivity|].
  rewrite IH. destruct l as [|y l]; simpl; [reflexivity|].
  inversion F; subst. now rewrite H1.
Qed.

Lemma StronglySorted_app (R : A -> A -> Prop) (l1 l2 : list A) :
  StronglySorted R l1 -> StronglySorted R l2 ->
  (forall a b, In a l1 -> In b l2 -> R a b) ->
  StronglySorted R (l1 ++ l2).
Proof.
  induction 1 as [|x l SS IH F]; intros S2 H; simpl; [assumption|].
  constructor.
  - apply IH; [assumption|]. intros a b Ha Hb. apply H; [now right | assumption].
  - apply Forall_app. split; [assumption|].
    apply Forall_forall. intros b Hb. apply H; [now left | assumption].
Qed.

Lemma StronglySorted_rev (R : A -> A -> Prop) (l : list A) :
  StronglySorted R l -> StronglySorted (fun a b => R b a) (rev l).
Proof.
  induction 1 as [|x l SS IH F]; simpl; [constructor|].
  apply StronglySorted_app; [assumption | repeat constructor |].
  intros a b Ha [<-|[]]. rewrite Forall_forall in F.
  apply F. now apply in_rev.
Qed.

(** Ascending without [reverse], descending with it. *)
Lemma py_sort_ordered (reverse : bool) (l : list A) :
  if reverse then StronglySorted (fun a b => lt a b = false) (py_sort lt true l)
  else StronglySorted (fun a b => lt b a = false) (py_sort lt false l).
Proof.
  destruct reverse; unfold py_sort.
  - apply (StronglySorted_rev le), py_sorted_strongly.
  - apply py_sorted_strongly.
Qed.

Lemma py_sort_idempotent (reverse : bool) (l : list A) :
  py_sort lt reverse (py_sort lt reverse l) = py_sort lt reverse l.
Proof.
  unfold py_sort. destruct reverse.
  - rewrite rev_involutive. f_equal. apply py_sorted_fixed, py_sorted_strongly.
  - apply py_sorted_fixed, py_sorted_strongly.
Qed.
End SortFacts.

Lemma string_ltb_asym (a b : string) :
  PyStr.ltb a b = true -> PyStr.ltb b a = false.
Proof.
  unfold PyStr.ltb, String.ltb. rewrite (String.compare_antisym b a).
  now destruct (String.compare a b).
Qed.

Lemma string_compare_trans (a b c : string) :
  String.compare a b <> Gt -> String.compare b c <> Gt ->
  String.compare a c <> Gt.
Proof.
  revert b c; induction a as [|x a IH]; intros [|y b] [|z c]; simpl;
    try congruence.
  unfold Ascii.compare.
  destruct (N.compare_spec (N_of_ascii x) (N_of_ascii y)) as [E1|L1|G1];
    destruct (N.compare_spec (N_of_ascii y) (N_of_ascii z)) as [E2|L2|G2];
    destruct (N.compare_spec (N_of_ascii x) (N_of_ascii z)) as [E3|L3|G3];
    try congruence; try lia.
  apply IH.
Qed.

Lemma string_le_trans (a b c : string) :
  PyStr.ltb b a = false -> PyStr.ltb c b = false -> PyStr.ltb c a = false.
Proof.
  unfold PyStr.ltb, String.ltb. intros H1 H2.
  assert (T := string_compare_trans a b c).
  rewrite (String.compare_antisym b a) in H1.
  rewrite (String.compare_antisym c b) in H2.
  rewrite (String.compare_antisym c a).
  destruct (String.compare a b), (String.compare b c), (String.compare a c);
    simpl in *; try reflexivity; try discriminate;
    exfalso; apply T; congruence.
Qed.

Lemma lex_ltb_asym (a b : list Z) :
  PyDate.lex_ltb a b = true -> PyDate.lex_ltb b a = false.
Proof.
  revert b; induction a as [|x a IH]; intros [|y b]; simpl; try congruence.
  destruct (Z.ltb_spec x y), (Z.ltb_spec y x); try lia; auto.
Qed.

Lemma lex_le_trans (a b c : list Z) :
  PyDate.lex_ltb b a = false -> PyDate.lex_ltb c b = false ->
  PyDate.lex_ltb c a = false.
Proof.
  revert b c; induction a as [|x a IH]; intros [|y b] [|z c]; simpl;
    try congruence.
  destruct (Z.ltb_spec y x), (Z.ltb_spec x y), (Z.ltb_spec z y),
    (Z.ltb_spec y z), (Z.ltb_spec z x), (Z.ltb_spec x z);
    try congruence; try lia.
  apply IH.
Qed.

Lemma date_lt_asym (a b : Concert) : date_lt a b = true -> date_lt b a = false.
Proof. apply lex_ltb_asym. Qed.

Lemma date_le_trans (a b c : Concert) :
  date_lt b a = false -> date_lt c b = false -> date_lt c a = false.
Proof. apply lex_le_trans. Qed.

Lemma artist_lt_asym (a b : Concert) :
  artist_lt a b = true -> artist_lt b a = false.
Proof. apply string_ltb_asym. Qed.

Lemma artist_le_trans (a b c : Concert) :
  artist_lt b a = false -> artist_lt c b = false -> artist_lt c a = false.
Proof. apply string_le_trans. Qed.

Lemma venue_lt_asym (a b : Concert) :
  venue_lt a b = true -> venue_lt b a = false.
Proof. apply string_ltb_asym. Qed.

Lemma venue_le_trans (a b c : Concert) :
  venue_lt b a = false -> venue_lt c b = false -> venue_lt c a = false.
Proof. apply string_le_trans. Qed.

Lemma venue_key_spelled (c : Concert) :
  venue_key c
  = PyStr.lower (match c_venue c with Some v => v | None => EmptyString end).
Proof.
  unfold venue_key, PyStr.or_default. destruct (c_venue c) as [v|]; [|reflexivity].
  destruct (String.eqb_spec v EmptyString) as [->|]; reflexivity.
Qed.

Lemma sort_concerts_cases (sort_by sort_order : option string)
    (concerts : list Concert) :
  sort_concerts sort_by sort_order concerts
  = py_sort (if opt_is sort_by "artist" then artist_lt
             else if opt_is sort_by "venue" then venue_lt else date_lt)
      (opt_is sort_order "desc") concerts.
Proof.
  unfold sort_concerts.
  destruct (opt_is sort_by "date") eqn:D.
  - destruct sort_by as [s|]; [|discriminate]. simpl in D.
    apply String.eqb_eq in D. now subst.
  - destruct (opt_is sort_by "artist"); [reflexivity|].
    now destruct (opt_is sort_by "venue").
Qed.

Lemma sort_concerts_idempotent (sort_by sort_order : option string)
    (concerts : list Concert) :
  sort_concerts sort_by sort_order (sort_concerts sort_by sort_order concerts)
  = sort_concerts sort_by sort_order concerts.
Proof.
  rewrite !sort_concerts_cases.
  destruct (opt_is sort_by "artist"); [|destruct (opt_is sort_by "venue")].
  - apply py_sort_idempotent; [apply artist_lt_asym | apply artist_le_trans].
  - apply py_sort_idempotent; [apply venue_lt_asym | apply venue_le_trans].
  - apply py_sort_idempotent; [apply date_lt_asym | apply date_le_trans].
Qed.

(** C6. The listing order is a rearrangement of the group list that is
    ordered by concert date when the sort field is "date" or anything
    unknown, by lower-cased artist when it is "artist", by lower-cased
    venue with a null venue read as the empty string when it is "venue";
    ascending for "asc" and descending for "desc".  Artists "zebra",
    "Apple" come out ascending as "Apple", "zebra". *)
Theorem listing_order (sort_by sort_order : option string)
    (concerts : list Concert) :
  let out := sort_concerts sort_by sort_order concerts in
  Permutation concerts out
  /\ (forall descending,
         (sort_order = Some "asc" /\ descending = false)
         \/ (sort_order = Some "desc" /\ descending = true) ->
         (sort_by = Some "artist" ->
          sorted_by PyStr.ltb (fun c => PyStr.lower (c_artist c)) descending out)
         /\ (sort_by = Some "venue" ->
             sorted_by PyStr.ltb
               (fun c => PyStr.lower (match c_venue c with
                                      | Some v => v
                                      | None => EmptyString
                                      end)) descending out)
         /\ (sort_by <> Some "artist" -> sort_by <> Some "venue" ->
             sorted_by PyDate.ltb c_date descending out))
  /\ map c_artist
       (sort_concerts (Some "artist") (Some "asc") [billed "zebra"; billed "Apple"])
     = ["Apple"; "zebra"].
Proof.
  intros out. split; [|split; [|reflexivity]].
  - unfold out. rewrite sort_concerts_cases. apply py_sort_perm.
  - intros descending Hord.
    assert (R : opt_is sort_order "desc" = descending).
    { destruct Hord as [[-> ->]|[-> ->]]; reflexivity. }
    unfold out. rewrite sort_concerts_cases, R. clear R Hord out.
    split; [|split].
    + intros ->. simpl.
      generalize (py_sort_ordered artist_lt artist_lt_asym artist_le_trans
                    descending concerts).
      unfold sorted_by. destruct descending; exact (fun H => H).
    + intros ->. simpl.
      generalize (py_sort_ordered venue_lt venue_lt_asym venue_le_trans
                    descending concerts).
      unfold sorted_by, venue_lt.
      destruct descending; intros H;
        (eapply StronglySorted_ind with (P := fun l => StronglySorted _ l);
         [constructor | | exact H]);
        (intros a l _ IH F; constructor; [exact IH|]);
        (eapply Forall_impl; [|exact F]); intros b; simpl;
        now rewrite !venue_key_spelled.
    + intros NA NV.
      assert (EA : opt_is sort_by "artist" = false).
      { destruct sort_by as [s|]; [|reflexivity]. simpl.
        apply String.eqb_neq. congruence. }
      assert (EV : opt_is sort_by "venue" = false).
      { destruct sort_by as [s|]; [|reflexivity]. simpl.
        apply String.eqb_neq. congruence. }
      rewrite EA, EV.
      generalize (py_sort_ordered date_lt date_lt_asym date_le_trans
                    descending concerts).
      unfold sorted_by. destruct descending; exact (fun H => H).
Qed.

(** ** Pagination *)

Lemma py_slice_window {A : Type} (l : list A) (a n : Z) :
  0 <= a -> 0 <= n ->
  py_slice l a (a + n) = firstn (Z.to_nat n) (skipn (Z.to_nat a) l).
Proof.
  intros Ha Hn. unfold py_slice.
  destruct (Z.ltb_spec a 0) as [|_]; [lia|].
  destruct (Z.ltb_spec (a + n) 0) as [|_]; [lia|].
  rewrite firstn_skipn_comm.
  replace (Z.to_nat a + Z.to_nat n)%nat with (Z.to_nat (a + n)) by lia.
  destruct (Z.le_gt_cases (a + n) (Z.of_nat (List.length l))) as [L|G].
  - rewrite !Z.min_l by lia. reflexivity.
  - rewrite (Z.min_r (a + n)) by lia. rewrite Nat2Z.id.
    rewrite (firstn_all2 (n := Z.to_nat (a + n))) by lia.
    rewrite firstn_all.
    destruct (Z.le_gt_cases a (Z.of_nat (List.length l))) as [L'|G'].
    + now rewrite Z.min_l by lia.
    + rewrite Z.min_r by lia. rewrite Nat2Z.id.
      rewrite !skipn_all2; [reflexivity | lia | lia].
Qed.

(** ** The engine *)

Section EngineFacts.
Variable year_padded : bool.
Variable clock : nat -> datetime.
Variable upstream : nat -> Params -> FetchOutcome.

Local Notation "'tick' w" :=
  (mk_world (browse_cache w) (S (ticks w)) (fetch_log w)) (at level 10, w at level 9).

Lemma cache_lookup_run (k : string) (w : World) :
  cache_lookup clock k w
  = match PyDict.get k (browse_cache w) with
    | Some e =>
        (Return (if PyDate.timestamp (clock (ticks w)) - timestamp e
                    <? CACHE_DURATION then Some e else None), tick w)
    | None => (Return None, w)
    end.
Proof.
  unfold cache_lookup, bind, get_browse_cache, is_cache_valid, utcnow, ret, bind.
  simpl. destruct (PyDict.get k (browse_cache w)); [|reflexivity].
  simpl. now destruct (_ <? _).
Qed.

Lemma browse_concerts_ok (rq : ListingRequest) (w w' : World) (r : Listing) :
  browse_concerts year_padded clock upstream rq w = (Ok r, w') ->
  exists concerts w1,
    load_concerts year_padded clock upstream rq w = (Return concerts, w1)
    /\ r = paginate (q_page rq) (q_per_page rq)
             (sort_concerts (q_sort_by rq) (q_sort_order rq) concerts)
    /\ fetch_log w' = fetch_log w1 /\ ticks w' = ticks w1
    /\ forall e, PyDict.get (get_cache_key (build_params rq)) (browse_cache w')
                 = Some e ->
                 data e = sort_concerts (q_sort_by rq) (q_sort_order rq) concerts.
Proof.
  unfold browse_concerts, browse_concerts_body, bind.
  destruct (load_concerts _ _ _ rq w) as [[concerts|e] w1].
  - unfold sort_in_place, bind, get_browse_cache, put_browse_cache, ret.
    simpl.
    destruct (PyDict.get _ (browse_cache w1)) as [e0|] eqn:G; simpl;
      intros H; inversion H; subst; clear H; do 2 eexists;
      (split; [reflexivity|]); simpl; repeat split.
    + intros e. rewrite get_set, String.eqb_refl. intros E. now inversion E.
    + intros e E. congruence.
  - destruct e; discriminate.
Qed.

(** C7. A listing holds the window of the sorted group list that starts
    at (page - 1) * page_size and is page_size long, the length of the
    whole list as total, and the rounded-up quotient of that length by
    the page size as total_pages; 25 groups with page 2 and page size 10
    give the groups at indices 10 to 19 and 3 pages. *)
Theorem listing_page :
  (forall concerts page per_page,
      1 <= page -> 1 <= per_page <= 100 ->
      let r := paginate page per_page concerts in
      l_results r
      = firstn (Z.to_nat per_page)
          (skipn (Z.to_nat ((page - 1) * per_page)) concerts)
      /\ l_total r = Z.of_nat (List.length concerts)
      /\ (l_total_pages r - 1) * per_page < l_total r <= l_total_pages r * per_page
      /\ l_page r = page /\ l_per_page r = per_page)
  /\ (forall rq w r w',
         browse_concerts year_padded clock upstream rq w = (Ok r, w') ->
         exists concerts w1,
           load_concerts year_padded clock upstream rq w = (Return concerts, w1)
           /\ r = paginate (q_page rq) (q_per_page rq)
                    (sort_concerts (q_sort_by rq) (q_sort_order rq) concerts))
  /\ (forall concerts,
         List.length concerts = 25%nat ->
         let r := paginate 2 10 concerts in
         l_total r = 25 /\ l_total_pages r = 3
         /\ List.length (l_results r) = 10%nat
         /\ forall i, (i < 10)%nat ->
              nth_error (l_results r) i = nth_error concerts (10 + i)).
Proof.
  split; [|split].
  - intros concerts page per_page Hp Hpp r. unfold r, paginate. simpl.
    split; [apply py_slice_window; nia|]. split; [reflexivity|].
    split; [|split; reflexivity].
    set (n := Z.of_nat (List.length concerts)).
    assert (D := Z.div_mod (n + per_page - 1) per_page ltac:(lia)).
    assert (M := Z.mod_pos_bound (n + per_page - 1) per_page ltac:(lia)).
    nia.
  - intros rq w r w' H.
    destruct (browse_concerts_ok _ _ _ _ H) as (concerts & w1 & L & E & _).
    eauto.
  - intros concerts L r. unfold r, paginate.
    cbn [l_total l_total_pages l_results].
    change ((2 - 1) * 10) with 10.
    rewrite py_slice_window by lia. rewrite L.
    split; [reflexivity|]. split; [reflexivity|].
    split.
    + rewrite length_firstn, length_skipn, L. reflexivity.
    + intros i Hi. rewrite nth_error_firstn, nth_error_skipn.
      apply Nat.ltb_lt in Hi. change (Z.to_nat 10) with 10%nat.
      now rewrite Hi.
Qed.

Lemma scan_cache_run (key : string) (entries : list CacheEntry) (w : World) :
  exists found w',
    scan_cache clock key entries w = (Return found, w')
    /\ fetch_log w' = fetch_log w /\ browse_cache w' = browse_cache w.
Proof.
  revert w; induction entries as [|e entries IH]; intros w; simpl.
  - exists None, w. repeat split.
  - unfold bind, is_cache_valid, bind, utcnow, ret. simpl.
    destruct (_ <? _).
    + destruct (find _ (data e)) as [c|].
      * eexists _, _. repeat split.
      * destruct (IH (tick w)) as (f & w' & E & L & C). eauto.
    + destruct (IH (tick w)) as (f & w' & E & L & C). eauto.
Qed.

Lemma details_after_scan (key : string) (w : World) :
  exists found w',
    scan_cache clock key (PyDict.values (browse_cache w)) w = (Return found, w')
    /\ fetch_log w' = fetch_log w
    /\ get_concert_details_body year_padded clock upstream key w
       = match found with
         | Some concert => (Return concert, w')
         | None => search_concert year_padded clock upstream key w'
         end.
Proof.
  destruct (scan_cache_run key (PyDict.values (browse_cache w)) w)
    as (found & w' & E & L & _).
  exists found, w'. repeat split; auto.
  unfold get_concert_details_body, bind, get_browse_cache. simpl.
  rewrite E. now destruct found.
Qed.

(** C8. A detail key that does not split into exactly two parts around
    the bar, and that the cache scan does not find, is answered with the
    400 reply for a malformed key, and no call to the upstream service is
    made. *)
Theorem malformed_key_rejected_without_fetch (key : string) (w : World) :
  List.length (PyStr.split "|" key) <> 2%nat ->
  fst (scan_cache clock key (PyDict.values (browse_cache w)) w) = Return None ->
  fst (get_concert_details year_padded clock upstream key w)
  = Fail 400 "Invalid concert key format"
  /\ fetch_log (snd (get_concert_details year_padded clock upstream key w))
     = fetch_log w.
Proof.
  intros Hsplit Hscan.
  destruct (details_after_scan key w) as (found & w' & E & L & B).
  rewrite E in Hscan. simpl in Hscan. inversion Hscan; subst found.
  unfold get_concert_details. rewrite B. unfold search_concert.
  destruct (PyStr.split "|" key) as [|a [|d [|x l]]]; simpl; auto.
  now contradiction Hsplit.
Qed.



Lemma fetch_fresh_failure (rq : ListingRequest) (key : string) (w : World) :
  let params := build_params rq in
  let w' := mk_world (browse_cache w) (ticks w) (fetch_log w ++ [params])%list in
  match upstream (List.length (fetch_log w)) params with
  | FetchOk _ => True
  | FetchBadBody =>
      fetch_fresh year_padded clock upstream rq params key w = (Raise BodyError, w')
  | FetchStatusError s =>
      fetch_fresh year_padded clock upstream rq params key w
      = (Raise (HTTPStatusError s), w')
  | FetchTimeout =>
      fetch_fresh year_padded clock upstream rq params key w
      = (Raise TimeoutException, w')
  | FetchTransportError =>
      fetch_fresh year_padded clock upstream rq params key w
      = (Raise TransportError, w')
  end.
Proof.
  intros params w'. unfold fetch_fresh, bind, fetch_recordings. fold params.
  destruct (upstream _ params); auto.
Qed.

Lemma listing_miss (rq : ListingRequest) (w : World) :
  let key := get_cache_key (build_params rq) in
  fst (cache_lookup clock key w) = Return None ->
  exists w1,
    fetch_log w1 = fetch_log w /\ browse_cache w1 = browse_cache w
    /\ load_concerts year_padded clock upstream rq w
       = fetch_fresh year_padded clock upstream rq (build_params rq) key w1.
Proof.
  intros key H. unfold load_concerts, bind. fold key.
  rewrite cache_lookup_run in *.
  destruct (PyDict.get key (browse_cache w)) as [e|]; simpl in *.
  - destruct (_ <? _); [discriminate|]. exists (tick w). repeat split.
  - exists w. repeat split.
Qed.

(** C3 (amended). A listing request that misses the cache and whose
    upstream call ends in a non-2xx response is answered with the 502
    "Browse service unavailable", which differs from the 500 internal
    error; a listing request that misses the cache, or a detail request
    that reaches its upstream call, and whose call times out is answered
    with the 500 internal error of its endpoint. *)
Theorem upstream_failure_replies :
  (forall rq w,
      fst (cache_lookup clock (get_cache_key (build_params rq)) w)
      = Return None ->
      let outcome := upstream (List.length (fetch_log w)) (build_params rq) in
      let reply := fst (browse_concerts year_padded clock upstream rq w) in
      (forall s, outcome = FetchStatusError s ->
                 reply = Fail 502 "Browse service unavailable"
                 /\ reply <> Fail 500 "Failed to aggregate concerts")
      /\ (outcome = FetchTimeout ->
          reply = Fail 500 "Failed to aggregate concerts"))
  /\ (forall key artist date_str w,
         PyStr.split "|" key = [artist; date_str] ->
         fst (scan_cache clock key (PyDict.values (browse_cache w)) w)
         = Return None ->
         upstream (List.length (fetch_log w))
           [("artist", PStr artist); ("per_page", PInt 100)] = FetchTimeout ->
         fst (get_concert_details year_padded clock upstream key w)
         = Fail 500 "Failed to get concert details").
Proof.
  split.
  - intros rq w Hmiss outcome reply.
    destruct (listing_miss rq w Hmiss) as (w1 & L & _ & E).
    assert (F := fetch_fresh_failure rq (get_cache_key (build_params rq)) w1).
    cbv zeta in F. rewrite L in F. fold outcome in F.
    unfold reply, browse_concerts, browse_concerts_body, bind. rewrite E.
    split.
    + intros s Hs. rewrite Hs in F. rewrite F. simpl.
      split; [reflexivity | discriminate].
    + intros Ht. rewrite Ht in F. rewrite F. reflexivity.
  - intros key artist date_str w Hs Hscan Ht.
    destruct (details_after_scan key w) as (found & w' & E & L & B).
    rewrite E in Hscan. simpl in Hscan. inversion Hscan; subst found.
    unfold get_concert_details. rewrite B. unfold search_concert. rewrite Hs.
    unfold bind, fetch_recordings. rewrite L, Ht. reflexivity.
Qed.

Lemma store_entry_run (k : string) (concerts : list Concert)
    (items : list ArchiveItem) (w : World) :
  store_entry clock k concerts items w
  = (Return tt,
     mk_world
       (PyDict.set k (mk_entry concerts (PyDate.timestamp (clock (ticks w))) items)
          (browse_cache w))
       (S (ticks w)) (fetch_log w)).
Proof. reflexivity. Qed.

Lemma cleanup_cache_run (w : World) :
  cleanup_cache clock w
  = (Return tt,
     mk_world
       (fold_left (fun c k => PyDict.del k c)
          (map fst
             (filter (fun kv => CACHE_DURATION
                                <=? PyDate.timestamp (clock (ticks w))
                                    - timestamp (snd kv))
                (browse_cache w)))
          (browse_cache w))
       (S (ticks w)) (fetch_log w)).
Proof. reflexivity. Qed.

Section CacheDictFacts.
Context {V : Type}.
Implicit Types (d : PyDict.t V) (k : string).

Lemma get_del k k' d :
  NoDup (PyDict.keys d) ->
  PyDict.get k (PyDict.del k' d)
  = if String.eqb k' k then None else PyDict.get k d.
Proof.
  induction d as [|[k0 v0] d IH]; simpl; intros ND.
  - now destruct (String.eqb k' k).
  - inversion ND as [|? ? Hnin ND']; subst.
    destruct (String.eqb_spec k0 k') as [->|N]; simpl.
    + destruct (String.eqb_spec k' k) as [->|N']; [|reflexivity].
      now apply get_none_keys.
    + rewrite (IH ND').
      destruct (String.eqb_spec k' k) as [->|N']; [|reflexivity].
      destruct (String.eqb_spec k0 k) as [->|]; [contradiction | reflexivity].
Qed.

Lemma keys_del_incl k d x : In x (PyDict.keys (PyDict.del k d)) -> In x (PyDict.keys d).
Proof.
  induction d as [|[k0 v0] d IH]; simpl; [tauto|].
  destruct (String.eqb k0 k); simpl; [now right | intros [E|H]; auto].
Qed.

Lemma NoDup_del k d : NoDup (PyDict.keys d) -> NoDup (PyDict.keys (PyDict.del k d)).
Proof.
  induction d as [|[k0 v0] d IH]; simpl; intros ND; [constructor|].
  inversion ND as [|? ? Hnin ND']; subst.
  destruct (String.eqb k0 k); simpl; [assumption|].
  constructor; [|now apply IH]. intros H. apply Hnin.
  now apply keys_del_incl in H.
Qed.

Lemma NoDup_set k (v : V) d :
  NoDup (PyDict.keys d) -> NoDup (PyDict.keys (PyDict.set k v d)).
Proof.
  intros ND. rewrite keys_set.
  destruct (existsb (String.eqb k) (PyDict.keys d)) eqn:E; [assumption|].
  apply NoDup_app; [assumption | repeat constructor; intros [] |].
  intros x Hx [<-|[]]. apply eqb_in in Hx. congruence.
Qed.

Lemma sweep_keeps k (ks : list string) d :
  NoDup (PyDict.keys d) ->
  NoDup (PyDict.keys (fold_left (fun c k' => PyDict.del k' c) ks d))
  /\ PyDict.get k (fold_left (fun c k' => PyDict.del k' c) ks d)
     = if existsb (String.eqb k) ks then None else PyDict.get k d.
Proof.
  revert d; induction ks as [|k' ks IH]; intros d ND; simpl; [auto|].
  destruct (IH (PyDict.del k' d) (NoDup_del k' d ND)) as [ND' G].
  split; [assumption|]. rewrite G, get_del by assumption.
  rewrite (String.eqb_sym k k').
  destruct (String.eqb k' k); simpl; [|reflexivity].
  now destruct (existsb _ ks).
Qed.

Lemma selected_key k (e : V) (p : string * V -> bool) d :
  NoDup (PyDict.keys d) -> PyDict.get k d = Some e ->
  existsb (String.eqb k) (map fst (filter p d)) = p (k, e).
Proof.
  induction d as [|[k0 v0] d IH]; simpl; intros ND G; [discriminate|].
  inversion ND as [|? ? Hnin ND']; subst.
  destruct (String.eqb_spec k0 k) as [->|N].
  - inversion G; subst.
    destruct (p (k, e)) eqn:P; simpl.
    + now rewrite String.eqb_refl.
    + destruct (existsb _ _) eqn:X; [|reflexivity].
      apply eqb_in, in_map_iff in X as ([k1 v1] & E1 & H1). simpl in E1. subst.
      apply filter_In in H1 as [H1 _]. exfalso. apply Hnin.
      change k with (fst (k, v1)). now apply in_map.
  - rewrite <- (IH ND' G). destruct (p (k0, v0)); simpl; [|reflexivity].
    destruct (String.eqb_spec k k0) as [->|]; [contradiction | reflexivity].
Qed.

Lemma set_same k (e : V) d : PyDict.get k d = Some e -> PyDict.set k e d = d.
Proof.
  induction d as [|[k0 v0] d IH]; simpl; [discriminate|].
  destruct (String.eqb_spec k0 k) as [->|N]; intros G.
  - now inversion G.
  - now rewrite IH.
Qed.
End CacheDictFacts.

(** C5. After groups are stored under a fingerprint and the sweep has
    run, a lookup of that fingerprint made less than 300 seconds after
    the store (the clock not running backwards after the sweep) returns
    the stored groups and recordings unchanged; a lookup made 300 seconds
    or more after the store is a miss, and a sweep at that time leaves no
    entry under the fingerprint. *)
Theorem stored_entry_lifetime (F : string) (groups : list Concert)
    (items : list ArchiveItem) (w w2 : World) :
  NoDup (PyDict.keys (browse_cache w)) ->
  let created := PyDate.timestamp (clock (ticks w)) in
  let swept := PyDate.timestamp (clock (S (ticks w))) in
  let now := PyDate.timestamp (clock (ticks w2)) in
  browse_cache w2
  = browse_cache
      (snd (bind (store_entry clock F groups items)
              (fun _ => cleanup_cache clock) w)) ->
  (swept <= now -> now - created < 300 * 1000000 ->
   fst (cache_lookup clock F w2)
   = Return (Some (mk_entry groups created items)))
  /\ (300 * 1000000 <= now - created ->
      fst (cache_lookup clock F w2) = Return None
      /\ PyDict.get F (browse_cache (snd (cleanup_cache clock w2))) = None).
Proof.
  intros ND created swept now Hc.
  unfold bind in Hc. rewrite store_entry_run, cleanup_cache_run in Hc.
  simpl in Hc. fold created swept in Hc.
  set (e0 := mk_entry groups created items) in *.
  set (d1 := PyDict.set F e0 (browse_cache w)) in *.
  assert (ND1 : NoDup (PyDict.keys d1)) by now apply NoDup_set.
  assert (G1 : PyDict.get F d1 = Some e0)
    by (unfold d1; now rewrite get_set, String.eqb_refl).
  set (p1 := fun kv : string * CacheEntry =>
               CACHE_DURATION <=? swept - timestamp (snd kv)) in *.
  destruct (sweep_keeps F (map fst (filter p1 d1)) d1 ND1) as [ND2 G2].
  rewrite <- Hc in ND2, G2.
  rewrite (selected_key F e0 p1 d1 ND1 G1), G1 in G2.
  unfold p1 in G2. simpl in G2. change (timestamp e0) with created in G2.
  split.
  - intros Hmono Hfresh. rewrite cache_lookup_run.
    destruct (Z.leb_spec CACHE_DURATION (swept - created)) as [X|_];
      [unfold CACHE_DURATION in X; lia|].
    rewrite G2. simpl. change (timestamp e0) with created. fold now.
    destruct (Z.ltb_spec (now - created) CACHE_DURATION) as [_|X];
      [reflexivity | unfold CACHE_DURATION in X; lia].
  - intros Hold. split.
    + rewrite cache_lookup_run.
      destruct (CACHE_DURATION <=? swept - created); rewrite G2; [reflexivity|].
      simpl. change (timestamp e0) with created. fold now.
      destruct (Z.ltb_spec (now - created) CACHE_DURATION) as [X|_];
        [unfold CACHE_DURATION in X; lia | reflexivity].
    + rewrite cleanup_cache_run. simpl. fold now.
      set (p2 := fun kv : string * CacheEntry =>
                   CACHE_DURATION <=? now - timestamp (snd kv)).
      destruct (sweep_keeps F (map fst (filter p2 (browse_cache w2)))
                  (browse_cache w2) ND2) as [_ G3].
      rewrite G3.
      destruct (CACHE_DURATION <=? swept - created).
      * rewrite G2. now destruct (existsb _ _).
      * rewrite (selected_key F e0 p2 _ ND2 G2). unfold p2. simpl.
        change (timestamp e0) with created.
        destruct (Z.leb_spec CACHE_DURATION (now - created)) as [_|X];
          [reflexivity | unfold CACHE_DURATION in X; lia].
Qed.

(** C9. Two listing requests that differ only in the concert-date flag
    have the same cache key, so they address the same entry: a request
    that finds the entry left by the other one still valid is served the
    reply built from that entry, whatever its own flag says, without a
    call to the upstream service. *)
Theorem flag_shares_cache_entry (rq : ListingRequest) (b : bool) :
  build_params (with_filter_flag b rq) = build_params rq
  /\ get_cache_key (build_params (with_filter_flag b rq))
     = get_cache_key (build_params rq)
  /\ forall w r w1 e,
       browse_concerts year_padded clock upstream rq w = (Ok r, w1) ->
       PyDict.get (get_cache_key (build_params rq)) (browse_cache w1) = Some e ->
       PyDate.timestamp (clock (ticks w1)) - timestamp e < 300 * 1000000 ->
       browse_concerts year_padded clock upstream (with_filter_flag b rq) w1
       = (Ok r, tick w1).
Proof.
  split; [reflexivity|]. split; [reflexivity|].
  intros w r w1 e Hfirst G Hfresh.
  destruct (browse_concerts_ok _ _ _ _ Hfirst) as (cs & w0 & _ & Er & _ & _ & Hd).
  specialize (Hd e G).
  unfold browse_concerts, browse_concerts_body, load_concerts, bind.
  change (build_params (with_filter_flag b rq)) with (build_params rq).
  rewrite cache_lookup_run, G.
  destruct (Z.ltb_spec (PyDate.timestamp (clock (ticks w1)) - timestamp e)
              CACHE_DURATION) as [_|X]; [|unfold CACHE_DURATION in X; lia].
  unfold ret. simpl. rewrite Hd, sort_concerts_idempotent.
  unfold sort_in_place, bind, get_browse_cache, put_browse_cache. simpl.
  rewrite G. simpl. rewrite <- Hd.
  replace (mk_entry (data e) (timestamp e) (raw_items e)) with e
    by now destruct e.
  rewrite (set_same _ _ _ G). rewrite Hd, <- Er. reflexivity.
Qed.

Lemma py_slice_incl {A : Type} (l : list A) (a b : Z) (x : A) :
  In x (py_slice l a b) -> In x l.
Proof.
  unfold py_slice. intros H.
  set (i := Z.to_nat _) in H. set (j := Z.to_nat _) in H.
  rewrite <- (firstn_skipn j l). apply in_or_app. left.
  rewrite <- (firstn_skipn i (firstn j l)). apply in_or_app. now right.
Qed.

(** On a cache miss the flagged request is filtered: every concert of the
    page lies between the clock reading taken for the filter, less the
    range, and that reading. *)
Lemma fresh_listing_within_window (rq : ListingRequest) (w w' : World)
    (date_range : string) (r : Listing) :
  q_date_range rq = Some date_range -> date_range <> EmptyString ->
  q_filter_by_concert_date rq = true ->
  fst (cache_lookup clock (get_cache_key (build_params rq)) w) = Return None ->
  browse_concerts year_padded clock upstream rq w = (Ok r, w') ->
  exists n start_date,
    PyDate.sub_days (clock n) (range_days date_range) = Some start_date
    /\ forall c, In c (l_results r) ->
         PyDate.leb start_date (c_date c) = true
         /\ PyDate.leb (c_date c) (clock n) = true.
Proof.
  intros Hdr Hne Hflag Hmiss Hok.
  destruct (browse_concerts_ok _ _ _ _ Hok) as (cs & w1 & Hload & Er & _).
  destruct (listing_miss rq w Hmiss) as (w0 & _ & _ & E).
  rewrite E in Hload. clear E.
  unfold fetch_fresh, bind, fetch_recordings, run_grouper in Hload.
  destruct (upstream _ _) as [items| | | |]; try discriminate.
  simpl in Hload.
  destruct (group_recordings_by_concert _ _ _ items) as [grouped t'].
  rewrite Hdr, Hflag in Hload.
  assert (T : PyStr.truthy (Some date_range) = true).
  { simpl. apply negb_true_iff. now apply String.eqb_neq. }
  rewrite T in Hload. simpl in Hload.
  unfold filter_by_date, bind, utcnow in Hload. simpl in Hload.
  destruct (PyDate.sub_days (clock t') (range_days date_range))
    as [start_date|] eqn:S; [|discriminate].
  simpl in Hload. inversion Hload; subst cs.
  exists t', start_date. split; [assumption|].
  intros c Hc. rewrite Er in Hc. simpl in Hc.
  apply py_slice_incl in Hc.
  rewrite sort_concerts_cases in Hc.
  apply (Permutation_in _ (Permutation_sym (py_sort_perm _ _ _))) in Hc.
  apply filter_In in Hc as [_ Hc]. now apply andb_true_iff in Hc.
Qed.

End EngineFacts.

(* ------------------------------------------------------------------ *)
(** * The properties at work on sample data *)

Lemma grouping_partitions_recordings_witness :
  key_emits (extract_concert_key true sample_undated) = false.
Proof.
  destruct (proj1 (proj2 (proj2 (proj2 (proj2
              (grouping_partitions_recordings true sample_clock 0
                 [sample_recording; sample_undated])))))
              sample_undated) as [H _].
  - simpl. right. left. reflexivity.
  - reflexivity.
  - exact H.
Defined.

Lemma resolved_venue_witness :
  (venue_votes [venued (Some "A"); venued (Some "B"); venued (Some "A")] "B"
   <= venue_votes [venued (Some "A"); venued (Some "B"); venued (Some "A")] "A")%nat.
Proof.
  assert (H := proj1 (proj2 resolved_venue_is_first_most_common)
                 [venued (Some "A"); venued (Some "B"); venued (Some "A")]).
  change (resolve_venue _) with (Some "A") in H.
  destruct H as (before & after & _ & _ & Hmax).
  apply (Hmax "B"). simpl. right. left. reflexivity.
Defined.

Lemma listing_order_witness :
  sorted_by PyStr.ltb (fun c => PyStr.lower (c_artist c)) false
    (sort_concerts (Some "artist") (Some "asc") [billed "zebra"; billed "Apple"]).
Proof.
  apply (proj1 (proj2 (listing_order (Some "artist") (Some "asc")
                         [billed "zebra"; billed "Apple"]))).
  - left. split; reflexivity.
  - reflexivity.
Defined.

Lemma listing_page_witness :
  l_results (paginate 2 1 [billed "a"; billed "b"; billed "c"]) = [billed "b"]
  /\ l_total_pages (paginate 2 1 [billed "a"; billed "b"; billed "c"]) = 3.
Proof.
  destruct (proj1 (listing_page true sample_clock upstream_serving)
              [billed "a"; billed "b"; billed "c"] 2 1) as (R & T & P & _).
  - lia.
  - lia.
  - split; [exact R | reflexivity].
Defined.

Lemma malformed_key_witness :
  fst (get_concert_details true sample_clock upstream_serving "only-one-part"
         world_after_listing)
  = Fail 400 "Invalid concert key format"
  /\ fetch_log (snd (get_concert_details true sample_clock upstream_serving
                       "only-one-part" world_after_listing))
     = fetch_log world_after_listing.
Proof.
  apply malformed_key_rejected_without_fetch.
  - vm_compute. discriminate.
  - vm_compute. reflexivity.
Defined.



Lemma upstream_failure_witness :
  fst (browse_concerts true sample_clock upstream_rejecting sample_request
         empty_world)
  = Fail 502 "Browse service unavailable"
  /\ fst (browse_concerts true sample_clock upstream_timing_out sample_request
            empty_world)
     = Fail 500 "Failed to aggregate concerts"
  /\ fst (get_concert_details true sample_clock upstream_timing_out
            "Phish|1995-08-16" empty_world)
     = Fail 500 "Failed to get concert details".
Proof.
  split; [|split].
  - apply (proj1 (upstream_failure_replies true sample_clock upstream_rejecting)
             sample_request empty_world eq_refl) with (s := 503).
    reflexivity.
  - apply (proj1 (upstream_failure_replies true sample_clock upstream_timing_out)
             sample_request empty_world eq_refl).
    reflexivity.
  - apply (proj2 (upstream_failure_replies true sample_clock upstream_timing_out)
             "Phish|1995-08-16" "Phish" "1995-08-16" empty_world);
      reflexivity.
Defined.

(** The claim of C3 fails for timeouts: a listing request whose upstream
    call times out gets the 500 internal error, the very reply given when
    the upstream body does not parse; a detail request whose upstream call
    times out, or is answered 503, gets its 500 as well. *)
Lemma timeout_is_internal_error :
  fetch_log (snd (browse_concerts true sample_clock upstream_timing_out
                    sample_request empty_world))
  = [build_params sample_request]
  /\ upstream_timing_out 0 (build_params sample_request) = FetchTimeout
  /\ fst (browse_concerts true sample_clock upstream_timing_out sample_request
            empty_world)
     = Fail 500 "Failed to aggregate concerts"
  /\ fst (browse_concerts true sample_clock upstream_garbled sample_request
            empty_world)
     = fst (browse_concerts true sample_clock upstream_timing_out sample_request
              empty_world)
  /\ fst (get_concert_details true sample_clock upstream_timing_out
            "Phish|1995-08-16" empty_world)
     = Fail 500 "Failed to get concert details"
  /\ fst (get_concert_details true sample_clock upstream_rejecting
            "Phish|1995-08-16" empty_world)
     = Fail 500 "Failed to get concert details".
Proof.
  repeat split; reflexivity.
Qed.

Lemma stored_entry_witness :
  fst (cache_lookup sample_clock "F"
         (mk_world [("F", mk_entry [billed "a"]
                            (PyDate.timestamp (sample_clock 0)) [])] 2 []))
  = Return (Some (mk_entry [billed "a"] (PyDate.timestamp (sample_clock 0)) [])).
Proof.
  apply (proj1 (stored_entry_lifetime sample_clock "F" [billed "a"] []
                  empty_world
                  (mk_world [("F", mk_entry [billed "a"]
                                     (PyDate.timestamp (sample_clock 0)) [])]
                     2 [])
                  (NoDup_nil _) eq_refl)).
  - vm_compute. discriminate.
  - vm_compute. reflexivity.
Defined.

Lemma flag_shares_cache_entry_witness :
  browse_concerts true sample_clock upstream_serving
    (with_filter_flag true sample_request) world_after_listing
  = (Ok sample_listing,
     mk_world (browse_cache world_after_listing)
       (S (ticks world_after_listing)) (fetch_log world_after_listing)).
Proof.
  apply (proj2 (proj2 (flag_shares_cache_entry true sample_clock
                         upstream_serving sample_request true))
           empty_world sample_listing world_after_listing sample_entry).
  - vm_compute. reflexivity.
  - vm_compute. reflexivity.
  - vm_compute. reflexivity.
Defined.

(** C2 at work on a cache hit.  A request without the flag fills the cache
    with the 1995 concert; the same request with the flag set, one clock
    reading later, is served that entry without a new upstream call, and
    its page holds the 1995 concert although the 30-day window of that
    moment starts on 2025-12-02.  Asked of an empty cache, the flagged
    request returns no concert. *)
Theorem concert_date_filter_skipped_on_cache_hit :
  let flagged := with_filter_flag true sample_request in
  let second :=
    browse_concerts true sample_clock upstream_serving flagged
      world_after_listing in
  fetch_log (snd second) = fetch_log world_after_listing
  /\ reply_keys (fst second) = Some ["Phish|1995-08-16"]
  /\ PyDate.sub_days (sample_clock (ticks world_after_listing)) 30
     = Some (mk_datetime 2025 12 2 0 0 5 0)
  /\ PyDate.leb (mk_datetime 2025 12 2 0 0 5 0) (mk_datetime 1995 8 16 0 0 0 0)
     = false
  /\ reply_keys (fst (browse_concerts true sample_clock upstream_serving
                        flagged empty_world))
     = Some [].
Proof.
  vm_compute. repeat split.
Qed.

(* ------------------------------------------------------------------ *)
(** * Further properties *)

(** ** Groups: keys, totals, conservation *)

Lemma split_acc_join (sep : ascii) (s cur : string) :
  PyStr.join (String sep EmptyString) (PyStr.split_acc sep cur s) = cur ++ s.
Proof.
  revert cur; induction s as [|c s IH]; intros cur.
  - simpl. clear. induction cur; simpl; congruence.
  - cbn [PyStr.split_acc]. destruct (Ascii.eqb_spec c sep) as [->|N].
    + generalize (split_acc_nonempty sep s EmptyString) (IH EmptyString).
      destruct (PyStr.split_acc sep EmptyString s) as [|p rest];
        [contradiction|].
      intros _ E.
      change (PyStr.join (String sep EmptyString) (cur :: p :: rest))
        with (cur ++ String sep EmptyString
              ++ PyStr.join (String sep EmptyString) (p :: rest)).
      rewrite E. reflexivity.
    + rewrite IH. clear. induction cur; simpl; congruence.
Qed.

Lemma py_sum_shift {A : Type} (f : A -> Z) (l : list A) (acc : Z) :
  fold_left (fun a r => a + f r) l acc = acc + py_sum f l.
Proof.
  unfold py_sum. revert acc; induction l as [|x l IH]; intros acc; simpl; [lia|].
  rewrite IH, (IH (f x)). lia.
Qed.

Lemma py_sum_cons {A : Type} (f : A -> Z) (x : A) (l : list A) :
  py_sum f (x :: l) = f x + py_sum f l.
Proof. unfold py_sum at 1. simpl. now rewrite py_sum_shift. Qed.

Section GroupTotals.
Variable year_padded : bool.
Variable clock : nat -> datetime.

Lemma py_sum_views (f : ArchiveItem -> Z) (g : ConcertRecording -> Z)
    (t : nat) (rs : list ArchiveItem) :
  (forall t r, g (recording_view clock t r) = f r) ->
  py_sum g (recording_views clock t rs) = py_sum f rs.
Proof.
  intros H. revert t; induction rs as [|r rs IH]; intros t; [reflexivity|].
  cbn [recording_views]. now rewrite !py_sum_cons, H, IH.
Qed.

Lemma recording_views_length (t : nat) (rs : list ArchiveItem) :
  List.length (recording_views clock t rs) = List.length rs.
Proof. revert t; induction rs; intros t; simpl; auto. Qed.

Lemma make_concerts_forall (P : Concert -> Prop)
    (groups : list (string * list ArchiveItem)) (t : nat) :
  (forall t k rs c, make_concert clock t k rs = Some c -> P c) ->
  Forall P (fst (make_concerts clock t groups)).
Proof.
  intros H. revert t; induction groups as [|[k rs] groups IH]; intros t; simpl.
  - constructor.
  - destruct (make_concert clock t k rs) as [c|] eqn:E; [|apply IH].
    specialize (IH (t + 2 + List.length rs)%nat).
    destruct (make_concerts clock _ groups) as [cs t']. simpl in *.
    constructor; eauto.
Qed.

Lemma make_concert_fields (t : nat) (k : string) (rs : list ArchiveItem)
    (c : Concert) :
  make_concert clock t k rs = Some c ->
  rs <> [] /\ c_id c = k /\ c_concert_key c = k
  /\ (exists date_str,
         PyStr.split "|" k = [c_artist c; date_str]
         /\ PyDate.strptime_ymd date_str = Some (c_date c))
  /\ c_recordings c = recording_views clock (S (S t)) rs
  /\ c_total_recordings c = Z.of_nat (List.length rs)
  /\ c_total_tracks c = py_sum total_tracks rs
  /\ c_total_size c = py_sum total_size rs
  /\ c_total_downloads c = py_sum downloads rs.
Proof.
  unfold make_concert. destruct rs as [|r rs]; [discriminate|].
  destruct (PyStr.split "|" k) as [|a [|dstr [|? ?]]] eqn:Hs; try discriminate.
  destruct (PyDate.strptime_ymd dstr) as [d|] eqn:P; [|discriminate].
  intros H. inversion H; subst c; clear H.
  split; [discriminate|]. repeat split. exists dstr. split; [reflexivity|assumption].
Qed.

Lemma group_counts (t : nat) (items : list ArchiveItem) :
  Forall (fun c =>
            c_recordings c <> []
            /\ c_total_recordings c = Z.of_nat (List.length (c_recordings c)))
    (fst (group_recordings_by_concert year_padded clock t items)).
Proof.
  apply make_concerts_forall. clear. intros t k rs c H.
  destruct (make_concert_fields t k rs c H)
    as (NE & _ & _ & _ & Hr & Hn & _).
  rewrite Hr, recording_views_length. split; [|assumption].
  destruct rs; [contradiction | discriminate].
Qed.

(** X1 (group_recordings_by_concert). Every concert of the grouping has
    its key as id, the key is the artist, a bar and a date text that
    parses to the concert's date, it holds at least one recording, and its
    four totals are the number of its recordings and the sums of their
    tracks, sizes and downloads. *)
Theorem group_totals_and_key (t : nat) (items : list ArchiveItem) :
  Forall (fun c =>
            c_id c = c_concert_key c
            /\ (exists date_str,
                   c_concert_key c = c_artist c ++ "|" ++ date_str
                   /\ PyDate.strptime_ymd date_str = Some (c_date c))
            /\ c_recordings c <> []
            /\ c_total_recordings c = Z.of_nat (List.length (c_recordings c))
            /\ c_total_tracks c = py_sum r_total_tracks (c_recordings c)
            /\ c_total_size c = py_sum r_total_size (c_recordings c)
            /\ c_total_downloads c = py_sum r_downloads (c_recordings c))
    (fst (group_recordings_by_concert year_padded clock t items)).
Proof.
  apply make_concerts_forall. clear. intros t k rs c H.
  destruct (make_concert_fields t k rs c H)
    as (NE & Hid & Hk & (ds & Hs & Hp) & Hr & Hn & Ht & Hz & Hd).
  split; [congruence|]. split.
  - exists ds. split; [|assumption].
    assert (J := split_acc_join "|" k EmptyString). fold (PyStr.split "|" k) in J.
    rewrite Hs in J. simpl in J. now rewrite Hk, <- J.
  - rewrite Hr, recording_views_length.
    rewrite (py_sum_views total_tracks r_total_tracks),
      (py_sum_views total_size r_total_size),
      (py_sum_views downloads r_downloads); auto.
    repeat split; auto. destruct rs; [contradiction | discriminate].
Qed.
End GroupTotals.

Section GroupConservation.
Variable year_padded : bool.
Variable clock : nat -> datetime.

Local Notation "'key_of'" := (extract_concert_key year_padded).

(** The groups line up with the emitting keys in first-appearance order,
    each with the recordings of its key. *)
Lemma groups_by_key (t : nat) (items : list ArchiveItem) :
  Forall2 (fun c k =>
             c_concert_key c = k
             /\ Forall2 same_recording
                  (filter (fun r => String.eqb (key_of r) k) items)
                  (c_recordings c))
    (fst (group_recordings_by_concert year_padded clock t items))
    (filter key_emits (first_occurrences (map key_of items))).
Proof.
  unfold group_recordings_by_concert. rewrite concert_groups_buckets.
  set (ks := first_occurrences (map key_of items)).
  assert (NE : forall kv,
             In kv (map (fun k => (k, filter (fun r => String.eqb (key_of r) k)
                                        items)) ks) ->
             snd kv <> []).
  { intros kv Hkv. apply in_map_iff in Hkv as (k & <- & Hk). simpl.
    apply first_occurrences_in, in_map_iff in Hk as (r & Hr & Hin).
    intros Hnil.
    assert (X : In r (filter (fun r => String.eqb (key_of r) k) items)).
    { apply filter_In. split; [assumption|]. now apply String.eqb_eq. }
    rewrite Hnil in X. contradiction. }
  generalize (make_concerts_emitted clock _ NE t).
  generalize (fst (make_concerts clock t
                     (map (fun k => (k, filter (fun r => String.eqb (key_of r) k)
                                          items)) ks))).
  clearbody ks. clear. intros cs. revert cs.
  induction ks as [|k ks IH]; intros cs; simpl.
  { intros H. inversion H. constructor. }
  destruct (key_emits k); simpl; auto.
  intros H. inversion H; subst. constructor; auto.
Qed.

(** X2 (group_recordings_by_concert). The recording counts of all concerts
    add up to the number of input recordings whose key is not skipped: no
    recording is counted twice or invented, there are at most as many
    concerts as inputs, and no input gives no concert. *)
Theorem recordings_conserved (t : nat) (items : list ArchiveItem) :
  let groups := fst (group_recordings_by_concert year_padded clock t items) in
  py_sum c_total_recordings groups
  = Z.of_nat (List.length (filter (fun r => key_emits (key_of r)) items))
  /\ py_sum c_total_recordings groups <= Z.of_nat (List.length items)
  /\ (List.length groups <= List.length items)%nat
  /\ (items = [] -> groups = []).
Proof.
  intros groups.
  assert (G := groups_by_key t items). fold groups in G.
  assert (T := group_counts year_padded clock t items). fold groups in T.
  set (ks := filter key_emits (first_occurrences (map key_of items))) in *.
  assert (ND : NoDup ks) by (apply NoDup_filter, first_occurrences_nodup).
  assert (E : py_sum c_total_recordings groups
              = Z.of_nat (List.length
                            (List.concat
                               (map (fun k => filter (fun r => String.eqb (key_of r) k)
                                                items) ks)))).
  { clear ND. induction G as [|c k cs l [_ H] G IH]; [reflexivity|].
    inversion T as [|? ? [_ Hn] T']; subst.
    rewrite py_sum_cons, (IH T'). simpl. rewrite length_app, Hn.
    rewrite <- (Forall2_length H). lia. }
  assert (P : List.length
                (List.concat
                   (map (fun k => filter (fun r => String.eqb (key_of r) k) items)
                      ks))
              = List.length (filter (fun r => key_emits (key_of r)) items)).
  { rewrite (Permutation_length (concat_filter_perm year_padded items ks ND)).
    f_equal. apply filter_ext_in. intros r Hr.
    destruct (key_emits (key_of r)) eqn:Em.
    - apply eqb_in, filter_In. split; [|assumption].
      apply first_occurrences_in, in_map. assumption.
    - destruct (existsb _ _) eqn:X; [|reflexivity].
      apply eqb_in, filter_In in X as [_ X]. congruence. }
  assert (Lf : (List.length (filter (fun r => key_emits (key_of r)) items)
                <= List.length items)%nat) by apply filter_length_le.
  split; [now rewrite E, P|]. split; [rewrite E, P; lia|]. split.
  - assert (Lg : (List.length groups <= Z.to_nat (py_sum c_total_recordings groups))%nat).
    { clear -T. induction T as [|c cs [NE Hn] T IH]; simpl; [lia|].
      rewrite py_sum_cons, Hn.
      destruct (c_recordings c); [contradiction|]. simpl List.length.
      assert (0 <= py_sum c_total_recordings cs).
      { clear -T. induction T as [|c cs [_ Hn] T IH];
          [unfold py_sum; simpl; lia|]. rewrite py_sum_cons, Hn. lia. }
      lia. }
    rewrite E, P in Lg. lia.
  - intros ->. reflexivity.
Qed.
End GroupConservation.

(** ** Sorting keeps ties in place *)

Section Stability.
Context {A : Type}.
Variable lt : A -> A -> bool.

(** [p] picks a class of elements none of which is strictly below another. *)
Variable p : A -> bool.
Hypothesis p_unordered :
  forall x y, p x = true -> p y = true -> lt y x = false.

Lemma insert_sorted_class (x : A) (l : list A) :
  filter p (insert_sorted lt x l) = filter p (x :: l).
Proof.
  induction l as [|y l IH]; [reflexivity|].
  cbn [insert_sorted]. destruct (lt y x) eqn:E; [|reflexivity].
  cbn [filter] in *. rewrite IH.
  destruct (p x) eqn:Px, (p y) eqn:Py; try reflexivity.
  rewrite (p_unordered x y Px Py) in E. discriminate.
Qed.

Lemma py_sorted_class (l : list A) : filter p (py_sorted lt l) = filter p l.
Proof.
  induction l as [|x l IH]; [reflexivity|].
  cbn [py_sorted fold_right]. fold (py_sorted lt l).
  rewrite insert_sorted_class. cbn [filter]. now rewrite IH.
Qed.

Lemma filter_rev_comm (l : list A) : filter p (rev l) = rev (filter p l).
Proof.
  induction l as [|x l IH]; [reflexivity|].
  simpl. rewrite filter_app, IH. simpl. destruct (p x); simpl;
    [reflexivity | now rewrite app_nil_r].
Qed.

Lemma py_sort_class (reverse : bool) (l : list A) :
  filter p (py_sort lt reverse l) = filter p l.
Proof.
  unfold py_sort. destruct reverse; [|apply py_sorted_class].
  now rewrite filter_rev_comm, py_sorted_class, filter_rev_comm, rev_involutive.
Qed.
End Stability.

Lemma string_ltb_irrefl (s : string) : PyStr.ltb s s = false.
Proof.
  destruct (PyStr.ltb s s) eqn:E; [|reflexivity].
  now rewrite (string_ltb_asym s s E) in E.
Qed.

(** X3 (browse_concerts, sorting). Sorting the listing keeps concerts that
    tie on the sort key (lower-cased artist, venue key, or date) in the
    order they had, for ascending and for descending order alike. *)
Theorem listing_sort_keeps_ties (sort_by sort_order : option string)
    (concerts : list Concert) :
  let out := sort_concerts sort_by sort_order concerts in
  (sort_by = Some "artist" ->
   forall k, filter (fun c => String.eqb (PyStr.lower (c_artist c)) k) out
             = filter (fun c => String.eqb (PyStr.lower (c_artist c)) k) concerts)
  /\ (sort_by = Some "venue" ->
      forall k, filter (fun c => String.eqb (venue_key c) k) out
                = filter (fun c => String.eqb (venue_key c) k) concerts)
  /\ (sort_by <> Some "artist" -> sort_by <> Some "venue" ->
      forall d,
        filter (fun c => negb (PyDate.ltb (c_date c) d)
                         && negb (PyDate.ltb d (c_date c))) out
        = filter (fun c => negb (PyDate.ltb (c_date c) d)
                           && negb (PyDate.ltb d (c_date c))) concerts).
Proof.
  intros out. unfold out. rewrite sort_concerts_cases. split; [|split].
  - intros -> k. simpl. apply py_sort_class.
    intros x y Hx Hy. apply String.eqb_eq in Hx, Hy. unfold artist_lt.
    rewrite Hx, Hy. apply string_ltb_irrefl.
  - intros -> k. simpl. apply py_sort_class.
    intros x y Hx Hy. apply String.eqb_eq in Hx, Hy. unfold venue_lt.
    rewrite Hx, Hy. apply string_ltb_irrefl.
  - intros NA NV d.
    assert (EA : opt_is sort_by "artist" = false).
    { destruct sort_by as [s|]; [|reflexivity]. simpl.
      apply String.eqb_neq. congruence. }
    assert (EV : opt_is sort_by "venue" = false).
    { destruct sort_by as [s|]; [|reflexivity]. simpl.
      apply String.eqb_neq. congruence. }
    rewrite EA, EV. apply py_sort_class.
    intros x y Hx Hy. apply andb_true_iff in Hx as [_ Hx], Hy as [Hy _].
    apply negb_true_iff in Hx, Hy. unfold date_lt, PyDate.ltb in *.
    apply (lex_le_trans _ (PyDate.fields d)); assumption.
Qed.

(** ** Pages *)

Lemma firstn_plus {A : Type} (a b : nat) (l : list A) :
  firstn (a + b) l = (firstn a l ++ firstn b (skipn a l))%list.
Proof.
  revert l; induction a as [|a IH]; intros l; [reflexivity|].
  destruct l as [|x l]; simpl; [now rewrite firstn_nil | now rewrite IH].
Qed.

Lemma pages_concat {A : Type} (n k : nat) (l : list A) :
  List.concat (map (fun i => firstn n (skipn (i * n) l)) (seq 0 k))
  = firstn (k * n) l.
Proof.
  induction k as [|k IH]; [reflexivity|].
  rewrite seq_S, map_app, concat_app, IH. simpl.
  rewrite app_nil_r, <- firstn_plus. f_equal. lia.
Qed.

(** X4 (browse_concerts, pagination). With per_page at least 1 the pages 1
    .. total_pages, one after the other, are the whole concert list; no
    page is longer than per_page, total_pages does not depend on the page
    asked, a page beyond total_pages is empty, and an empty list has 0
    pages. *)
Theorem pages_partition_the_list (concerts : list Concert) (per_page : Z) :
  1 <= per_page ->
  let pages := l_total_pages (paginate 1 per_page concerts) in
  List.concat
    (map (fun i => l_results (paginate (Z.of_nat i + 1) per_page concerts))
       (seq 0 (Z.to_nat pages)))
  = concerts
  /\ (forall page, 1 <= page ->
        (List.length (l_results (paginate page per_page concerts))
         <= Z.to_nat per_page)%nat
        /\ l_total_pages (paginate page per_page concerts) = pages
        /\ (pages < page -> l_results (paginate page per_page concerts) = []))
  /\ (concerts = [] -> pages = 0).
Proof.
  intros Hpp pages.
  set (n := Z.of_nat (List.length concerts)).
  assert (Hpages : pages = (n + per_page - 1) / per_page) by reflexivity.
  assert (D := Z.div_mod (n + per_page - 1) per_page ltac:(lia)).
  assert (M := Z.mod_pos_bound (n + per_page - 1) per_page ltac:(lia)).
  assert (Hlo : n <= pages * per_page) by nia.
  assert (Hnn : 0 <= pages) by (rewrite Hpages; apply Z.div_pos; lia).
  assert (R : forall page, 1 <= page ->
                l_results (paginate page per_page concerts)
                = firstn (Z.to_nat per_page)
                    (skipn (Z.to_nat (page - 1) * Z.to_nat per_page) concerts)).
  { intros page Hp. unfold paginate. cbn [l_results].
    rewrite py_slice_window by nia. do 2 f_equal. nia. }
  split; [|split].
  - erewrite map_ext_in.
    + rewrite (pages_concat (Z.to_nat per_page) (Z.to_nat pages) concerts).
      apply firstn_all2. nia.
    + intros i _. cbv beta. rewrite R by lia. do 3 f_equal. lia.
  - intros page Hp. rewrite (R page Hp). split; [|split].
    + rewrite length_firstn. lia.
    + reflexivity.
    + intros Hbig. rewrite skipn_all2; [apply firstn_nil|]. nia.
  - intros E. rewrite Hpages. unfold n. rewrite E. simpl List.length.
    apply Z.div_small. lia.
Qed.

(** ** What the endpoints do to the world *)

Section EngineEffects.
Variable year_padded : bool.
Variable clock : nat -> datetime.
Variable upstream : nat -> Params -> FetchOutcome.

Lemma fetch_fresh_effects (rq : ListingRequest) (key : string) (w : World) :
  fetch_log (snd (fetch_fresh year_padded clock upstream rq (build_params rq)
                    key w))
  = (fetch_log w ++ [build_params rq])%list
  /\ forall e,
       fst (fetch_fresh year_padded clock upstream rq (build_params rq) key w)
       = Raise e ->
       browse_cache
         (snd (fetch_fresh year_padded clock upstream rq (build_params rq) key w))
       = browse_cache w.
Proof.
  unfold fetch_fresh, bind, fetch_recordings, run_grouper.
  destruct (upstream _ _) as [items| | | |]; simpl; try (split; [reflexivity|auto]).
  destruct (group_recordings_by_concert _ _ _ items) as [grouped t'].
  destruct (q_date_range rq) as [dr|]; simpl.
  - destruct (negb (String.eqb dr EmptyString) && q_filter_by_concert_date rq);
      simpl.
    + unfold filter_by_date, bind, utcnow. simpl.
      destruct (PyDate.sub_days (clock t') (range_days dr)); simpl;
        (split; [reflexivity|]); [discriminate | auto].
    + split; [reflexivity | discriminate].
  - split; [reflexivity | discriminate].
Qed.

Lemma sort_in_place_effects (key : string) (sorted : list Concert) (w : World) :
  fst (sort_in_place key sorted w) = Return tt
  /\ fetch_log (snd (sort_in_place key sorted w)) = fetch_log w
  /\ ticks (snd (sort_in_place key sorted w)) = ticks w.
Proof.
  unfold sort_in_place, bind, get_browse_cache, put_browse_cache, ret. simpl.
  destruct (PyDict.get key (browse_cache w)); simpl; auto.
Qed.

Lemma listing_miss_log (rq : ListingRequest) (w : World) :
  fst (cache_lookup clock (get_cache_key (build_params rq)) w) = Return None ->
  fetch_log (snd (browse_concerts year_padded clock upstream rq w))
  = (fetch_log w ++ [build_params rq])%list.
Proof.
  intros Hmiss. set (key := get_cache_key (build_params rq)) in *.
  destruct (listing_miss year_padded clock upstream rq w Hmiss)
    as (w1 & L & _ & E).
  unfold browse_concerts, browse_concerts_body, bind. rewrite E.
  fold key.
  destruct (fetch_fresh_effects rq key w1) as [Hlog _]. rewrite L in Hlog.
  destruct (fetch_fresh _ _ _ rq (build_params rq) key w1) as [[cs|e] w2];
    simpl in *.
  - set (sorted := sort_concerts _ _ cs).
    destruct (sort_in_place_effects key sorted w2) as (R & Ls & _).
    destruct (sort_in_place key sorted w2) as [[[]|e] w3]; simpl in *;
      [congruence | discriminate].
  - destruct e; assumption.
Qed.

(** X5 (browse_concerts). A listing that misses the cache calls the browse
    service exactly once, with the parameters built from the request; a
    listing that hits the cache (per_page at least 1, as the endpoint
    requires) calls nothing and replies with the page of the sorted cached
    concerts. The parameters carry the page unchanged and three times
    per_page. *)
Theorem listing_calls_upstream_once (rq : ListingRequest) (w : World) :
  let key := get_cache_key (build_params rq) in
  let after := snd (browse_concerts year_padded clock upstream rq w) in
  (fst (cache_lookup clock key w) = Return None ->
   fetch_log after = (fetch_log w ++ [build_params rq])%list)
  /\ (forall e,
         1 <= q_per_page rq ->
         fst (cache_lookup clock key w) = Return (Some e) ->
         fetch_log after = fetch_log w
         /\ fst (browse_concerts year_padded clock upstream rq w)
            = Ok (paginate (q_page rq) (q_per_page rq)
                    (sort_concerts (q_sort_by rq) (q_sort_order rq) (data e))))
  /\ PyDict.get "page" (build_params rq) = Some (PInt (q_page rq))
  /\ PyDict.get "per_page" (build_params rq) = Some (PInt (q_per_page rq * 3)).
Proof.
  intros key after. split; [|split; [|split]].
  - apply listing_miss_log.
  - intros e _ Hhit.
    unfold after, browse_concerts, browse_concerts_body, load_concerts, bind.
    fold key. rewrite cache_lookup_run in *.
    destruct (PyDict.get key (browse_cache w)) as [e0|]; simpl in Hhit;
      [|discriminate].
    destruct (_ <? _); inversion Hhit; subst e0. unfold ret.
    set (sorted := sort_concerts _ _ (data e)).
    destruct (sort_in_place_effects key sorted
                (mk_world (browse_cache w) (S (ticks w)) (fetch_log w)))
      as (R & Ls & _).
    destruct (sort_in_place key sorted _) as [[[]|x] w3]; simpl in *;
      [auto | discriminate].
  - unfold build_params.
    destruct (q_query rq), (q_date_range rq), (q_artist rq), (q_venue rq);
      reflexivity.
  - unfold build_params.
    destruct (q_query rq), (q_date_range rq), (q_artist rq), (q_venue rq);
      reflexivity.
Qed.

(** X6 (browse_concerts). A listing with per_page at least 1 (as the
    endpoint requires) that fails leaves the cache as it was, and the
    failure is 502 'Browse service unavailable' or 500 'Failed to
    aggregate concerts', nothing else. *)
Theorem failed_listing_leaves_cache (rq : ListingRequest) (w w' : World)
    (status : Z) (detail : string) :
  1 <= q_per_page rq ->
  browse_concerts year_padded clock upstream rq w = (Fail status detail, w') ->
  browse_cache w' = browse_cache w
  /\ ((status = 502 /\ detail = "Browse service unavailable")
      \/ (status = 500 /\ detail = "Failed to aggregate concerts")).
Proof.
  intros _. unfold browse_concerts, browse_concerts_body, load_concerts, bind.
  set (key := get_cache_key (build_params rq)).
  rewrite cache_lookup_run.
  assert (F : forall w1, browse_cache w1 = browse_cache w ->
     match
       (let (r, w'0) := fetch_fresh year_padded clock upstream rq
                          (build_params rq) key w1 in
        match r with
        | Return a =>
            let (r0, w'1) :=
              sort_in_place key
                (sort_concerts (q_sort_by rq) (q_sort_order rq) a) w'0 in
            match r0 with
            | Return _ =>
                ret (paginate (q_page rq) (q_per_page rq)
                       (sort_concerts (q_sort_by rq) (q_sort_order rq) a)) w'1
            | Raise e => (Raise e, w'1)
            end
        | Raise e => (Raise e, w'0)
        end)
     with
     | (Return r, w'0) => (Ok r, w'0)
     | (Raise (HTTPStatusError _), w'0) =>
         (Fail 502 "Browse service unavailable", w'0)
     | (Raise _, w'0) => (Fail 500 "Failed to aggregate concerts", w'0)
     end = (Fail status detail, w') ->
     browse_cache w' = browse_cache w
     /\ ((status = 502 /\ detail = "Browse service unavailable")
         \/ (status = 500 /\ detail = "Failed to aggregate concerts"))).
  { intros w1 Hc.
    destruct (fetch_fresh_effects rq key w1) as [_ Hraise].
    destruct (fetch_fresh _ _ _ rq (build_params rq) key w1) as [[cs|e] w2];
      simpl in *.
    - set (sorted := sort_concerts _ _ cs).
      destruct (sort_in_place_effects key sorted w2) as (R & _).
      destruct (sort_in_place key sorted w2) as [[[]|e] w3]; simpl in *;
        discriminate.
    - specialize (Hraise e eq_refl).
      destruct e; intros H; inversion H; subst; (split; [congruence|]); auto. }
  destruct (PyDict.get key (browse_cache w)) as [e0|].
  - destruct (_ <? _).
    + unfold ret.
      set (sorted := sort_concerts _ _ (data e0)).
      destruct (sort_in_place_effects key sorted
                  (mk_world (browse_cache w) (S (ticks w)) (fetch_log w)))
        as (R & _).
      destruct (sort_in_place key sorted _) as [[[]|x] w3]; simpl in *;
        discriminate.
    + apply F. reflexivity.
  - apply F. reflexivity.
Qed.
End EngineEffects.

Section DetailEffects.
Variable year_padded : bool.
Variable clock : nat -> datetime.
Variable upstream : nat -> Params -> FetchOutcome.

Lemma scan_cache_key (key : string) (entries : list CacheEntry) (w w' : World)
    (c : Concert) :
  scan_cache clock key entries w = (Return (Some c), w') ->
  c_concert_key c = key.
Proof.
  revert w; induction entries as [|e entries IH]; intros w; simpl.
  - discriminate.
  - unfold bind, is_cache_valid, bind, utcnow, ret. simpl.
    destruct (_ <? _); [|apply IH].
    destruct (find _ (data e)) as [c0|] eqn:F; [|apply IH].
    intros H. inversion H; subst. apply find_some in F as [_ F].
    now apply String.eqb_eq.
Qed.

Lemma search_concert_effects (key : string) (w : World) :
  let out := search_concert year_padded clock upstream key w in
  browse_cache (snd out) = browse_cache w
  /\ (forall c, fst out = Return c -> c_concert_key c = key)
  /\ match PyStr.split "|" key with
     | [artist; _] =>
         fetch_log (snd out)
         = (fetch_log w ++ [[("artist", PStr artist); ("per_page", PInt 100)]])%list
     | _ => fetch_log (snd out) = fetch_log w
            /\ fst out = Raise (HTTPException 400 "Invalid concert key format")
     end.
Proof.
  unfold search_concert.
  destruct (PyStr.split "|" key) as [|a [|d [|x l]]]; simpl;
    try (repeat split; [discriminate]).
  unfold bind, fetch_recordings.
  destruct (upstream _ _) as [items| | | |]; simpl;
    try (repeat split; discriminate).
  unfold except_ValueError, match_fetched.
  destruct (PyDate.strptime_ymd d) as [target|]; simpl;
    [|repeat split; discriminate].
  destruct (filter _ items) as [|m ms]; simpl; [repeat split; discriminate|].
  unfold bind, run_grouper.
  destruct (group_recordings_by_concert _ _ _ (m :: ms)) as [cs t'].
  destruct (find _ cs) as [c|] eqn:F; simpl; [|repeat split; discriminate].
  repeat split. intros c0 H. inversion H; subst.
  apply find_some in F as [_ F]. now apply String.eqb_eq.
Qed.

(** X7 (get_concert_details). A detail lookup never changes the cache, and
    it calls the browse service at most once, then with the artist of the
    key and per_page 100. *)
Theorem detail_never_writes_cache (key : string) (w : World) :
  let after := snd (get_concert_details year_padded clock upstream key w) in
  browse_cache after = browse_cache w
  /\ (fetch_log after = fetch_log w
      \/ exists artist date_str,
           PyStr.split "|" key = [artist; date_str]
           /\ fetch_log after
              = (fetch_log w
                 ++ [[("artist", PStr artist); ("per_page", PInt 100)]])%list).
Proof.
  intros after. unfold after, get_concert_details.
  destruct (scan_cache_run clock key (PyDict.values (browse_cache w)) w)
    as (found & w1 & E & L & C).
  unfold get_concert_details_body, bind, get_browse_cache. simpl. rewrite E.
  destruct found as [c|]; simpl; [auto|].
  destruct (search_concert_effects key w1) as (Hc & _ & Hl). cbv zeta in *.
  destruct (search_concert _ _ _ key w1) as [[c|e] w2]; simpl in *.
  - split; [congruence|].
    destruct (PyStr.split "|" key) as [|a [|d [|x l]]];
      [destruct Hl as [_ Hl]; discriminate
      |destruct Hl as [_ Hl]; discriminate
      | |destruct Hl as [_ Hl]; discriminate].
    right. exists a, d. split; [reflexivity | congruence].
  - assert (X : browse_cache w2 = browse_cache w
                /\ (fetch_log w2 = fetch_log w
                    \/ exists artist date_str,
                         PyStr.split "|" key = [artist; date_str]
                         /\ fetch_log w2
                            = (fetch_log w
                               ++ [[("artist", PStr artist);
                                    ("per_page", PInt 100)]])%list)).
    { split; [congruence|].
      destruct (PyStr.split "|" key) as [|a [|d [|x l]]];
        [destruct Hl as [Hl _]; left; congruence
        |destruct Hl as [Hl _]; left; congruence
        | |destruct Hl as [Hl _]; left; congruence].
      right. exists a, d. split; [reflexivity | congruence]. }
    destruct e; exact X.
Qed.

(** X8 (get_concert_details). A concert returned by a detail lookup has
    the key that was asked for. *)
Theorem detail_reply_has_requested_key (key : string) (w w' : World)
    (c : Concert) :
  get_concert_details year_padded clock upstream key w = (Ok c, w') ->
  c_concert_key c = key.
Proof.
  unfold get_concert_details.
  destruct (scan_cache_run clock key (PyDict.values (browse_cache w)) w)
    as (found & w1 & E & L & C).
  unfold get_concert_details_body, bind, get_browse_cache. simpl. rewrite E.
  destruct found as [c0|]; simpl.
  - intros H. inversion H; subst. eapply scan_cache_key; eassumption.
  - destruct (search_concert_effects key w1) as (_ & Hk & _). cbv zeta in *.
    destruct (search_concert _ _ _ key w1) as [[c0|e] w2]; simpl in *.
    + intros H. inversion H; subst. now apply Hk.
    + destruct e; discriminate.
Qed.

Lemma scan_cache_finds (key : string) (pre post : list CacheEntry)
    (e : CacheEntry) (c : Concert) (w : World) :
  PyDate.timestamp (clock (ticks w + List.length pre)) - timestamp e
  < CACHE_DURATION ->
  In c (data e) -> c_concert_key c = key ->
  exists c' w',
    scan_cache clock key (pre ++ e :: post) w = (Return (Some c'), w').
Proof.
  intros Hfresh Hin Hk. revert w Hfresh.
  induction pre as [|e0 pre IH]; intros w Hfresh; simpl.
  - unfold bind, is_cache_valid, bind, utcnow, ret. simpl.
    rewrite Nat.add_0_r in Hfresh.
    destruct (Z.ltb_spec (PyDate.timestamp (clock (ticks w)) - timestamp e)
                CACHE_DURATION) as [_|X]; [|lia].
    destruct (find _ (data e)) as [c0|] eqn:F; [eauto|].
    exfalso. apply (find_none _ _ F) in Hin. apply String.eqb_neq in Hin.
    contradiction.
  - unfold bind at 1. unfold is_cache_valid, bind, utcnow, ret. simpl.
    assert (Hfresh' : PyDate.timestamp
                        (clock (ticks (mk_world (browse_cache w) (S (ticks w))
                                         (fetch_log w)) + List.length pre))
                      - timestamp e < CACHE_DURATION).
    { simpl. simpl in Hfresh. now rewrite Nat.add_succ_r in Hfresh. }
    destruct (_ <? _).
    + destruct (find _ (data e0)) as [c0|]; [eauto|]. apply IH, Hfresh'.
    + apply IH, Hfresh'.
Qed.

(** X9 (get_concert_details, cache scan). If a cache entry that is still
    valid when the scan reaches it holds a concert with the requested key,
    the lookup returns a concert with that key and calls nothing. *)
Theorem cached_concert_served_without_fetch (key : string)
    (pre post : list (string * CacheEntry)) (k : string) (e : CacheEntry)
    (c : Concert) (w : World) :
  browse_cache w = (pre ++ (k, e) :: post)%list ->
  PyDate.timestamp (clock (ticks w + List.length pre)) - timestamp e
  < 300 * 1000000 ->
  In c (data e) -> c_concert_key c = key ->
  exists c',
    fst (get_concert_details year_padded clock upstream key w) = Ok c'
    /\ c_concert_key c' = key
    /\ fetch_log (snd (get_concert_details year_padded clock upstream key w))
       = fetch_log w.
Proof.
  intros Hc Hfresh Hin Hk.
  destruct (scan_cache_finds key (PyDict.values pre) (PyDict.values post) e c w)
    as (c' & w' & E); auto.
  { unfold PyDict.values. rewrite length_map. exact Hfresh. }
  assert (V : PyDict.values (browse_cache w)
              = (PyDict.values pre ++ e :: PyDict.values post)%list).
  { rewrite Hc. unfold PyDict.values. now rewrite map_app. }
  destruct (scan_cache_run clock key (PyDict.values (browse_cache w)) w)
    as (found & w1 & E1 & L & _).
  rewrite V in E1. rewrite E in E1. inversion E1; subst found w1.
  exists c'. unfold get_concert_details, get_concert_details_body, bind,
    get_browse_cache. simpl. rewrite V, E. simpl.
  repeat split; [|assumption]. eapply scan_cache_key; eassumption.
Qed.
End DetailEffects.

(** ** The sweep and the cache administration *)

Section AdminFacts.
Variable year_padded : bool.
Variable clock : nat -> datetime.
Variable upstream : nat -> Params -> FetchOutcome.

(** X10 (cleanup_cache). With distinct cache keys, after the sweep a key
    is present exactly if it was present with an age below CACHE_DURATION
    at the sweep's clock reading, its entry is unchanged, and nothing is
    fetched. *)
Theorem sweep_removes_exactly_expired (w : World) :
  NoDup (PyDict.keys (browse_cache w)) ->
  let now := PyDate.timestamp (clock (ticks w)) in
  let after := snd (cleanup_cache clock w) in
  (forall k,
      PyDict.get k (browse_cache after)
      = match PyDict.get k (browse_cache w) with
        | Some e => if 300 * 1000000 <=? now - timestamp e then None else Some e
        | None => None
        end)
  /\ NoDup (PyDict.keys (browse_cache after))
  /\ fetch_log after = fetch_log w.
Proof.
  intros ND now after. unfold after. rewrite cleanup_cache_run. simpl.
  fold now.
  set (p := fun kv : string * CacheEntry =>
              CACHE_DURATION <=? now - timestamp (snd kv)).
  split; [|split; [|reflexivity]].
  - intros k.
    destruct (sweep_keeps k (map fst (filter p (browse_cache w)))
                (browse_cache w) ND) as [_ G].
    rewrite G.
    destruct (PyDict.get k (browse_cache w)) as [e|] eqn:Gk.
    + rewrite (selected_key k e p _ ND Gk). reflexivity.
    + now destruct (existsb _ _).
  - apply (sweep_keeps EmptyString). assumption.
Qed.

Lemma count_valid_run (entries : list CacheEntry) (acc : Z) (w : World) :
  exists n w',
    count_valid clock acc entries w = (Return n, w')
    /\ acc <= n <= acc + Z.of_nat (List.length entries)
    /\ browse_cache w' = browse_cache w /\ fetch_log w' = fetch_log w.
Proof.
  revert acc w; induction entries as [|e entries IH]; intros acc w; simpl.
  - exists acc, w. repeat split; lia.
  - unfold bind, is_cache_valid, bind, utcnow, ret. simpl.
    destruct (_ <? _).
    + destruct (IH (acc + 1) (mk_world (browse_cache w) (S (ticks w))
                                (fetch_log w)))
        as (n & w' & E & B & C & L).
      exists n, w'. repeat split; auto; lia.
    + destruct (IH acc (mk_world (browse_cache w) (S (ticks w)) (fetch_log w)))
        as (n & w' & E & B & C & L).
      exists n, w'. repeat split; auto; lia.
Qed.

(** X11 (get_cache_info, get_stats, clear_cache). The cache report counts
    every entry as valid or expired, reports 300 seconds and changes
    nothing; the statistics always succeed; clearing reports the number of
    entries it removed and empties the cache, after which the report is
    all zero and every listing calls the browse service. *)
Theorem cache_report_and_clear (w : World) :
  (exists info w',
      get_cache_info clock w = (Return info, w')
      /\ total_entries info = Z.of_nat (List.length (browse_cache w))
      /\ valid_entries info + expired_entries info = total_entries info
      /\ 0 <= valid_entries info <= total_entries info
      /\ 0 <= expired_entries info
      /\ cache_duration_seconds info = 300
      /\ browse_cache w' = browse_cache w /\ fetch_log w' = fetch_log w)
  /\ (exists stats w',
         get_stats clock w = (Ok stats, w')
         /\ s_cache_size stats = Z.of_nat (List.length (browse_cache w))
         /\ 0 <= s_valid_entries stats <= s_cache_size stats
         /\ browse_cache w' = browse_cache w)
  /\ fst (clear_cache_reply w)
     = "Cleared " ++ PyStr.of_int (Z.of_nat (List.length (browse_cache w)))
       ++ " cache entries"
  /\ browse_cache (snd (clear_cache_reply w)) = []
  /\ fst (get_cache_info clock (snd (clear_cache_reply w)))
     = Return (mk_cache_info 0 0 0 300)
  /\ (forall rq,
         fetch_log (snd (browse_concerts year_padded clock upstream rq
                           (snd (clear_cache_reply w))))
         = (fetch_log w ++ [build_params rq])%list).
Proof.
  split; [|split; [|split; [|split; [|split]]]].
  - unfold get_cache_info, bind, utcnow, get_browse_cache, ret. simpl.
    destruct (count_valid_run (PyDict.values (browse_cache w)) 0
                (mk_world (browse_cache w) (S (ticks w)) (fetch_log w)))
      as (n & w' & E & B & C & L).
    rewrite E. eexists _, _. split; [reflexivity|]. simpl.
    unfold PyDict.values in B. rewrite length_map in B.
    repeat split; auto; lia.
  - unfold get_stats, bind, get_browse_cache, ret. simpl.
    destruct (count_valid_run (PyDict.values (browse_cache w)) 0 w)
      as (n & w' & E & B & C & L).
    rewrite E. eexists _, _. split; [reflexivity|]. simpl.
    unfold PyDict.values in B. rewrite length_map in B.
    repeat split; auto; lia.
  - reflexivity.
  - reflexivity.
  - reflexivity.
  - intros rq.
    apply (listing_miss_log year_padded clock upstream rq
             (snd (clear_cache_reply w))).
    reflexivity.
Qed.
End AdminFacts.

(** ** Dates in keys *)

Lemma zrange_in (n : nat) (a k : Z) :
  a <= k < a + Z.of_nat n -> In k (zrange n a).
Proof.
  revert a; induction n as [|n IH]; intros a H; simpl; [lia|].
  destruct (Z.eq_dec a k) as [->|N]; [now left|].
  right. apply IH. lia.
Qed.

Lemma forallb_zrange (f : Z -> bool) (n a k : Z) :
  forallb f (zrange (Z.to_nat n) a) = true -> a <= k < a + n -> f k = true.
Proof.
  intros H Hk. rewrite forallb_forall in H. apply H, zrange_in. lia.
Qed.

Lemma year_text_all : forallb year_text_ok (zrange (Z.to_nat 9999) 1) = true.
Proof. vm_compute. reflexivity. Qed.

Lemma month_day_text_all :
  forallb (fun m => forallb (month_day_text_ok m) (zrange (Z.to_nat 31) 1))
    (zrange (Z.to_nat 12) 1) = true.
Proof. vm_compute. reflexivity. Qed.

Lemma short_year_text_all :
  forallb short_year_text_ok (zrange (Z.to_nat 999) 1) = true.
Proof. vm_compute. reflexivity. Qed.

Lemma days_in_month_le_31 (y m : Z) : PyDate.days_in_month y m <= 31.
Proof.
  unfold PyDate.days_in_month.
  destruct ((m =? 2) && PyDate.is_leap y); [lia|].
  unfold PyDate.days_in_month_table.
  destruct (Z.to_nat m) as [|[|[|[|[|[|[|[|[|[|[|[|[|[|k]]]]]]]]]]]]]]; simpl; lia.
Qed.

(** [strptime] reads back what [strftime] wrote. *)
Lemma strptime_strftime (year_padded : bool) (d : datetime) :
  valid_date d -> year_padded = true \/ 1000 <= dt_year d ->
  PyDate.strptime_ymd (PyDate.strftime_ymd year_padded d) = Some (midnight d).
Proof.
  intros (Hy & Hm & Hd) Hpad.
  assert (Hd31 := days_in_month_le_31 (dt_year d) (dt_month d)).
  assert (Y := forallb_zrange _ _ _ (dt_year d) year_text_all ltac:(lia)).
  assert (MD0 := forallb_zrange _ _ _ (dt_month d) month_day_text_all
                   ltac:(lia)).
  assert (MD := forallb_zrange _ _ _ (dt_day d) MD0 ltac:(lia)).
  clear MD0. unfold year_text_ok, month_day_text_ok in *.
  unfold PyDate.strftime_ymd, midnight.
  destruct (PyStr.zfill 4 (dt_year d))
    as [|a [|b [|c [|e [|? ?]]]]] eqn:Z4; try discriminate.
  apply andb_true_iff in Y as [Y Y3].
  apply andb_true_iff in Y as [Y Y2].
  assert (E : (if year_padded then String a (String b (String c (String e EmptyString)))
               else PyStr.of_int (dt_year d))
              = String a (String b (String c (String e EmptyString)))).
  { destruct year_padded; [reflexivity|].
    destruct Hpad as [|Hpad]; [discriminate|].
    apply orb_true_iff in Y3 as [Y3|Y3].
    - apply Z.ltb_lt in Y3. lia.
    - now apply String.eqb_eq in Y3. }
  rewrite E. cbn [String.append].
  unfold PyDate.strptime_ymd. rewrite Y. cbn [andb Ascii.eqb Bool.eqb].
  destruct (PyDate.match_month _) as [[m' d']|]; [|discriminate].
  apply andb_true_iff in MD as [M1 M2].
  apply Z.eqb_eq in M1, M2, Y2. subst m' d'. rewrite Y2.
  destruct (Z.leb_spec 1 (dt_year d)); [|lia].
  destruct (Z.leb_spec (dt_day d) (PyDate.days_in_month (dt_year d) (dt_month d)));
    [reflexivity | lia].
Qed.

Lemma lacks_app (c : ascii) (a b : string) :
  lacks c (a ++ b) = lacks c a && lacks c b.
Proof.
  induction a as [|x a IH]; simpl; [reflexivity|].
  rewrite IH. now rewrite andb_assoc.
Qed.

Lemma lacks_uint (c : ascii) (d : Decimal.uint) :
  PyDate.is_digit c = false ->
  lacks c (NilEmpty.string_of_uint d) = true.
Proof.
  intros H. induction d; cbn [NilEmpty.string_of_uint lacks];
    try reflexivity; rewrite IHd;
    match goal with
    | |- context [Ascii.eqb ?x c] =>
        destruct (Ascii.eqb_spec x c) as [<-|]; [discriminate | reflexivity]
    end.
Qed.

(** The decimal text of an integer has digits and at most a minus sign. *)
Lemma lacks_of_int (c : ascii) (n : Z) :
  PyDate.is_digit c = false -> c <> "-"%char ->
  lacks c (PyStr.of_int n) = true.
Proof.
  intros H N. unfold PyStr.of_int, NilZero.string_of_int, NilZero.string_of_uint.
  assert (Z0 : lacks c "0" = true).
  { cbn [lacks]. destruct (Ascii.eqb_spec "0" c) as [<-|];
      [discriminate | reflexivity]. }
  destruct (Z.to_int n) as [d|d].
  - destruct d; try apply Z0; now apply (lacks_uint c).
  - cbn [lacks]. destruct (Ascii.eqb_spec "-" c) as [<-|]; [contradiction|].
    destruct d; try apply Z0; now apply (lacks_uint c).
Qed.

Lemma lacks_zeros (c : ascii) (k : nat) :
  PyDate.is_digit c = false -> lacks c (PyStr.zeros k) = true.
Proof.
  intros H. induction k as [|k IH]; cbn [PyStr.zeros lacks]; [reflexivity|].
  rewrite IH. destruct (Ascii.eqb_spec "0" c) as [<-|]; [discriminate | reflexivity].
Qed.

Lemma lacks_zfill (c : ascii) (w : nat) (n : Z) :
  PyDate.is_digit c = false -> c <> "-"%char ->
  lacks c (PyStr.zfill w n) = true.
Proof.
  intros H N. unfold PyStr.zfill.
  now rewrite lacks_app, lacks_zeros, lacks_of_int.
Qed.

Lemma lacks_strftime (c : ascii) (year_padded : bool) (d : datetime) :
  PyDate.is_digit c = false -> c <> "-"%char ->
  lacks c (PyDate.strftime_ymd year_padded d) = true.
Proof.
  intros H N. unfold PyDate.strftime_ymd.
  rewrite !lacks_app, !lacks_zfill by assumption.
  assert (D : lacks c "-" = true).
  { cbn [lacks]. destruct (Ascii.eqb_spec "-" c) as [<-|];
      [contradiction | reflexivity]. }
  rewrite D. destruct year_padded;
    [rewrite lacks_zfill by assumption | rewrite lacks_of_int by assumption];
    reflexivity.
Qed.

Lemma split_acc_lacks (sep : ascii) (s cur : string) :
  lacks sep s = true -> PyStr.split_acc sep cur s = [cur ++ s].
Proof.
  revert cur; induction s as [|c s IH]; intros cur; simpl.
  - intros _. f_equal. clear. induction cur; simpl; congruence.
  - intros H. apply andb_true_iff in H as [H1 H2].
    apply negb_true_iff in H1. rewrite H1, IH by assumption.
    f_equal. clear. induction cur; simpl; congruence.
Qed.

Section DatedKeys.
Variable year_padded : bool.
Variable clock : nat -> datetime.
Variable upstream : nat -> Params -> FetchOutcome.

Local Notation "'key_of'" := (extract_concert_key year_padded).

(** The parts of the key of a dated recording whose artist has no bar. *)
Lemma dated_key_split (r : ArchiveItem) (d : datetime) :
  date r = Some d ->
  lacks "|" (PyStr.or_default (artist r) "Unknown Artist") = true ->
  PyStr.split "|" (key_of r)
  = [PyStr.or_default (artist r) "Unknown Artist";
     PyDate.strftime_ymd year_padded d].
Proof.
  intros Hd Ha. unfold extract_concert_key. rewrite Hd.
  change ("|" ++ PyDate.strftime_ymd year_padded d)
    with (String "|" (PyDate.strftime_ymd year_padded d)).
  unfold PyStr.split. rewrite split_acc_app.
  rewrite (split_acc_lacks "|" _ EmptyString Ha).
  unfold PyStr.split.
  rewrite (split_acc_lacks "|" _ EmptyString
             (lacks_strftime "|" year_padded d eq_refl ltac:(discriminate))).
  reflexivity.
Qed.

Lemma dated_key_emits (r : ArchiveItem) (d : datetime) :
  date r = Some d -> valid_date d ->
  year_padded = true \/ 1000 <= dt_year d ->
  lacks "|" (PyStr.or_default (artist r) "Unknown Artist") = true ->
  key_emits (key_of r) = true.
Proof.
  intros Hd Hv Hp Ha. unfold key_emits.
  rewrite (dated_key_split r d Hd Ha), (strptime_strftime _ d Hv Hp).
  reflexivity.
Qed.

Lemma Forall2_in_r {X Y : Type} (R : X -> Y -> Prop) (xs : list X)
    (ys : list Y) (y : Y) :
  Forall2 R xs ys -> In y ys -> exists x, In x xs /\ R x y.
Proof.
  induction 1 as [|x0 y0 xs ys Hr _ IH]; simpl; [contradiction|].
  intros [<-|H]; [exists x0; auto|].
  destruct (IH H) as (x & Hx & Rx). exists x. auto.
Qed.

Lemma emitting_key_has_group (t : nat) (items : list ArchiveItem)
    (r : ArchiveItem) :
  In r items -> key_emits (key_of r) = true ->
  exists c,
    In c (fst (group_recordings_by_concert year_padded clock t items))
    /\ c_concert_key c = key_of r.
Proof.
  intros Hin Hem.
  assert (K : In (key_of r)
                (filter key_emits (first_occurrences (map key_of items)))).
  { apply filter_In. split; [|assumption].
    apply first_occurrences_in, in_map. assumption. }
  destruct (Forall2_in_r _ _ _ _ (groups_by_key year_padded clock t items) K)
    as (c & Hc & Hk & _).
  exists c. auto.
Qed.

Lemma group_origin (c : Concert) (groups : list (string * list ArchiveItem))
    (t0 : nat) :
  In c (fst (make_concerts clock t0 groups)) ->
  exists t1 k rs, make_concert clock t1 k rs = Some c.
Proof.
  revert t0; induction groups as [|[k rs] groups IH]; intros t0; simpl;
    [contradiction|].
  destruct (make_concert clock t0 k rs) as [c0|] eqn:E; [|apply IH].
  generalize (IH (t0 + 2 + List.length rs)%nat).
  destruct (make_concerts clock _ groups) as [cs t']. simpl.
  intros IH' [<-|H]; eauto.
Qed.

Lemma group_of_dated_key (t : nat) (items : list ArchiveItem) (c : Concert)
    (r : ArchiveItem) (d : datetime) :
  In c (fst (group_recordings_by_concert year_padded clock t items)) ->
  c_concert_key c = key_of r ->
  date r = Some d -> valid_date d ->
  year_padded = true \/ 1000 <= dt_year d ->
  lacks "|" (PyStr.or_default (artist r) "Unknown Artist") = true ->
  c_artist c = PyStr.or_default (artist r) "Unknown Artist"
  /\ c_date c = midnight d /\ 1 <= c_total_recordings c.
Proof.
  intros Hc Hk Hd Hv Hp Ha.
  destruct (group_origin c _ _ Hc) as (t1 & k & rs & E).
  destruct (make_concert_fields clock t1 k rs c E)
    as (NE & _ & Hck & (ds & Hs & Hpd) & _ & Hn & _).
  rewrite <- Hck, Hk, (dated_key_split r d Hd Ha) in Hs.
  inversion Hs; subst ds.
  rewrite (strptime_strftime _ d Hv Hp) in Hpd. inversion Hpd.
  repeat split; auto.
  rewrite Hn. destruct rs; [contradiction | simpl; lia].
Qed.

(** X12 (extract_concert_key, group_recordings_by_concert). A recording
    with a calendar date (of at least four digits unless years are zero-
    filled) and an artist without a bar is found in a concert with its
    key, its artist and its date at midnight. *)
Theorem dated_recording_is_grouped (t : nat) (items : list ArchiveItem)
    (r : ArchiveItem) (d : datetime) :
  In r items -> date r = Some d -> valid_date d ->
  year_padded = true \/ 1000 <= dt_year d ->
  lacks "|" (PyStr.or_default (artist r) "Unknown Artist") = true ->
  exists c,
    In c (fst (group_recordings_by_concert year_padded clock t items))
    /\ c_concert_key c = key_of r
    /\ c_artist c = PyStr.or_default (artist r) "Unknown Artist"
    /\ c_date c = midnight d
    /\ 1 <= c_total_recordings c.
Proof.
  intros Hin Hd Hv Hp Ha.
  destruct (emitting_key_has_group t items r Hin
              (dated_key_emits r d Hd Hv Hp Ha)) as (c & Hc & Hk).
  exists c. split; [assumption|]. split; [assumption|].
  now apply (group_of_dated_key t items c r d).
Qed.

(** X13 (extract_concert_key, group_recordings_by_concert). Where strftime
    does not zero-fill the year, the key of a recording dated before the
    year 1000 has a date text that strptime rejects, so the grouping skips
    the recording. *)
Theorem early_year_dropped_when_unpadded (r : ArchiveItem) (d : datetime) :
  year_padded = false -> date r = Some d -> 1 <= dt_year d < 1000 ->
  key_emits (key_of r) = false.
Proof.
  intros Hp Hd Hy. unfold key_emits, extract_concert_key. rewrite Hd, Hp.
  change ("|" ++ PyDate.strftime_ymd false d)
    with (String "|" (PyDate.strftime_ymd false d)).
  unfold PyStr.split. rewrite split_acc_app. unfold PyStr.split.
  rewrite (split_acc_lacks "|" (PyDate.strftime_ymd false d) EmptyString
             (lacks_strftime "|" false d eq_refl ltac:(discriminate))).
  cbn [String.append].
  generalize (split_acc_nonempty "|"
                (PyStr.or_default (artist r) "Unknown Artist") EmptyString).
  destruct (PyStr.split_acc _ _ _) as [|a [|b l]]; intros NE;
    [contradiction | | simpl; now destruct l].
  cbn [app].
  assert (S3 := forallb_zrange _ _ _ (dt_year d) short_year_text_all ltac:(lia)).
  unfold short_year_text_ok in S3. apply Nat.leb_le in S3.
  unfold PyDate.strftime_ymd.
  set (rest := PyStr.zfill 2 (dt_month d) ++ "-" ++ PyStr.zfill 2 (dt_day d)).
  assert (N : forall y tail, (String.length y <= 3)%nat ->
                PyDate.strptime_ymd (y ++ String "-" tail) = None).
  { clear. intros y tail L.
    destruct y as [|a [|b [|c [|e y]]]]; simpl in L; try lia;
      destruct tail as [|t1 [|t2 [|t3 [|t4 tail]]]]; try reflexivity;
      unfold PyDate.strptime_ymd; cbn [String.append];
      repeat match goal with
             | |- context [PyDate.is_digit ?x] =>
                 is_var x; destruct (PyDate.is_digit x)
             end; reflexivity. }
  change ("-" ++ rest) with (String "-" rest).
  now rewrite N.
Qed.

(** X14 (get_concert_details, fetch branch). When the cache scan finds
    nothing and the browse service lists a dated recording whose key is
    the requested one, the lookup returns the concert of that key and
    date. *)
Theorem detail_found_upstream (key : string) (w : World)
    (items : list ArchiveItem) (r : ArchiveItem) (d : datetime) :
  fst (scan_cache clock key (PyDict.values (browse_cache w)) w) = Return None ->
  key = key_of r -> date r = Some d -> valid_date d ->
  year_padded = true \/ 1000 <= dt_year d ->
  lacks "|" (PyStr.or_default (artist r) "Unknown Artist") = true ->
  upstream (List.length (fetch_log w))
    [("artist", PStr (PyStr.or_default (artist r) "Unknown Artist"));
     ("per_page", PInt 100)] = FetchOk items ->
  In r items ->
  exists c,
    fst (get_concert_details year_padded clock upstream key w) = Ok c
    /\ c_concert_key c = key /\ c_date c = midnight d.
Proof.
  intros Hscan Hkey Hd Hv Hp Ha Hup Hin.
  destruct (details_after_scan year_padded clock upstream key w)
    as (found & w1 & E & L & B).
  rewrite E in Hscan. simpl in Hscan. inversion Hscan; subst found.
  unfold get_concert_details. rewrite B. clear B.
  unfold search_concert. rewrite Hkey, (dated_key_split r d Hd Ha).
  unfold bind, fetch_recordings. rewrite L, Hup.
  unfold except_ValueError, match_fetched.
  rewrite (strptime_strftime _ d Hv Hp).
  set (same_day := fun item : ArchiveItem =>
                     match date item with
                     | Some d0 =>
                         PyDate.date_eqb (PyDate.date d0)
                           (PyDate.date (midnight d))
                     | None => false
                     end).
  assert (Hm : In r (filter same_day items)).
  { apply filter_In. split; [assumption|]. unfold same_day. rewrite Hd.
    unfold PyDate.date_eqb, PyDate.date, midnight. simpl.
    now rewrite !Z.eqb_refl. }
  destruct (filter same_day items) as [|m ms] eqn:Fm; [contradiction|].
  unfold bind, run_grouper. simpl ticks.
  destruct (emitting_key_has_group (ticks w1) (m :: ms) r Hm
              (dated_key_emits r d Hd Hv Hp Ha)) as (c & Hc & Hk).
  assert (Hdate : forall c0,
             In c0 (fst (group_recordings_by_concert year_padded clock
                           (ticks w1) (m :: ms))) ->
             c_concert_key c0 = key_of r -> c_date c0 = midnight d).
  { intros c0 H0 K0.
    now destruct (group_of_dated_key _ _ c0 r d H0 K0 Hd Hv Hp Ha) as (_ & ? & _). }
  destruct (group_recordings_by_concert _ _ _ (m :: ms)) as [cs t'].
  simpl in Hc, Hdate.
  destruct (find (fun c0 => String.eqb (c_concert_key c0) (key_of r)) cs)
    as [c'|] eqn:F.
  - simpl. exists c'. apply find_some in F as [Hc' F].
    apply String.eqb_eq in F. split; [reflexivity|]. split; [congruence|].
    now apply Hdate.
  - exfalso. apply (find_none _ _ F) in Hc. apply String.eqb_neq in Hc.
    contradiction.
Qed.
End DatedKeys.

(** ** The main API in front of the aggregation service *)

Section MainApiFacts.
Variable year_padded : bool.
Variable clock : nat -> datetime.
Variable upstream : nat -> Params -> FetchOutcome.

(** X15 (main API browse_concerts). For per_page at least 1 (as both
    endpoints require) the main API passes a successful listing of the
    aggregation service through unchanged and replaces each of its
    failures, whatever status it has, by 502 'Aggregation service
    unavailable'; the flag, page and per_page are forwarded as given. *)
Theorem main_api_masks_listing_failures (rq : ListingRequest) (w : World) :
  1 <= q_per_page rq ->
  let inner := browse_concerts year_padded clock upstream (forwarded rq) w in
  let outer := api_browse_concerts year_padded clock upstream LinkDelivered rq w in
  snd outer = snd inner
  /\ (forall body, fst inner = Ok body -> fst outer = Ok body)
  /\ (forall status detail,
         fst inner = Fail status detail ->
         fst outer = Fail 502 "Aggregation service unavailable")
  /\ (fst (cache_lookup clock (get_cache_key (build_params (forwarded rq))) w)
      = Return None ->
      (forall items,
          upstream (List.length (fetch_log w)) (build_params (forwarded rq))
          <> FetchOk items) ->
      fst outer = Fail 502 "Aggregation service unavailable")
  /\ q_filter_by_concert_date (forwarded rq) = q_filter_by_concert_date rq
  /\ q_page (forwarded rq) = q_page rq
  /\ q_per_page (forwarded rq) = q_per_page rq.
Proof.
  intros _ inner outer. unfold outer, api_browse_concerts. fold inner.
  assert (Hfail : fst (cache_lookup clock
                         (get_cache_key (build_params (forwarded rq))) w)
                  = Return None ->
                  (forall items,
                      upstream (List.length (fetch_log w))
                        (build_params (forwarded rq)) <> FetchOk items) ->
                  exists status detail, fst inner = Fail status detail).
  { intros Hmiss Hup.
    destruct (listing_miss year_padded clock upstream (forwarded rq) w Hmiss)
      as (w1 & L & _ & E).
    assert (F := fetch_fresh_failure year_padded clock upstream (forwarded rq)
                   (get_cache_key (build_params (forwarded rq))) w1).
    cbv zeta in F. rewrite L in F.
    unfold inner, browse_concerts, browse_concerts_body, bind. rewrite E.
    destruct (upstream (List.length (fetch_log w)) (build_params (forwarded rq)))
      as [items| | | |] eqn:U; [now contradiction (Hup items) | | | |];
      rewrite F; simpl; eauto. }
  destruct inner as [[body|status detail] w'] eqn:Ei; simpl.
  - repeat split; auto; try discriminate.
    intros Hmiss Hup. destruct (Hfail Hmiss Hup) as (s & d & X). discriminate.
  - repeat split; auto; discriminate.
Qed.
End MainApiFacts.

(** ** The cache key tells parameter sets apart *)

Lemma unescape_escape (c : ascii) (rest : string) :
  unescape_char (PyJson.escape_char c ++ rest) = Some (c, rest).
Proof.
  destruct c as [[] [] [] [] [] [] [] []]; reflexivity.
Qed.

Lemma append_assoc (a b c : string) : (a ++ b) ++ c = a ++ (b ++ c).
Proof. induction a; simpl; congruence. Qed.

Lemma escape_inj (s1 s2 r1 r2 : string) :
  PyJson.escape s1 ++ String (ascii_of_nat 34) r1
  = PyJson.escape s2 ++ String (ascii_of_nat 34) r2 ->
  s1 = s2 /\ r1 = r2.
Proof.
  revert s2; induction s1 as [|c1 s1 IH]; intros [|c2 s2]; simpl; intros H.
  - now inversion H.
  - exfalso. apply (f_equal unescape_char) in H.
    rewrite append_assoc, unescape_escape in H. discriminate.
  - exfalso. apply (f_equal unescape_char) in H.
    rewrite append_assoc, unescape_escape in H. discriminate.
  - assert (H' := f_equal unescape_char H).
    rewrite !append_assoc, !unescape_escape in H'. inversion H'; subst.
    destruct (IH _ H2) as [-> ->]. auto.
Qed.

Lemma app_lacks_inj (c : ascii) (a1 a2 r1 r2 : string) :
  lacks c a1 = true -> lacks c a2 = true ->
  a1 ++ String c r1 = a2 ++ String c r2 -> a1 = a2 /\ r1 = r2.
Proof.
  revert a2; induction a1 as [|x a1 IH]; intros [|y a2]; simpl; intros L1 L2 H.
  - now inversion H.
  - inversion H; subst. rewrite Ascii.eqb_refl in L2. discriminate.
  - inversion H; subst. rewrite Ascii.eqb_refl in L1. discriminate.
  - inversion H; subst.
    apply andb_true_iff in L1 as [_ L1], L2 as [_ L2].
    destruct (IH _ L1 L2 H2) as [-> ->]. auto.
Qed.

Lemma of_int_inj (n m : Z) : PyStr.of_int n = PyStr.of_int m -> n = m.
Proof.
  unfold PyStr.of_int. intros H.
  apply DecimalZ.to_int_inj.
  assert (I : forall k, NilZero.int_of_string (NilZero.string_of_int (Z.to_int k))
                        = Some (Z.to_int k)).
  { intros k. apply NilZero.isi.
    - destruct k; simpl; try discriminate.
      intros E. inversion E as [E']. 
      generalize (DecimalPos.Unsigned.to_uint_nonnil p). congruence.
    - destruct k; simpl; try discriminate.
      intros E. inversion E as [E'].
      generalize (DecimalPos.Unsigned.to_uint_nonnil p). congruence. }
  assert (X := I n). rewrite H, I in X. now inversion X.
Qed.

Lemma dumps_str_app (s x : string) :
  PyJson.dumps_str s ++ x
  = String (ascii_of_nat 34)
      (PyJson.escape s ++ String (ascii_of_nat 34) x).
Proof.
  unfold PyJson.dumps_str, PyJson.quote, PyStr.chr.
  cbn [String.append]. now rewrite append_assoc.
Qed.

Lemma value_inj (v1 v2 : pvalue) (r1 r2 : string) :
  PyJson.dumps_value v1 ++ String "]" r1
  = PyJson.dumps_value v2 ++ String "]" r2 ->
  v1 = v2 /\ r1 = r2.
Proof.
  assert (Q : forall n r s x,
             PyStr.of_int n ++ String "]" r
             = String (ascii_of_nat 34) (PyJson.escape s ++ x) -> False).
  { intros n r s x H.
    assert (L := lacks_of_int (ascii_of_nat 34) n eq_refl ltac:(discriminate)).
    destruct (PyStr.of_int n) as [|c t]; simpl in H, L; [discriminate|].
    inversion H; subst. discriminate. }
  destruct v1 as [s1|n1], v2 as [s2|n2]; simpl PyJson.dumps_value;
    rewrite ?dumps_str_app; intros H.
  - inversion H as [H'].
    destruct (escape_inj _ _ _ _ H') as [-> E]. inversion E. auto.
  - exfalso. symmetry in H. eapply Q, H.
  - exfalso. eapply Q, H.
  - destruct (app_lacks_inj "]" _ _ _ _
                (lacks_of_int "]" n1 eq_refl ltac:(discriminate))
                (lacks_of_int "]" n2 eq_refl ltac:(discriminate)) H) as [E ->].
    apply of_int_inj in E. subst. auto.
Qed.

(** The text of one [(name, value)] pair. *)
Lemma pair_text_app (kv : string * pvalue) (x : string) :
  ("[" ++ PyJson.dumps_str (fst kv) ++ ", " ++ PyJson.dumps_value (snd kv) ++ "]")
  ++ x
  = String "[" (String (ascii_of_nat 34)
      (PyJson.escape (fst kv)
       ++ String (ascii_of_nat 34)
            (String "," (String " "
               (PyJson.dumps_value (snd kv) ++ String "]" x))))).
Proof.
  cbn [String.append]. f_equal.
  rewrite append_assoc, dumps_str_app. do 2 f_equal.
  cbn [String.append]. do 3 f_equal. now rewrite append_assoc.
Qed.

Lemma pair_text_inj (kv1 kv2 : string * pvalue) (x1 x2 : string) :
  ("[" ++ PyJson.dumps_str (fst kv1) ++ ", " ++ PyJson.dumps_value (snd kv1)
   ++ "]") ++ x1
  = ("[" ++ PyJson.dumps_str (fst kv2) ++ ", " ++ PyJson.dumps_value (snd kv2)
     ++ "]") ++ x2 ->
  kv1 = kv2 /\ x1 = x2.
Proof.
  rewrite !pair_text_app. intros H. inversion H as [H'].
  destruct (escape_inj _ _ _ _ H') as [Ek E]. inversion E as [E'].
  destruct (value_inj _ _ _ _ E') as [Ev ->].
  destruct kv1, kv2; simpl in *; subst; auto.
Qed.

Lemma joined_pairs_inj (l1 l2 : list (string * pvalue)) :
  PyStr.join ", "
    (map (fun kv => "[" ++ PyJson.dumps_str (fst kv) ++ ", "
                    ++ PyJson.dumps_value (snd kv) ++ "]") l1) ++ "]"
  = PyStr.join ", "
      (map (fun kv => "[" ++ PyJson.dumps_str (fst kv) ++ ", "
                      ++ PyJson.dumps_value (snd kv) ++ "]") l2) ++ "]" ->
  l1 = l2.
Proof.
  set (enc := fun kv : string * pvalue =>
                "[" ++ PyJson.dumps_str (fst kv) ++ ", "
                ++ PyJson.dumps_value (snd kv) ++ "]").
  assert (J : forall x l,
             PyStr.join ", " (map enc (x :: l)) ++ "]"
             = enc x ++ match l with
                        | [] => "]"
                        | _ :: _ => ", " ++ PyStr.join ", " (map enc l) ++ "]"
                        end).
  { intros x [|y l]; [reflexivity|].
    change (PyStr.join ", " (map enc (x :: y :: l)))
      with (enc x ++ ", " ++ PyStr.join ", " (map enc (y :: l))).
    now rewrite !append_assoc. }
  assert (B : forall x r, "]" = enc x ++ r -> False).
  { intros x r H. unfold enc in H. rewrite pair_text_app in H. discriminate. }
  revert l2; induction l1 as [|x1 l1 IH]; intros [|x2 l2] H.
  - reflexivity.
  - exfalso. rewrite J in H. simpl in H. eapply (B x2), H.
  - exfalso. rewrite J in H. simpl in H. symmetry in H. eapply (B x1), H.
  - rewrite !J in H. destruct (pair_text_inj _ _ _ _ H) as [-> T].
    f_equal. destruct l1 as [|y1 l1], l2 as [|y2 l2]; try discriminate.
    + reflexivity.
    + apply IH. cbn [String.append] in T. now inversion T.
Qed.

Lemma dumps_inj (l1 l2 : list (string * pvalue)) :
  PyJson.dumps l1 = PyJson.dumps l2 -> l1 = l2.
Proof.
  unfold PyJson.dumps. cbn [String.append]. intros H. inversion H.
  now apply joined_pairs_inj.
Qed.

Lemma get_in_iff {V : Type} (k : string) (v : V) (d : PyDict.t V) :
  NoDup (PyDict.keys d) -> (PyDict.get k d = Some v <-> In (k, v) d).
Proof.
  induction d as [|[k0 v0] d IH]; simpl; intros ND.
  - split; [discriminate | contradiction].
  - inversion ND as [|? ? Hnin ND']; subst.
    destruct (String.eqb_spec k0 k) as [->|N].
    + split.
      * intros E. inversion E. now left.
      * intros [E|H]; [now inversion E|].
        exfalso. apply Hnin. change k with (fst (k, v)). now apply in_map.
    + rewrite (IH ND'). split; [now right|].
      intros [E|H]; [inversion E; contradiction | assumption].
Qed.

Lemma get_permutation {V : Type} (k : string) (d1 d2 : PyDict.t V) :
  NoDup (PyDict.keys d1) -> Permutation d1 d2 ->
  PyDict.get k d1 = PyDict.get k d2.
Proof.
  intros ND P.
  assert (ND2 : NoDup (PyDict.keys d2)).
  { eapply Permutation_NoDup; [|exact ND]. now apply Permutation_map. }
  destruct (PyDict.get k d1) as [v|] eqn:G1.
  - symmetry. apply (get_in_iff k v d2 ND2).
    eapply Permutation_in; [exact P|]. now apply (get_in_iff k v d1 ND).
  - destruct (PyDict.get k d2) as [v|] eqn:G2; [|reflexivity].
    apply (get_in_iff k v d2 ND2) in G2.
    apply (Permutation_in _ (Permutation_sym P)) in G2.
    apply (get_in_iff k v d1 ND) in G2. congruence.
Qed.

Lemma build_params_nodup (rq : ListingRequest) :
  NoDup (PyDict.keys (build_params rq)).
Proof.
  unfold build_params.
  destruct (q_query rq), (q_date_range rq), (q_artist rq), (q_venue rq),
    (q_sort_by rq), (q_sort_order rq); simpl;
    repeat (constructor; [simpl; intuition discriminate|]); constructor.
Qed.

Lemma build_params_fields (rq : ListingRequest) :
  PyDict.get "query" (build_params rq) = option_map PStr (q_query rq)
  /\ PyDict.get "date_range" (build_params rq) = option_map PStr (q_date_range rq)
  /\ PyDict.get "artist" (build_params rq) = option_map PStr (q_artist rq)
  /\ PyDict.get "venue" (build_params rq) = option_map PStr (q_venue rq)
  /\ PyDict.get "page" (build_params rq) = Some (PInt (q_page rq))
  /\ PyDict.get "per_page" (build_params rq) = Some (PInt (q_per_page rq * 3))
  /\ PyDict.get "sort_by" (build_params rq) = option_map PStr (q_sort_by rq)
  /\ PyDict.get "sort_order" (build_params rq)
     = option_map PStr (q_sort_order rq).
Proof.
  unfold build_params.
  destruct (q_query rq), (q_date_range rq), (q_artist rq), (q_venue rq),
    (q_sort_by rq), (q_sort_order rq); repeat split.
Qed.

(** X16 (get_cache_key). Two listing requests with the same cache key
    agree on query, date_range, artist, venue, page, per_page, sort_by and
    sort_order: no two different parameter sets share an entry. *)
Theorem cache_key_separates_requests (rq1 rq2 : ListingRequest) :
  get_cache_key (build_params rq1) = get_cache_key (build_params rq2) ->
  q_query rq1 = q_query rq2 /\ q_date_range rq1 = q_date_range rq2
  /\ q_artist rq1 = q_artist rq2 /\ q_venue rq1 = q_venue rq2
  /\ q_page rq1 = q_page rq2 /\ q_per_page rq1 = q_per_page rq2
  /\ q_sort_by rq1 = q_sort_by rq2 /\ q_sort_order rq1 = q_sort_order rq2.
Proof.
  unfold get_cache_key. intros H. apply dumps_inj in H.
  assert (P : Permutation (build_params rq1) (build_params rq2)).
  { rewrite (py_sorted_perm item_ltb (build_params rq1)), H.
    symmetry. apply py_sorted_perm. }
  assert (G := fun k => get_permutation k _ _ (build_params_nodup rq1) P).
  destruct (build_params_fields rq1) as (A1 & A2 & A3 & A4 & A5 & A6 & A7 & A8).
  destruct (build_params_fields rq2) as (B1 & B2 & B3 & B4 & B5 & B6 & B7 & B8).
  assert (O : forall a b : option string,
             option_map PStr a = option_map PStr b -> a = b).
  { intros [a|] [b|] E; inversion E; reflexivity. }
  repeat split.
  - apply O. rewrite <- A1, <- B1. apply G.
  - apply O. rewrite <- A2, <- B2. apply G.
  - apply O. rewrite <- A3, <- B3. apply G.
  - apply O. rewrite <- A4, <- B4. apply G.
  - assert (E := G "page"). rewrite A5, B5 in E. now inversion E.
  - assert (E := G "per_page"). rewrite A6, B6 in E. inversion E. lia.
  - apply O. rewrite <- A7, <- B7. apply G.
  - apply O. rewrite <- A8, <- B8. apply G.
Qed.

(** ** Detail lookups that fail *)

Section DetailFailures.
Variable year_padded : bool.
Variable clock : nat -> datetime.
Variable upstream : nat -> Params -> FetchOutcome.

(** X17 (get_concert_details). If the cache scan finds nothing, the key
    parses, and the browse service answers with recordings none of which
    is dated on the requested day, the reply is 404 'Concert not found'
    and the call was made. *)
Theorem detail_not_found_after_fetch (key artist date_str : string)
    (target : datetime) (items : list ArchiveItem) (w : World) :
  fst (scan_cache clock key (PyDict.values (browse_cache w)) w) = Return None ->
  PyStr.split "|" key = [artist; date_str] ->
  PyDate.strptime_ymd date_str = Some target ->
  upstream (List.length (fetch_log w))
    [("artist", PStr artist); ("per_page", PInt 100)] = FetchOk items ->
  (forall r d, In r items -> date r = Some d ->
               PyDate.date d <> PyDate.date target) ->
  fst (get_concert_details year_padded clock upstream key w)
  = Fail 404 "Concert not found"
  /\ fetch_log (snd (get_concert_details year_padded clock upstream key w))
     = (fetch_log w ++ [[("artist", PStr artist); ("per_page", PInt 100)]])%list.
Proof.
  intros Hscan Hs Hp Hup Hnone.
  destruct (details_after_scan year_padded clock upstream key w)
    as (found & w1 & E & L & B).
  rewrite E in Hscan. simpl in Hscan. inversion Hscan; subst found.
  unfold get_concert_details. rewrite B. clear B.
  unfold search_concert. rewrite Hs.
  unfold bind, fetch_recordings. rewrite L, Hup.
  unfold except_ValueError, match_fetched. rewrite Hp.
  assert (F : filter (fun item : ArchiveItem =>
                        match date item with
                        | Some d => PyDate.date_eqb (PyDate.date d)
                                      (PyDate.date target)
                        | None => false
                        end) items = []).
  { clear -Hnone. induction items as [|r items IH]; [reflexivity|].
    simpl. destruct (date r) as [d|] eqn:Hd.
    - assert (N := Hnone r d (or_introl eq_refl) Hd).
      unfold PyDate.date_eqb, PyDate.date in *.
      destruct (Z.eqb_spec (dt_year d) (dt_year target)),
        (Z.eqb_spec (dt_month d) (dt_month target)),
        (Z.eqb_spec (dt_day d) (dt_day target)); simpl;
        try (apply IH; intros r0 d0 H0; apply Hnone; now right).
      exfalso. apply N. congruence.
    - apply IH. intros r0 d0 H0. apply Hnone. now right. }
  rewrite F. simpl. auto.
Qed.
End DetailFailures.

(** ** Where a group's descriptive fields come from *)

Section GroupMetadata.
Variable year_padded : bool.
Variable clock : nat -> datetime.

Local Notation "'key_of'" := (extract_concert_key year_padded).

Lemma make_concerts_made (groups : list (string * list ArchiveItem)) :
  (forall kv, In kv groups -> snd kv <> []) ->
  forall t,
    Forall2 (fun c kv => exists t1, make_concert clock t1 (fst kv) (snd kv) = Some c)
      (fst (make_concerts clock t groups))
      (filter (fun kv => key_emits (fst kv)) groups).
Proof.
  induction groups as [|[k rs] groups IH]; intros NE t; simpl; [constructor|].
  assert (NE' : forall kv, In kv groups -> snd kv <> [])
    by (intros kv H; apply NE; now right).
  destruct (make_concert clock t k rs) as [c|] eqn:E.
  - destruct (make_concert_some clock _ _ _ _ E) as (Hk & _). rewrite Hk.
    specialize (IH NE' (t + 2 + List.length rs)%nat).
    destruct (make_concerts clock _ groups) as [cs t']. simpl in *.
    constructor; [|assumption]. simpl. eauto.
  - destruct (make_concert_none clock _ _ _ E) as [Hnil|Hk].
    + exfalso. apply (NE (k, rs)); [now left | assumption].
    + rewrite Hk. now apply IH.
Qed.

(** X18 (group_recordings_by_concert). The location, description, source,
    taper and lineage of a concert come from the first input recording
    with its key, the venue is resolved over all recordings with that key,
    and the title joins artist, venue and location with dashes, leaving
    out what is missing. *)
Theorem group_metadata_from_first_recording (t : nat)
    (items : list ArchiveItem) :
  Forall (fun c =>
            exists first others,
              filter (fun r => String.eqb (key_of r) (c_concert_key c)) items
              = first :: others
              /\ c_location c = location first
              /\ c_description c
                 = PyStr.or_default (description first)
                     ("Live performance by " ++ c_artist c)
              /\ c_source c
                 = PyStr.or_default (source first) "Multiple sources available"
              /\ c_taper c = PyStr.or_none (taper first)
              /\ c_lineage c = PyStr.or_none (lineage first)
              /\ c_venue c = resolve_venue (first :: others)
              /\ c_title c
                 = PyStr.join "-"
                     ([c_artist c]
                      ++ (if PyStr.truthy (c_venue c)
                          then [PyStr.or_default (c_venue c) EmptyString]
                          else [])
                      ++ (if PyStr.truthy (location first)
                          then [PyStr.or_default (location first) EmptyString]
                          else []))%list)
    (fst (group_recordings_by_concert year_padded clock t items)).
Proof.
  unfold group_recordings_by_concert. rewrite concert_groups_buckets.
  set (ks := first_occurrences (map key_of items)).
  set (buckets := map (fun k => (k, filter (fun r => String.eqb (key_of r) k)
                                      items)) ks).
  assert (NE : forall kv, In kv buckets -> snd kv <> []).
  { intros kv Hkv. apply in_map_iff in Hkv as (k & <- & Hk). simpl.
    apply first_occurrences_in, in_map_iff in Hk as (r & Hr & Hin).
    intros Hnil.
    assert (X : In r (filter (fun r => String.eqb (key_of r) k) items)).
    { apply filter_In. split; [assumption|]. now apply String.eqb_eq. }
    rewrite Hnil in X. contradiction. }
  assert (M := make_concerts_made buckets NE t).
  assert (B : Forall (fun kv => snd kv
                                = filter (fun r => String.eqb (key_of r) (fst kv))
                                    items)
                (filter (fun kv => key_emits (fst kv)) buckets)).
  { apply Forall_forall. intros kv Hkv. apply filter_In in Hkv as [Hkv _].
    apply in_map_iff in Hkv as (k & <- & _). reflexivity. }
  revert M B. generalize (filter (fun kv => key_emits (fst kv)) buckets).
  generalize (fst (make_concerts clock t buckets)). clear.
  intros cs l M. induction M as [|c [k rs] cs l (t1 & E) _ IH]; intros B;
    constructor.
  - inversion B as [|? ? Hb _]; subst. simpl in Hb, E.
    unfold make_concert in E. destruct rs as [|r rs]; [discriminate|].
    destruct (PyStr.split "|" k) as [|a [|dstr [|? ?]]]; try discriminate.
    destruct (PyDate.strptime_ymd dstr); [|discriminate].
    inversion E; subst c; clear E. cbn [c_concert_key].
    exists r, rs. rewrite <- Hb. repeat split.
  - apply IH. now inversion B.
Qed.
End GroupMetadata.

(** ** A listing and the entries of other requests *)

Section OtherEntries.
Variable year_padded : bool.
Variable clock : nat -> datetime.
Variable upstream : nat -> Params -> FetchOutcome.

Lemma sort_in_place_other (key k : string) (sorted : list Concert) (w : World) :
  k <> key ->
  PyDict.get k (browse_cache (snd (sort_in_place key sorted w)))
  = PyDict.get k (browse_cache w).
Proof.
  intros N. unfold sort_in_place, bind, get_browse_cache, put_browse_cache, ret.
  simpl. destruct (PyDict.get key (browse_cache w)); simpl; [|reflexivity].
  rewrite get_set. apply not_eq_sym, String.eqb_neq in N. now rewrite N.
Qed.

Lemma fetch_fresh_other (rq : ListingRequest) (key k : string) (w : World)
    (e : CacheEntry) :
  NoDup (PyDict.keys (browse_cache w)) -> k <> key ->
  PyDict.get k
    (browse_cache (snd (fetch_fresh year_padded clock upstream rq
                          (build_params rq) key w))) = Some e ->
  PyDict.get k (browse_cache w) = Some e.
Proof.
  intros ND N.
  assert (S : forall concerts items t ks,
             PyDict.get k
               (fold_left (fun c k' => PyDict.del k' c) ks
                  (PyDict.set key (mk_entry concerts t items) (browse_cache w)))
             = Some e ->
             PyDict.get k (browse_cache w) = Some e).
  { intros concerts items t ks.
    destruct (sweep_keeps k ks _ (NoDup_set key (mk_entry concerts t items) _ ND))
      as [_ G].
    rewrite G, get_set. apply not_eq_sym, String.eqb_neq in N. rewrite N.
    now destruct (existsb _ ks). }
  unfold fetch_fresh, bind, fetch_recordings, run_grouper.
  destruct (upstream _ _) as [items| | | |]; simpl; auto.
  destruct (group_recordings_by_concert _ _ _ items) as [grouped t'].
  destruct (q_date_range rq) as [dr|]; simpl.
  - destruct (negb (String.eqb dr EmptyString) && q_filter_by_concert_date rq);
      simpl.
    + unfold filter_by_date, bind, utcnow. simpl.
      destruct (PyDate.sub_days (clock t') (range_days dr)); simpl; [apply S | auto].
    + apply S.
  - apply S.
Qed.

(** X19 (browse_concerts, cleanup_cache). With distinct cache keys, an
    entry found after a listing under a key other than the request's own
    was there, unchanged, before: a listing neither creates nor alters
    entries of other requests. *)
Theorem listing_leaves_other_entries (rq : ListingRequest) (w : World)
    (k : string) (e : CacheEntry) :
  NoDup (PyDict.keys (browse_cache w)) ->
  k <> get_cache_key (build_params rq) ->
  PyDict.get k
    (browse_cache (snd (browse_concerts year_padded clock upstream rq w)))
  = Some e ->
  PyDict.get k (browse_cache w) = Some e.
Proof.
  intros ND N. set (key := get_cache_key (build_params rq)) in *.
  unfold browse_concerts, browse_concerts_body, load_concerts, bind.
  fold key. rewrite cache_lookup_run.
  assert (F : forall w1, browse_cache w1 = browse_cache w ->
     PyDict.get k
       (browse_cache
          (snd
             match
               (let (r, w'0) := fetch_fresh year_padded clock upstream rq
                                  (build_params rq) key w1 in
                match r with
                | Return a =>
                    let (r0, w'1) :=
                      sort_in_place key
                        (sort_concerts (q_sort_by rq) (q_sort_order rq) a) w'0 in
                    match r0 with
                    | Return _ =>
                        ret (paginate (q_page rq) (q_per_page rq)
                               (sort_concerts (q_sort_by rq) (q_sort_order rq) a))
                          w'1
                    | Raise e0 => (Raise e0, w'1)
                    end
                | Raise e0 => (Raise e0, w'0)
                end)
             with
             | (Return r, w'0) => (Ok r, w'0)
             | (Raise (HTTPStatusError _), w'0) =>
                 (Fail 502 "Browse service unavailable", w'0)
             | (Raise _, w'0) => (Fail 500 "Failed to aggregate concerts", w'0)
             end)) = Some e ->
     PyDict.get k (browse_cache w) = Some e).
  { intros w1 Hc.
    assert (ND1 : NoDup (PyDict.keys (browse_cache w1))) by now rewrite Hc.
    assert (O := fetch_fresh_other rq key k w1 e ND1 N). rewrite Hc in O.
    destruct (fetch_fresh _ _ _ rq (build_params rq) key w1) as [[cs|x] w2];
      simpl in *.
    - set (sorted := sort_concerts _ _ cs).
      assert (So := sort_in_place_other key k sorted w2 N).
      destruct (sort_in_place_effects key sorted w2) as (R & _).
      destruct (sort_in_place key sorted w2) as [[[]|x] w3]; simpl in *;
        [|discriminate].
      rewrite So. exact O.
    - destruct x; exact O. }
  destruct (PyDict.get key (browse_cache w)) as [e0|].
  - destruct (_ <? _).
    + unfold ret.
      set (sorted := sort_concerts _ _ (data e0)).
      assert (So := sort_in_place_other key k sorted
                      (mk_world (browse_cache w) (S (ticks w)) (fetch_log w)) N).
      destruct (sort_in_place_effects key sorted
                  (mk_world (browse_cache w) (S (ticks w)) (fetch_log w)))
        as (R & _).
      destruct (sort_in_place key sorted _) as [[[]|x] w3]; simpl in *;
        [|discriminate].
      now rewrite So.
    + apply F. reflexivity.
  - apply F. reflexivity.
Qed.
End OtherEntries.

(* ------------------------------------------------------------------ *)
(** * The further properties at work on sample data *)

Lemma recordings_conserved_witness :
  fst (group_recordings_by_concert true sample_clock 0 []) = [].
Proof.
  apply (proj2 (proj2 (proj2 (recordings_conserved true sample_clock 0 [])))).
  reflexivity.
Defined.

Lemma dated_recording_witness :
  exists c,
    In c (fst (group_recordings_by_concert true sample_clock 0
                 [sample_undated; sample_recording]))
    /\ c_concert_key c = extract_concert_key true sample_recording
    /\ c_artist c = "Phish"
    /\ c_date c = mk_datetime 1995 8 16 0 0 0 0
    /\ 1 <= c_total_recordings c.
Proof.
  apply (dated_recording_is_grouped true sample_clock 0
           [sample_undated; sample_recording] sample_recording
           (mk_datetime 1995 8 16 0 0 0 0)).
  - simpl. right. left. reflexivity.
  - reflexivity.
  - unfold valid_date. vm_compute. repeat split; discriminate.
  - left. reflexivity.
  - reflexivity.
Defined.

Lemma early_year_witness :
  key_emits (extract_concert_key false sample_early) = false.
Proof.
  apply (early_year_dropped_when_unpadded false sample_early
           (mk_datetime 999 6 1 0 0 0 0)).
  - reflexivity.
  - reflexivity.
  - simpl. lia.
Defined.

Lemma listing_sort_keeps_ties_witness :
  filter (fun c => String.eqb (PyStr.lower (c_artist c)) "apple")
    (sort_concerts (Some "artist") (Some "desc")
       [billed "zebra"; billed "Apple"; billed "apple"])
  = [billed "Apple"; billed "apple"].
Proof.
  apply (proj1 (listing_sort_keeps_ties (Some "artist") (Some "desc")
                  [billed "zebra"; billed "Apple"; billed "apple"]) eq_refl
           "apple").
Defined.

Lemma pages_partition_witness :
  List.concat
    (map (fun i => l_results (paginate (Z.of_nat i + 1) 2
                                [billed "a"; billed "b"; billed "c"]))
       (seq 0 (Z.to_nat (l_total_pages (paginate 1 2
                                          [billed "a"; billed "b"; billed "c"])))))
  = [billed "a"; billed "b"; billed "c"].
Proof.
  apply (proj1 (pages_partition_the_list [billed "a"; billed "b"; billed "c"] 2
                  ltac:(lia))).
Defined.

Lemma listing_calls_upstream_once_witness :
  fetch_log (snd (browse_concerts true sample_clock upstream_serving
                    sample_request empty_world))
  = [build_params sample_request]
  /\ fetch_log (snd (browse_concerts true sample_clock upstream_serving
                       sample_request world_after_listing))
     = fetch_log world_after_listing.
Proof.
  split.
  - apply (proj1 (listing_calls_upstream_once true sample_clock
                    upstream_serving sample_request empty_world)).
    reflexivity.
  - apply (proj1 (proj1 (proj2 (listing_calls_upstream_once true sample_clock
                                  upstream_serving sample_request
                                  world_after_listing))
                    sample_entry ltac:(simpl; lia)
                    ltac:(vm_compute; reflexivity))).
Defined.

Lemma failed_listing_witness :
  browse_cache (snd (browse_concerts true sample_clock upstream_timing_out
                       sample_other_request world_after_listing))
  = browse_cache world_after_listing.
Proof.
  apply (proj1 (failed_listing_leaves_cache true sample_clock
                  upstream_timing_out sample_other_request world_after_listing
                  (snd (browse_concerts true sample_clock upstream_timing_out
                          sample_other_request world_after_listing))
                  500 "Failed to aggregate concerts"
                  ltac:(simpl; lia) ltac:(vm_compute; reflexivity))).
Defined.

Lemma detail_reply_key_witness :
  c_concert_key sample_detail = "Phish|1995-08-16".
Proof.
  apply (detail_reply_has_requested_key true sample_clock upstream_serving
           "Phish|1995-08-16" world_after_listing
           (snd (get_concert_details true sample_clock upstream_serving
                   "Phish|1995-08-16" world_after_listing))
           sample_detail).
  vm_compute. reflexivity.
Defined.

Lemma cached_concert_witness :
  exists c',
    fst (get_concert_details true sample_clock upstream_serving
           "Phish|1995-08-16" world_after_listing) = Ok c'
    /\ c_concert_key c' = "Phish|1995-08-16"
    /\ fetch_log (snd (get_concert_details true sample_clock upstream_serving
                         "Phish|1995-08-16" world_after_listing))
       = fetch_log world_after_listing.
Proof.
  apply (cached_concert_served_without_fetch true sample_clock upstream_serving
           "Phish|1995-08-16" [] [] sample_cache_key sample_entry sample_detail
           world_after_listing).
  - vm_compute. reflexivity.
  - vm_compute. reflexivity.
  - vm_compute. left. reflexivity.
  - vm_compute. reflexivity.
Defined.

Lemma detail_found_upstream_witness :
  exists c,
    fst (get_concert_details true sample_clock upstream_serving
           "Phish|1995-08-16" empty_world) = Ok c
    /\ c_concert_key c = "Phish|1995-08-16"
    /\ c_date c = mk_datetime 1995 8 16 0 0 0 0.
Proof.
  apply (detail_found_upstream true sample_clock upstream_serving
           "Phish|1995-08-16" empty_world [sample_recording] sample_recording
           (mk_datetime 1995 8 16 0 0 0 0)).
  - reflexivity.
  - reflexivity.
  - reflexivity.
  - unfold valid_date. vm_compute. repeat split; discriminate.
  - left. reflexivity.
  - reflexivity.
  - reflexivity.
  - left. reflexivity.
Defined.

Lemma sweep_witness :
  NoDup (PyDict.keys (browse_cache (snd (cleanup_cache sample_clock
                                           world_after_listing)))).
Proof.
  apply (proj1 (proj2 (sweep_removes_exactly_expired sample_clock
                         world_after_listing
                         ltac:(vm_compute; repeat constructor; simpl; tauto)))).
Defined.

Lemma main_api_witness :
  fst (api_browse_concerts true sample_clock upstream_timing_out LinkDelivered
         sample_request empty_world)
  = Fail 502 "Aggregation service unavailable".
Proof.
  apply (proj1 (proj2 (proj2 (proj2
           (main_api_masks_listing_failures true sample_clock
              upstream_timing_out sample_request empty_world
              ltac:(simpl; lia)))))).
  - reflexivity.
  - intros items. discriminate.
Defined.

Lemma cache_key_separates_witness :
  q_query sample_request = q_query (with_filter_flag true sample_request)
  /\ q_date_range sample_request
     = q_date_range (with_filter_flag true sample_request)
  /\ q_artist sample_request = q_artist (with_filter_flag true sample_request)
  /\ q_venue sample_request = q_venue (with_filter_flag true sample_request)
  /\ q_page sample_request = q_page (with_filter_flag true sample_request)
  /\ q_per_page sample_request
     = q_per_page (with_filter_flag true sample_request)
  /\ q_sort_by sample_request = q_sort_by (with_filter_flag true sample_request)
  /\ q_sort_order sample_request
     = q_sort_order (with_filter_flag true sample_request).
Proof.
  apply (cache_key_separates_requests sample_request
           (with_filter_flag true sample_request)).
  reflexivity.
Defined.

Lemma detail_not_found_witness :
  fst (get_concert_details true sample_clock upstream_serving
         "Phish|2001-01-01" empty_world)
  = Fail 404 "Concert not found".
Proof.
  apply (proj1 (detail_not_found_after_fetch true sample_clock upstream_serving
                  "Phish|2001-01-01" "Phish" "2001-01-01"
                  (mk_datetime 2001 1 1 0 0 0 0) [sample_recording] empty_world
                  eq_refl eq_refl eq_refl eq_refl
                  ltac:(intros r d [<-|[]] E; inversion E; discriminate))).
Defined.

Lemma listing_leaves_other_entries_witness :
  PyDict.get sample_cache_key (browse_cache world_after_listing)
  = Some sample_entry.
Proof.
  apply (listing_leaves_other_entries true sample_clock upstream_serving
           sample_other_request world_after_listing sample_cache_key
           sample_entry).
  - vm_compute. repeat constructor. simpl. tauto.
  - vm_compute. discriminate.
  - vm_compute. reflexivity.
Defined.
